(** * bot.py: account onboarding, link queue and cooldown learning

    A shallow embedding of [bot.py] and the properties of its handlers.

    Conventions of the embedding.
    - A Python [str] is a [string] whose characters are the code points
      0..255 (the Latin-1 range); [str] methods are embedded with the
      behaviour CPython has on that range.
    - A Python [float] is a primitive binary64 [float]; a Python [int] is
      a [Z].
    - The SQLite file [links.db] is a record of two tables, each a list
      of rows in rowid order.
    - Calls to Telethon are answered by a [provider] record given to each
      handler; the calls made and the replies sent are appended to a
      trace kept in the world state.
    - A handler is a function from the world before to the world after
      one message; the conversation state of aiogram is keyed by the
      operator's id, as [pending_login] is.

    Embedded: [init_db], [add_account_meta], [update_ema],
    [classify_link], the handlers of the add-account conversation,
    [cmd_export_assist], [cmd_report] and [classify_msg]. *)

From Stdlib Require Import ZArith NArith Floats Lia Ascii String.
From Stdlib Require Import DecimalString.
From stdpp Require Import base option list gmap strings.

Set Warnings "-inexact-float,-clear-no-such-hyp".

Open Scope string_scope.
Open Scope list_scope.
Open Scope Z_scope.

(** ** Python [str] on the Latin-1 range *)

Module PyStr.

(** [str.isspace] for one character: U+0009..U+000D, U+001C..U+001F,
    U+0020, U+0085 and U+00A0. *)
Definition is_space (c : ascii) : bool :=
  let n := N_of_ascii c in
  ((9 <=? n) && (n <=? 13) || (28 <=? n) && (n <=? 31)
   || (n =? 32) || (n =? 133) || (n =? 160))%N.

(** [str.lower] for one character: A..Z and U+00C0..U+00DE except the
    multiplication sign U+00D7 move up by 32. *)
Definition lower_char (c : ascii) : ascii :=
  let n := N_of_ascii c in
  if ((65 <=? n) && (n <=? 90)
      || (192 <=? n) && (n <=? 222) && negb (n =? 215))%N
  then ascii_of_N (n + 32) else c.

Fixpoint lower (s : string) : string :=
  match s with
  | EmptyString => EmptyString
  | String c s' => String (lower_char c) (lower s')
  end.

Fixpoint lstrip (s : string) : string :=
  match s with
  | EmptyString => EmptyString
  | String c s' => if is_space c then lstrip s' else s
  end.

Fixpoint rstrip (s : string) : string :=
  match s with
  | EmptyString => EmptyString
  | String c s' =>
      match rstrip s' with
      | EmptyString => if is_space c then EmptyString else String c EmptyString
      | r => String c r
      end
  end.

Definition strip (s : string) : string := rstrip (lstrip s).

Definition startswith (s pat : string) : bool := String.prefix pat s.

(** [pat in s] *)
Fixpoint contains (pat s : string) : bool :=
  String.prefix pat s
  || match s with
     | EmptyString => false
     | String _ s' => contains pat s'
     end.

Fixpoint endswith (s pat : string) : bool :=
  String.eqb s pat
  || match s with
     | EmptyString => false
     | String _ s' => endswith s' pat
     end.

(** [s.split()]: the maximal runs of non-space characters. *)
Fixpoint split (s : string) : list string :=
  match s with
  | EmptyString => []
  | String c s' =>
      if is_space c then split s'
      else
        match s' with
        | EmptyString => [String c EmptyString]
        | String c' _ =>
            if is_space c' then String c EmptyString :: split s'
            else
              match split s' with
              | t :: ts => String c t :: ts
              | [] => [String c EmptyString]
              end
        end
  end.

Definition is_decimal_char (c : ascii) : bool :=
  let n := N_of_ascii c in ((48 <=? n) && (n <=? 57))%N.

(** One character of [str.isdigit]: the decimal digits and the
    superscripts U+00B2, U+00B3 and U+00B9. *)
Definition is_digit_char (c : ascii) : bool :=
  let n := N_of_ascii c in
  (is_decimal_char c || (n =? 178) || (n =? 179) || (n =? 185))%N.

Fixpoint all_chars (p : ascii -> bool) (s : string) : bool :=
  match s with
  | EmptyString => true
  | String c s' => p c && all_chars p s'
  end.

Definition nonempty (s : string) : bool :=
  match s with EmptyString => false | _ => true end.

Definition isdigit (s : string) : bool := nonempty s && all_chars is_digit_char s.

Fixpoint decimal_value (acc : Z) (s : string) : Z :=
  match s with
  | EmptyString => acc
  | String c s' => decimal_value (10 * acc + (Z.of_N (N_of_ascii c) - 48)) s'
  end.

(** [int(s)] at the call sites of the program, which all pass a string
    that satisfied [isdigit]: the value of a run of decimal digits,
    [None] (a [ValueError]) when a character is not a decimal digit. *)
Definition int_of_digits (s : string) : option Z :=
  if nonempty s && all_chars is_decimal_char s then Some (decimal_value 0 s) else None.

Definition no_space (c : ascii) : bool := negb (is_space c).

Definition LF : ascii := ascii_of_N 10.

Fixpoint count_char (c : ascii) (s : string) : nat :=
  match s with
  | EmptyString => O
  | String c' s' => (if Ascii.eqb c c' then 1 else 0) + count_char c s'
  end.

Fixpoint last_is (c : ascii) (s : string) : bool :=
  match s with
  | EmptyString => false
  | String c' EmptyString => Ascii.eqb c c'
  | String _ s' => last_is c s'
  end.

(** Number of lines of a text: one per line feed, and one more for a
    last line that is not terminated. *)
Definition line_count (s : string) : nat :=
  (count_char LF s + (if nonempty s && negb (last_is LF s) then 1 else 0))%nat.

Fixpoint concat_lines (ls : list string) : string :=
  match ls with
  | [] => EmptyString
  | l :: ls' => l +:+ String LF (concat_lines ls')
  end.

End PyStr.

(** ** Link classifier *)

Definition classify_link (url : string) : string :=
  let u := PyStr.lower (PyStr.strip url) in
  if PyStr.startswith u "@" then "unknown"
  else if PyStr.contains "t.me/joinchat" u || PyStr.contains "/+/" u
          || PyStr.contains "t.me/+" u || PyStr.contains "joinchat" u
  then "group_invite"
  else if PyStr.contains "t.me/" u && (PyStr.contains "bot" u || PyStr.endswith u "bot")
  then "bot"
  else "unknown".

(** ** Python values and exceptions *)

Inductive exn :=
  | ValueError | OverflowError | TypeError | KeyError
  | OperationalError | ProgrammingError.

Inductive result (A : Type) :=
  | Ok (a : A)
  | Raise (e : exn).
Arguments Ok {A} a.
Arguments Raise {A} e.

#[global] Instance result_ret : MRet result := fun _ a => Ok a.
#[global] Instance result_bind : MBind result := fun _ _ k m =>
  match m with
  | Ok a => k a
  | Raise e => Raise e
  end.

(** A number at run time is an [int] or a [float]. *)
Inductive pynum :=
  | PyInt (z : Z)
  | PyFloat (f : float).

(** [float(z)]: correctly rounded, [OverflowError] when [z] is too large
    for a binary64. *)
Definition float_of_int (z : Z) : result float :=
  match binary_normalize prec emax z 0 false with
  | S754_infinity _ => Raise OverflowError
  | sf => Ok (SF2Prim sf)
  end.

Definition to_float (x : pynum) : result float :=
  match x with
  | PyInt z => float_of_int z
  | PyFloat f => Ok f
  end.

Definition arith (fz : Z -> Z -> Z) (ff : float -> float -> float) (x y : pynum) : result pynum :=
  match x, y with
  | PyInt a, PyInt b => Ok (PyInt (fz a b))
  | _, _ => a ← to_float x; b ← to_float y; Ok (PyFloat (ff a b))
  end.

Definition pymul := arith Z.mul PrimFloat.mul.
Definition pyadd := arith Z.add PrimFloat.add.
Definition pysub := arith Z.sub PrimFloat.sub.

(** *** Fixed-point formatting, [format(x, ".kf")] *)

Definition round_half_even (n d : Z) : Z :=
  let q := n / d in
  match 2 * (n mod d) ?= d with
  | Lt => q
  | Gt => q + 1
  | Eq => if Z.even q then q else q + 1
  end.

(** The integer nearest to [m * 2^e * 10^k]. *)
Definition scaled (k : nat) (m : positive) (e : Z) : Z :=
  if 0 <=? e then Z.pos m * 2 ^ e * 10 ^ Z.of_nat k
  else round_half_even (Z.pos m * 10 ^ Z.of_nat k) (2 ^ (- e)).

Definition digits (z : Z) : string := NilZero.string_of_uint (N.to_uint (Z.to_N z)).

Fixpoint zeros (n : nat) : string :=
  match n with
  | O => EmptyString
  | S n' => String "0" (zeros n')
  end.

Definition fixed (k : nat) (n : Z) : string :=
  match k with
  | O => digits n
  | _ =>
      let fp := digits (n mod 10 ^ Z.of_nat k) in
      digits (n / 10 ^ Z.of_nat k) +:+ "." +:+ zeros (k - String.length fp) +:+ fp
  end.

Definition sign_prefix (s : bool) : string := if s then "-" else EmptyString.

Definition format_f (k : nat) (f : float) : string :=
  match Prim2SF f with
  | S754_nan => "nan"
  | S754_infinity s => sign_prefix s +:+ "inf"
  | S754_zero s => sign_prefix s +:+ fixed k 0
  | S754_finite s m e => sign_prefix s +:+ fixed k (scaled k m e)
  end.

(** [format(x, ".kf")] for a value read from a row or a constant:
    [None] has no such format. *)
Definition format_num (k : nat) (x : option pynum) : result string :=
  match x with
  | None => Raise TypeError
  | Some n => f ← to_float n; Ok (format_f k f)
  end.

(** ** Config *)

Definition EMA_ALPHA : float := 0.3.
Definition DEFAULT_COOLDOWN : Z := 120.

(** ** The SQLite store *)

(** *** Schema statements of [init_db] *)

Inductive default_clause :=
  | DefaultLiteral (text : string)
  | DefaultParameter.  (* a [?] placeholder *)

Record column_def := {
  col_name : string;
  col_decl : string;
  col_default : option default_clause
}.

Record create_table := {
  tbl_name : string;
  tbl_columns : list column_def
}.

Definition is_parameter (c : column_def) : bool :=
  match col_default c with
  | Some DefaultParameter => true
  | _ => false
  end.

(** [cur.execute("CREATE TABLE IF NOT EXISTS ...", params)] on the set of
    tables of the file. SQLite's grammar admits after DEFAULT a literal,
    a signed number or a parenthesised expression: a placeholder there is
    a syntax error when the statement is prepared, whether or not the
    table exists. A prepared statement with no placeholder takes no
    parameter. *)
Definition execute_create (stmt : create_table) (params : list pynum)
    (tables : list string) : list string * result unit :=
  if existsb is_parameter (tbl_columns stmt) then (tables, Raise OperationalError)
  else
    match params with
    | _ :: _ => (tables, Raise ProgrammingError)
    | [] =>
        if existsb (String.eqb (tbl_name stmt)) tables then (tables, Ok ())
        else (tables ++ [tbl_name stmt], Ok ())
    end.

Definition create_links : create_table :=
  {| tbl_name := "links";
     tbl_columns :=
       [ {| col_name := "id"; col_decl := "INTEGER PRIMARY KEY AUTOINCREMENT"; col_default := None |};
         {| col_name := "url"; col_decl := "TEXT UNIQUE"; col_default := None |};
         {| col_name := "kind"; col_decl := "TEXT"; col_default := Some (DefaultLiteral "'unknown'") |};
         {| col_name := "status"; col_decl := "TEXT"; col_default := Some (DefaultLiteral "'pending'") |};
         {| col_name := "last_checked"; col_decl := "INTEGER"; col_default := Some (DefaultLiteral "0") |};
         {| col_name := "tries"; col_decl := "INTEGER"; col_default := Some (DefaultLiteral "0") |} ] |}.

Definition create_accounts : create_table :=
  {| tbl_name := "accounts";
     tbl_columns :=
       [ {| col_name := "id"; col_decl := "INTEGER PRIMARY KEY AUTOINCREMENT"; col_default := None |};
         {| col_name := "session_name"; col_decl := "TEXT UNIQUE"; col_default := None |};
         {| col_name := "owner_telegram_id"; col_decl := "INTEGER"; col_default := None |};
         {| col_name := "ema_cooldown"; col_decl := "REAL"; col_default := Some DefaultParameter |} ] |}.

(** [init_db] on the tables of [links.db]: the tables afterwards and how
    the call ends. *)
Definition init_db (tables : list string) : list string * result unit :=
  match execute_create create_links [] tables with
  | (tables1, Ok _) =>
      match execute_create create_accounts [PyInt DEFAULT_COOLDOWN] tables1 with
      | (tables2, Ok _) => (tables2, Ok ())  (* commit, close *)
      | (tables2, Raise e) => (tables2, Raise e)
      end
  | (tables1, Raise e) => (tables1, Raise e)
  end.

(** *** Rows and tables *)

Record link_row := {
  link_id : Z;
  url : string;
  kind : string;
  status : string;
  last_checked : Z;
  tries : Z
}.

(** [ema_cooldown] is a REAL column: a binary64 or NULL. *)
Record account_row := {
  account_id : Z;
  session_name : string;
  owner_telegram_id : Z;
  ema_cooldown : option float
}.

(** The tables in rowid order, with the AUTOINCREMENT counters. *)
Record db := {
  links : list link_row;
  links_seq : Z;
  accounts : list account_row;
  accounts_seq : Z
}.

Definition empty_db : db :=
  {| links := []; links_seq := 0; accounts := []; accounts_seq := 0 |}.

(** A binary64 bound to a REAL column: SQLite stores NaN as NULL and a
    zero of either sign as 0.0. *)
Definition real_of_float (f : float) : option float :=
  if PrimFloat.is_nan f then None
  else if PrimFloat.is_zero f then Some 0%float
  else Some f.

(** A number bound to a REAL column; an [int] outside 64 bits cannot be
    bound. *)
Definition bind_real (x : pynum) : result (option float) :=
  match x with
  | PyFloat f => Ok (real_of_float f)
  | PyInt z =>
      if (- 2 ^ 63 <=? z) && (z <? 2 ^ 63)
      then f ← float_of_int z; Ok (real_of_float f)
      else Raise OverflowError
  end.

Definition has_url (u : string) (d : db) : bool :=
  existsb (fun r => String.eqb (url r) u) (links d).

Definition has_account (name : string) (d : db) : bool :=
  existsb (fun r => String.eqb (session_name r) name) (accounts d).

(** [INSERT OR IGNORE INTO links (url, kind) VALUES (?, ?)] *)
Definition insert_link (u k : string) (d : db) : db :=
  if has_url u d then d
  else
    let i := links_seq d + 1 in
    {| links := links d ++ [ {| link_id := i; url := u; kind := k; status := "pending";
                                last_checked := 0; tries := 0 |} ];
       links_seq := i;
       accounts := accounts d;
       accounts_seq := accounts_seq d |}.

(** [INSERT OR IGNORE INTO accounts (session_name, owner_telegram_id,
    ema_cooldown) VALUES (?, ?, ?)] with the third value already bound. *)
Definition insert_account (name : string) (owner : Z) (ema : option float) (d : db) : db :=
  if has_account name d then d
  else
    let i := accounts_seq d + 1 in
    {| links := links d;
       links_seq := links_seq d;
       accounts := accounts d ++ [ {| account_id := i; session_name := name;
                                      owner_telegram_id := owner; ema_cooldown := ema |} ];
       accounts_seq := i |}.

(** [SELECT ema_cooldown FROM accounts WHERE session_name=?] and
    [fetchone()]: the row's only column, or no row. *)
Definition select_ema (name : string) (d : db) : option (option float) :=
  ema_cooldown <$> List.find (fun r => String.eqb (session_name r) name) (accounts d).

Definition set_ema (name : string) (ema : option float) (r : account_row) : account_row :=
  if String.eqb (session_name r) name
  then {| account_id := account_id r; session_name := session_name r;
          owner_telegram_id := owner_telegram_id r; ema_cooldown := ema |}
  else r.

(** [UPDATE accounts SET ema_cooldown=? WHERE session_name=?] *)
Definition update_account (name : string) (ema : option float) (d : db) : db :=
  {| links := links d;
     links_seq := links_seq d;
     accounts := map (set_ema name ema) (accounts d);
     accounts_seq := accounts_seq d |}.

Definition exportable (r : link_row) : bool :=
  String.eqb (status r) "pending"
  && (String.eqb (kind r) "group_invite" || String.eqb (kind r) "unknown").

(** [SELECT url FROM links WHERE status='pending' AND (kind='group_invite'
    OR kind='unknown')] *)
Definition select_pending (d : db) : list string :=
  map url (List.filter exportable (links d)).

(** ** Cooldown controller *)

Definition add_account_meta (name : string) (owner : Z) (d : db) : db * result unit :=
  match bind_real (PyInt DEFAULT_COOLDOWN) with
  | Ok v => (insert_account name owner v d, Ok ())
  | Raise e => (d, Raise e)
  end.

(** The value of [EMA_ALPHA * observed_seconds + (1 - EMA_ALPHA) * prev],
    operands evaluated left to right; [prev] is the column read from the
    row, [None] for NULL. *)
Definition ema_value (observed_seconds : pynum) (prev : option float) : result pynum :=
  a ← pymul (PyFloat EMA_ALPHA) observed_seconds;
  w ← pysub (PyInt 1) (PyFloat EMA_ALPHA);
  b ← match prev with
      | Some p => pymul w (PyFloat p)
      | None => Raise TypeError
      end;
  pyadd a b.

(** [update_ema]: the store afterwards and the value returned. An
    exception leaves before any statement has written. *)
Definition update_ema (name : string) (observed_seconds : pynum) (d : db) : db * result pynum :=
  match select_ema name d with
  | Some prev =>
      match ema ← ema_value observed_seconds prev; v ← bind_real ema; Ok (ema, v) with
      | Ok (ema, v) => (update_account name v d, Ok ema)
      | Raise e => (d, Raise e)
      end
  | None =>
      let ema := PyInt DEFAULT_COOLDOWN in
      match bind_real ema with
      | Ok v => (insert_account name 0 v d, Ok ema)
      | Raise e => (d, Raise e)
      end
  end.

(** The store after acc1 has been registered by operator 42. *)
Definition acc1_db : db := fst (add_account_meta "acc1" 42 empty_db).

(** ** The bot's state *)

(** States of the add-account conversation. *)
Inductive AddAccount :=
  | waiting_api_id
  | waiting_api_hash
  | waiting_phone
  | waiting_code
  | waiting_password
  | waiting_session_name.

(** What [state.update_data] has stored for one operator. *)
Record fsm_data := {
  data_session_name : option string;
  data_api_id : option Z;
  data_api_hash : option string
}.

Definition no_data : fsm_data :=
  {| data_session_name := None; data_api_id := None; data_api_hash := None |}.

Record fsm_entry := {
  fsm_state : option AddAccount;
  fsm_values : fsm_data
}.

(** An entry of [pending_login]; Telethon clients are named by the order
    in which they were constructed. *)
Record login := {
  telethon_client : nat;
  phone : string;
  login_session_name : string;
  login_api_id : Z;
  login_api_hash : string
}.

(** How the provider answers one call. *)
Inductive answer :=
  | Done
  | SessionPasswordNeededError
  | Error (reason : string).

Definition reason_of (a : answer) : string :=
  match a with
  | Done => EmptyString
  | SessionPasswordNeededError => "Two-steps verification is enabled and a password is required"
  | Error reason => reason
  end.

(** The provider's answers to the calls one handler can make. *)
Record provider := {
  on_connect : answer;
  on_send_code_request : answer;
  on_sign_in : answer;
  on_sign_in_code : answer;
  on_sign_in_password : answer;
  on_file_connect : answer
}.

Inductive call :=
  | connect
  | send_code_request (phone : string)
  | sign_in (phone code : string)
  | sign_in_code (code : string)
  | sign_in_password (password : string)
  | disconnect.

Inductive event :=
  | Reply (chat : Z) (text : string)
  | ReplyDocument (chat : Z) (path caption : string)
  | Called (client : nat) (c : call) (a : answer)
  | Unhandled (e : exn).

Record world := {
  fsm : gmap Z fsm_entry;          (* MemoryStorage, one entry per operator *)
  pending_login : gmap Z login;
  live : gset nat;                 (* the connected Telethon clients *)
  clients : nat;                   (* how many clients were constructed *)
  database : db;
  session_files : gset string;     (* names n with sessions/n.session written *)
  data_files : gmap string string; (* text files of DATA_DIR *)
  trace : list event               (* calls, replies and crashes, oldest first *)
}.

Definition initial_world : world :=
  {| fsm := ∅; pending_login := ∅; live := ∅; clients := 0; database := empty_db;
     session_files := ∅; data_files := ∅; trace := [] |}.

Definition with_fsm (f : gmap Z fsm_entry) (w : world) : world :=
  {| fsm := f; pending_login := pending_login w; live := live w; clients := clients w;
     database := database w; session_files := session_files w;
     data_files := data_files w; trace := trace w |}.

Definition with_pending (p : gmap Z login) (w : world) : world :=
  {| fsm := fsm w; pending_login := p; live := live w; clients := clients w;
     database := database w; session_files := session_files w;
     data_files := data_files w; trace := trace w |}.

Definition with_live (l : gset nat) (w : world) : world :=
  {| fsm := fsm w; pending_login := pending_login w; live := l; clients := clients w;
     database := database w; session_files := session_files w;
     data_files := data_files w; trace := trace w |}.

Definition with_clients (n : nat) (w : world) : world :=
  {| fsm := fsm w; pending_login := pending_login w; live := live w; clients := n;
     database := database w; session_files := session_files w;
     data_files := data_files w; trace := trace w |}.

Definition with_database (d : db) (w : world) : world :=
  {| fsm := fsm w; pending_login := pending_login w; live := live w; clients := clients w;
     database := d; session_files := session_files w;
     data_files := data_files w; trace := trace w |}.

Definition with_session_files (s : gset string) (w : world) : world :=
  {| fsm := fsm w; pending_login := pending_login w; live := live w; clients := clients w;
     database := database w; session_files := s;
     data_files := data_files w; trace := trace w |}.

Definition with_data_files (s : gmap string string) (w : world) : world :=
  {| fsm := fsm w; pending_login := pending_login w; live := live w; clients := clients w;
     database := database w; session_files := session_files w;
     data_files := s; trace := trace w |}.

Definition with_trace (t : list event) (w : world) : world :=
  {| fsm := fsm w; pending_login := pending_login w; live := live w; clients := clients w;
     database := database w; session_files := session_files w;
     data_files := data_files w; trace := t |}.

Notation "w |> f" := (f w) (at level 45, left associativity, only parsing).

(** *** Effects *)

Definition emit (e : event) (w : world) : world := with_trace (trace w ++ [e]) w.

Definition reply (chat : Z) (text : string) : world -> world := emit (Reply chat text).

Definition entry_of (u : Z) (w : world) : fsm_entry :=
  default {| fsm_state := None; fsm_values := no_data |} (fsm w !! u).

Definition get_state (u : Z) (w : world) : option AddAccount := fsm_state (entry_of u w).
Definition get_data (u : Z) (w : world) : fsm_data := fsm_values (entry_of u w).

Definition set_state (u : Z) (s : AddAccount) (w : world) : world :=
  with_fsm (<[u := {| fsm_state := Some s; fsm_values := get_data u w |}]> (fsm w)) w.

Definition update_data (u : Z) (f : fsm_data -> fsm_data) (w : world) : world :=
  with_fsm (<[u := {| fsm_state := get_state u w; fsm_values := f (get_data u w) |}]> (fsm w)) w.

(** [state.clear()]: no state and no data. *)
Definition state_clear (u : Z) (w : world) : world := with_fsm (delete u (fsm w)) w.

Definition pending_pop (u : Z) (w : world) : world :=
  with_pending (delete u (pending_login w)) w.

(** A call to the provider through client [c] that was answered [a]. *)
Definition called (c : nat) (k : call) (a : answer) : world -> world := emit (Called c k a).

Definition do_connect (c : nat) (a : answer) (w : world) : world :=
  match a with
  | Done => w |> called c connect a |> with_live ({[c]} ∪ live w)
  | _ => w |> called c connect a
  end.

Definition do_disconnect (c : nat) (w : world) : world :=
  w |> called c disconnect Done |> with_live (live w ∖ {[c]}).

(** [TelegramClient(...)]: a new client, not connected. *)
Definition new_client (w : world) : world := with_clients (S (clients w)) w.

Definition write_session_file (name : string) (w : world) : world :=
  with_session_files ({[name]} ∪ session_files w) w.

Definition nl : string := String PyStr.LF EmptyString.

(** ** Handlers of the add-account conversation

    Each handler takes the operator's id [u] ([msg.from_user.id], the key
    of the conversation as well), the text of the message and, where it
    calls Telethon, the provider's answers. *)

Definition add_account_start (u : Z) (w : world) : world :=
  w |> set_state u waiting_session_name
    |> reply u "Choose a short session name (e.g. acc1). This will save sessions/<name>.session".

Definition got_session_name (u : Z) (text : string) (w : world) : world :=
  let name := PyStr.strip text in
  if negb (PyStr.nonempty name) then reply u "Session name cannot be empty." w
  else
    w |> update_data u (fun d => {| data_session_name := Some name;
                                    data_api_id := data_api_id d;
                                    data_api_hash := data_api_hash d |})
      |> set_state u waiting_api_id
      |> reply u "Enter API_ID (numeric) for this user (you get this from https://my.telegram.org).".

Definition got_api_id (u : Z) (text : string) (w : world) : world :=
  let txt := PyStr.strip text in
  if negb (PyStr.isdigit txt) then reply u "API_ID must be numeric." w
  else
    match PyStr.int_of_digits txt with
    | None => emit (Unhandled ValueError) w
    | Some n =>
        w |> update_data u (fun d => {| data_session_name := data_session_name d;
                                        data_api_id := Some n;
                                        data_api_hash := data_api_hash d |})
          |> set_state u waiting_api_hash
          |> reply u "Enter API_HASH (string)."
    end.

Definition got_api_hash (u : Z) (text : string) (w : world) : world :=
  let txt := PyStr.strip text in
  w |> update_data u (fun d => {| data_session_name := data_session_name d;
                                  data_api_id := data_api_id d;
                                  data_api_hash := Some txt |})
    |> set_state u waiting_phone
    |> reply u "Enter phone number with country code (e.g. +91XXXXXXXXXX).".

Definition got_phone (u : Z) (text : string) (p : provider) (w : world) : world :=
  let ph := PyStr.strip text in
  match data_session_name (get_data u w), data_api_id (get_data u w),
        data_api_hash (get_data u w) with
  | Some name, Some api_id, Some api_hash =>
      let client := clients w in
      let w := w |> new_client |> reply u "Sending code... please wait." in
      let failed (a : answer) (w : world) : world :=
        w |> reply u ("Failed to send code: " +:+ reason_of a)
          |> do_disconnect client
          |> state_clear u in
      match on_connect p with
      | Done =>
          let w := do_connect client Done w in
          match on_send_code_request p with
          | Done =>
              w |> called client (send_code_request ph) Done
                |> with_pending (<[u := {| telethon_client := client; phone := ph;
                                           login_session_name := name;
                                           login_api_id := api_id;
                                           login_api_hash := api_hash |}]> (pending_login w))
                |> set_state u waiting_code
                |> reply u "Code sent to your number. Please send me the code you received (just digits)."
          | a => w |> called client (send_code_request ph) a |> failed a
          end
      | a => w |> do_connect client a |> failed a
      end
  | _, _, _ => emit (Unhandled KeyError) w
  end.

(** The success path shared by [got_code] and [got_password]: close the
    client, flush the session through a file-backed client (or write the
    file directly when that client cannot connect), register the account
    and drop the conversation. *)
Definition save_session (u : Z) (obj : login) (p : provider) (saved : string)
    (w : world) : world :=
  let name := login_session_name obj in
  let w := do_disconnect (telethon_client obj) w in
  let file_client := clients w in
  let w := new_client w in
  let w :=
    match on_file_connect p with
    | Done => w |> do_connect file_client Done |> do_disconnect file_client
                |> write_session_file name
    | a => w |> do_connect file_client a |> write_session_file name
    end in
  match add_account_meta name u (database w) with
  | (d, Ok _) => w |> with_database d |> pending_pop u |> state_clear u |> reply u saved
  | (d, Raise e) => w |> with_database d |> emit (Unhandled e)
  end.

Definition got_code (u : Z) (text : string) (p : provider) (w : world) : world :=
  let code := PyStr.strip text in
  match pending_login w !! u with
  | None =>
      w |> reply u "No pending login found. Please restart with /add_account."
        |> state_clear u
  | Some obj =>
      let client := telethon_client obj in
      let saved := "Account saved as `" +:+ login_session_name obj +:+ ".session`." +:+ nl
                   +:+ "Use /sessions to list accounts." in
      let w := w |> reply u "Trying to sign in..."
                 |> called client (sign_in (phone obj) code) (on_sign_in p) in
      match on_sign_in p with
      | Done => save_session u obj p saved w
      | SessionPasswordNeededError =>
          w |> set_state u waiting_password
            |> reply u "This account has two-step verification (password). Send the password now."
      | Error e =>
          (* the fallback: sign_in(code=code) *)
          let w := called client (sign_in_code code) (on_sign_in_code p) w in
          match on_sign_in_code p with
          | Done => save_session u obj p saved w
          | e2 =>
              w |> reply u ("Sign-in failed: " +:+ e +:+ " / " +:+ reason_of e2)
                |> do_disconnect client
                |> pending_pop u
                |> state_clear u
          end
      end
  end.

Definition got_password (u : Z) (text : string) (p : provider) (w : world) : world :=
  let pwd := PyStr.strip text in
  match pending_login w !! u with
  | None => w |> reply u "No pending login." |> state_clear u
  | Some obj =>
      let client := telethon_client obj in
      let w := called client (sign_in_password pwd) (on_sign_in_password p) w in
      match on_sign_in_password p with
      | Done =>
          save_session u obj p
            ("Account saved as `" +:+ login_session_name obj +:+ ".session`.") w
      | e =>
          w |> reply u ("Password sign-in failed: " +:+ reason_of e)
            |> do_disconnect client
            |> pending_pop u
            |> state_clear u
      end
  end.

(** ** Export, report and link ingestion *)

(** What [cmd_export_assist] writes, one string per [f.write]. *)
Definition assist_writes (name secs : string) (urls : list string) : list string :=
  ("Recommended delay between joins for " +:+ name +:+ ": " +:+ secs +:+ " seconds"
   +:+ nl +:+ nl)
  :: map (fun u => u +:+ nl) urls.

Definition written (chunks : list string) : string :=
  fold_right String.append EmptyString chunks.

Definition cmd_export_assist (u : Z) (text : string) (w : world) : world :=
  match PyStr.split text with
  | _ :: name :: _ =>
      let name := PyStr.strip name in
      match select_pending (database w) with
      | [] => reply u "No pending group links." w
      | urls =>
          let ema :=
            match select_ema name (database w) with
            | Some v => PyFloat <$> v
            | None => Some (PyInt DEFAULT_COOLDOWN)
            end in
          let out_file := "assist_" +:+ name +:+ ".txt" in
          match format_num 0 ema with
          | Ok secs =>
              w |> with_data_files (<[out_file := written (assist_writes name secs urls)]>
                                      (data_files w))
                |> emit (ReplyDocument u out_file
                           ("Assist file for " +:+ name +:+ ". Recommended delay "
                            +:+ secs +:+ "s"))
          | Raise e =>
              (* the file was opened for writing, nothing was written *)
              w |> with_data_files (<[out_file := EmptyString]> (data_files w))
                |> emit (Unhandled e)
          end
      end
  | _ => reply u "Usage: /export_assist <session_name>" w
  end.

(** The artifact [cmd_export_assist] sent in its last event, if any. *)
Definition exported (w : world) : option string :=
  match last (trace w) with
  | Some (ReplyDocument _ path _) => data_files w !! path
  | _ => None
  end.

Definition report_usage : string :=
  "Usage: /report <session_name> <ok|flood <seconds>|fail>".

Definition report_invalid : string :=
  "Invalid report format. Examples:" +:+ nl +:+ "/report acc1 ok" +:+ nl
  +:+ "/report acc1 fail" +:+ nl +:+ "/report acc1 flood 120".

(** A call of [update_ema] from [cmd_report], followed by the reply that
    quotes the new estimate. *)
Definition report_update (u : Z) (name : string) (observed : result pynum)
    (recorded : string) (w : world) : world :=
  match observed with
  | Raise e => emit (Unhandled e) w
  | Ok obs =>
      match update_ema name obs (database w) with
      | (d, Ok new_ema) =>
          match format_num 1 (Some new_ema) with
          | Ok shown =>
              w |> with_database d
                |> reply u (recorded +:+ " New EMA cooldown for " +:+ name +:+ ": "
                            +:+ shown +:+ "s")
          | Raise e => w |> with_database d |> emit (Unhandled e)
          end
      | (d, Raise e) => w |> with_database d |> emit (Unhandled e)
      end
  end.

Definition cmd_report (u : Z) (text : string) (w : world) : world :=
  match PyStr.split text with
  | _ :: name :: res :: rest =>
      let name := PyStr.strip name in
      let res := PyStr.strip res in
      if String.eqb res "ok" then
        report_update u name (pymul (PyInt DEFAULT_COOLDOWN) (PyFloat 0.9))
          "Recorded success." w
      else if String.eqb res "fail" then
        report_update u name (pymul (PyInt DEFAULT_COOLDOWN) (PyFloat 1.2))
          "Recorded failure." w
      else
        match rest with
        | secs :: _ =>
            if String.eqb res "flood" && PyStr.isdigit secs then
              match PyStr.int_of_digits secs with
              | Some sec =>
                  report_update u name (Ok (PyInt sec))
                    ("Recorded FloodWait " +:+ digits sec +:+ "s.") w
              | None => emit (Unhandled ValueError) w
              end
            else reply u report_invalid w
        | [] => reply u report_invalid w
        end
  | _ => reply u report_usage w
  end.

Definition classify_msg (u : Z) (text : string) (w : world) : world :=
  if PyStr.startswith text "http" || PyStr.startswith text "@" then
    let kind := classify_link text in
    w |> with_database (insert_link (PyStr.strip text) kind (database w))
      |> reply u ("Saved link as kind=" +:+ kind
                  +:+ ". Use /export_assist <session_name> to get assist file.")
  else w.

(** ** Binary64 numbers in specification form *)

(** A binary64 in its [spec_float] form is above zero. *)
Definition sf_positive (x : spec_float) : bool :=
  match x with
  | S754_finite false _ _ | S754_infinity false => true
  | _ => false
  end.

(** A binary64 in its [spec_float] form is a number that is not negative. *)
Definition sf_nonnegative (x : spec_float) : bool :=
  match x with
  | S754_zero _ | S754_finite false _ _ | S754_infinity false => true
  | _ => false
  end.

(** [mrs] is what is left of [M] after dividing by [P], a power of two:
    the quotient, and where the remainder lies in [0, P). *)
Definition shifted (M P : Z) (mrs : shr_record) : Prop :=
  exists R, M = shr_m mrs * P + R /\ 0 <= R < P /\ 0 <= shr_m mrs
            /\ shr_r mrs = (P <=? 2 * R)
            /\ shr_s mrs = negb (R =? 0) && negb (2 * R =? P).

(** The mantissa after rounding to nearest, ties to even. *)
Definition rounded (mrs : shr_record) : Z :=
  round_nearest_even (shr_m mrs) (loc_of_shr_record mrs).

(** ** Statements, invariants and scenarios *)

(** The UNIQUE constraint on [links.url]. *)
Definition unique_urls (d : db) : Prop := NoDup (map url (links d)).

(** The rows stored for one identifier. *)
Definition rows_of_url (u : string) (d : db) : list link_row :=
  List.filter (fun r => String.eqb (url r) u) (links d).

(** The header line of the artifact: the text before the first line feed
    that [cmd_export_assist] writes. *)
Definition assist_header (name secs : string) : string :=
  "Recommended delay between joins for " +:+ name +:+ ": " +:+ secs +:+ " seconds".

(** What the export of a session with [n] matching entries would be if the
    artifact had one header line and one line per entry only. *)
Definition export_one_line_per_entry (u : Z) (text : string) (w : world) : Prop :=
  let n := length (select_pending (database w)) in
  let w' := cmd_export_assist u text w in
  (n = O -> exported w' = None)
  /\ (n <> O ->
      exists content, exported w' = Some content
                      /\ PyStr.line_count content = (1 + n)%nat).

Definition one_link_world : world :=
  classify_msg 7 "https://t.me/+AbCd1234" initial_world.

(** The text "/report acc1 flood " followed by the one character U+00B2
    (superscript two). *)
Definition report_superscript : string :=
  "/report acc1 flood " +:+ String (ascii_of_N 178) EmptyString.

(** The UNIQUE constraint on [accounts.session_name]. *)
Definition unique_sessions (d : db) : Prop := NoDup (map session_name (accounts d)).

(** The rows stored for one session name. *)
Definition rows_of_account (name : string) (d : db) : list account_row :=
  List.filter (fun r => String.eqb (session_name r) name) (accounts d).

(** The two handlers that can finish an onboarding. *)
Inductive finishing := ByCode | ByPassword.

Definition finish (k : finishing) : Z -> string -> provider -> world -> world :=
  match k with
  | ByCode => got_code
  | ByPassword => got_password
  end.

(** The provider's answers with which the handler signs in: the code is
    accepted, at once or by the fallback call, or the password is. *)
Definition signs_in (k : finishing) (p : provider) : Prop :=
  match k with
  | ByCode =>
      on_sign_in p = Done
      \/ exists e, on_sign_in p = Error e /\ on_sign_in_code p = Done
  | ByPassword => on_sign_in_password p = Done
  end.

(** What C1 states of the world after an onboarding with session name
    [name] carried out through [client] has completed: one row has that
    name, it holds the default as the store keeps it, and the client is
    not connected. *)
Definition completed_with_default (name : string) (client : nat) (w : world) : Prop :=
  (exists r, rows_of_account name (database w) = [r]
             /\ bind_real (PyInt DEFAULT_COOLDOWN) = Ok (ema_cooldown r))
  /\ client ∉ live w.

Definition all_done : provider :=
  {| on_connect := Done; on_send_code_request := Done; on_sign_in := Done;
     on_sign_in_code := Done; on_sign_in_password := Done; on_file_connect := Done |}.

(** Operator 7 onboards acc1 through client 0. *)
Definition onboarded_world : world :=
  initial_world |> add_account_start 7 |> got_session_name 7 "acc1"
    |> got_api_id 7 "12345" |> got_api_hash 7 "0123456789abcdef"
    |> got_phone 7 "+15550100" all_done |> got_code 7 "11111" all_done.

(** Then reports a failure for acc1 and onboards acc1 again, through
    client 2. *)
Definition onboarded_again_world : world :=
  onboarded_world |> cmd_report 7 "/report acc1 fail"
    |> add_account_start 7 |> got_session_name 7 "acc1"
    |> got_api_id 7 "12345" |> got_api_hash 7 "0123456789abcdef"
    |> got_phone 7 "+15550100" all_done |> got_code 7 "22222" all_done.

Definition awaiting_code_world : world :=
  initial_world |> add_account_start 7 |> got_session_name 7 "acc1"
    |> got_api_id 7 "12345" |> got_api_hash 7 "0123456789abcdef"
    |> got_phone 7 "+15550100" all_done.

Definition acc1_login : login :=
  {| telethon_client := 0; phone := "+15550100"; login_session_name := "acc1";
     login_api_id := 12345; login_api_hash := "0123456789abcdef" |}.

(** The events one handler run adds to the trace. *)
Definition events_of (step : world -> world) (w : world) : list event :=
  drop (length (trace w)) (trace (step w)).

(** A request to the provider: any call but the closing of a connection. *)
Definition is_request (e : event) : bool :=
  match e with
  | Called _ disconnect _ => false
  | Called _ _ _ => true
  | _ => false
  end.

(** A request that failed: it raised, and not the second-factor signal of
    the sign-in with the code. *)
Definition is_failure (e : event) : bool :=
  match e with
  | Called _ disconnect _ => false
  | Called _ _ Done => false
  | Called _ (sign_in _ _) SessionPasswordNeededError => false
  | Called _ _ _ => true
  | _ => false
  end.

(** A failed request other than the first sign-in with the code. *)
Definition is_final_failure (e : event) : bool :=
  match e with
  | Called _ (sign_in _ _) _ => false
  | _ => is_failure e
  end.

(** No request follows an event that [fails] selects. *)
Fixpoint no_request_after (fails : event -> bool) (t : list event) : bool :=
  match t with
  | [] => true
  | e :: t' =>
      (if fails e then forallb (fun e' => negb (is_request e')) t' else true)
      && no_request_after fails t'
  end.

(** The handlers that call the provider. *)
Inductive calling := AtPhone | AtCode | AtPassword.

Definition handler (k : calling) : Z -> string -> provider -> world -> world :=
  match k with
  | AtPhone => got_phone
  | AtCode => got_code
  | AtPassword => got_password
  end.

(** The provider refuses the code and accepts the fallback call. *)
Definition fallback_accepts : provider :=
  {| on_connect := Done; on_send_code_request := Done;
     on_sign_in := Error "PHONE_CODE_INVALID"; on_sign_in_code := Done;
     on_sign_in_password := Done; on_file_connect := Done |}.

(** No handler run calls the provider again after a failed request. *)
Definition never_retried (step : world -> world) (w : world) : Prop :=
  no_request_after is_failure (events_of step w) = true.

(** The provider refuses the code twice. *)
Definition code_refused : provider :=
  {| on_connect := Done; on_send_code_request := Done;
     on_sign_in := Error "PHONE_CODE_INVALID";
     on_sign_in_code := Error "PHONE_CODE_INVALID";
     on_sign_in_password := Done; on_file_connect := Done |}.

(** Operator 7 starts a second flow while the first one, whose client 0
    is connected, waits for its code; the second flow reaches the same
    point with client 1. *)
Definition restarted_world : world :=
  awaiting_code_world |> add_account_start 7 |> got_session_name 7 "acc2"
    |> got_api_id 7 "12345" |> got_api_hash 7 "0123456789abcdef"
    |> got_phone 7 "+15550100" all_done.

(** What C9 states once the new flow has stored its connection: the
    client of the abandoned flow is closed. *)
Definition abandoned_closed (old : login) (w : world) : Prop :=
  telethon_client old ∉ live w.

(** A call of the cooldown controller. *)
Inductive op :=
  | Register (name : string) (owner : Z)
  | Update (name : string) (observed_seconds : pynum).

Definition run_op (o : op) (d : db) : db :=
  match o with
  | Register name owner => fst (add_account_meta name owner d)
  | Update name observed => fst (update_ema name observed d)
  end.

Definition run_ops (ops : list op) (d : db) : db :=
  fold_left (fun d o => run_op o d) ops d.

Definition nonnegative (x : pynum) : Prop :=
  match x with
  | PyInt z => 0 <= z
  | PyFloat f => (0 <=? f)%float = true
  end.

Definition nonnegative_op (o : op) : Prop :=
  match o with
  | Register _ _ => True
  | Update _ observed => nonnegative observed
  end.

(** Every stored estimate is a number above zero. *)
Definition positive_estimates (d : db) : Prop :=
  Forall (fun r => exists f, ema_cooldown r = Some f /\ (0 <? f)%float = true) (accounts d).

(** ** Seeding links and listing accounts *)

Definition CR : ascii := ascii_of_N 13.

(** The lines a text file yields when iterated ([for l in f], universal
    newlines): a line ends after a line feed, a carriage return or the
    two in a row, each read as one line feed; the last line may have no
    end. *)
Fixpoint readlines (s : string) : list string :=
  match s with
  | EmptyString => []
  | String c s' =>
      if Ascii.eqb c PyStr.LF then nl :: readlines s'
      else if Ascii.eqb c CR then
        match s' with
        | String c' s'' => if Ascii.eqb c' PyStr.LF then nl :: readlines s'' else nl :: readlines s'
        | EmptyString => [nl]
        end
      else
        match readlines s' with
        | l :: ls => String c l :: ls
        | [] => [String c EmptyString]
        end
  end.

(** One pass of the loop of [seed_links_from_file]: [INSERT OR IGNORE
    INTO links (url) VALUES (?)] for a line that is not blank, the kind
    being the column's default, and [cur.rowcount] added to the count. *)
Definition seed_line (acc : db * Z) (l : string) : db * Z :=
  let '(d, added) := acc in
  let u := PyStr.strip l in
  if negb (PyStr.nonempty u) then (d, added)
  else (insert_link u "unknown" d, added + (if has_url u d then 0 else 1)).

(** [seed_links_from_file], given the text of links.txt if the file
    exists: the store afterwards and the number returned. *)
Definition seed_links_from_file (file : option string) (d : db) : db * Z :=
  match file with
  | None => (d, 0)
  | Some content => fold_left seed_line (readlines content) (d, 0)
  end.

(** [str(z)] for an [int]. *)
Definition str_int (z : Z) : string :=
  if z <? 0 then "-" +:+ digits (- z) else digits z.

Definition cmd_seed_links (u : Z) (file : option string) (w : world) : world :=
  let '(d, n) := seed_links_from_file file (database w) in
  w |> with_database d
    |> reply u ("Seeded " +:+ str_int n +:+ " links from links.txt (if exists).").

(** [list_accounts]: the rows of [SELECT session_name, owner_telegram_id,
    ema_cooldown FROM accounts]. *)
Definition list_accounts (d : db) : list (string * Z * option float) :=
  map (fun r => (session_name r, owner_telegram_id r, ema_cooldown r)) (accounts d).

(** The line [cmd_sessions] appends for one row. *)
Definition session_line (r : string * Z * option float) : result string :=
  let '(name, owner, ema) := r in
  shown ← format_num 1 (PyFloat <$> ema);
  Ok ("- " +:+ name +:+ " (owner_telegram_id=" +:+ str_int owner +:+ ") cooldown="
      +:+ shown +:+ "s" +:+ nl).

Fixpoint sessions_text (out : string) (rows : list (string * Z * option float)) : result string :=
  match rows with
  | [] => Ok out
  | r :: rows' => line ← session_line r; sessions_text (out +:+ line) rows'
  end.

Definition cmd_sessions (u : Z) (w : world) : world :=
  match list_accounts (database w) with
  | [] => reply u "No saved sessions found." w
  | rows =>
      match sessions_text ("Saved sessions:" +:+ nl) rows with
      | Ok out => reply u out w
      | Raise e => emit (Unhandled e) w
      end
  end.

(** ** Runs of the bot *)

(** What the files on disk and the provider contribute to one handler
    run is given with the message. A handler declared with a state runs
    when the conversation of the sender is in that state; the others run
    in any state. *)
Inductive step : world -> world -> Prop :=
  | step_add_account_start u w :
      step w (add_account_start u w)
  | step_got_session_name u text w :
      get_state u w = Some waiting_session_name -> step w (got_session_name u text w)
  | step_got_api_id u text w :
      get_state u w = Some waiting_api_id -> step w (got_api_id u text w)
  | step_got_api_hash u text w :
      get_state u w = Some waiting_api_hash -> step w (got_api_hash u text w)
  | step_got_phone u text p w :
      get_state u w = Some waiting_phone -> step w (got_phone u text p w)
  | step_got_code u text p w :
      get_state u w = Some waiting_code -> step w (got_code u text p w)
  | step_got_password u text p w :
      get_state u w = Some waiting_password -> step w (got_password u text p w)
  | step_cmd_sessions u w :
      step w (cmd_sessions u w)
  | step_cmd_seed_links u file w :
      step w (cmd_seed_links u file w)
  | step_cmd_export_assist u text w :
      step w (cmd_export_assist u text w)
  | step_cmd_report u text w :
      step w (cmd_report u text w)
  | step_classify_msg u text w :
      step w (classify_msg u text w).

(** The worlds the bot can be in after it started with an empty store. *)
Inductive reachable : world -> Prop :=
  | reachable_initial : reachable initial_world
  | reachable_step w w' : reachable w -> step w w' -> reachable w'.

(** ** Statements and scenarios of further properties *)

(** What one insert-or-ignore adds to the links table. *)
Definition added_rows (u k : string) (d : db) : list link_row :=
  if has_url u d then []
  else [ {| link_id := links_seq d + 1; url := u; kind := k; status := "pending";
            last_checked := 0; tries := 0 |} ].

(** A links file of four lines: a link ended by CR LF, a blank line, a
    handle with spaces around it, and the first link again without a line
    end. *)
Definition two_links_file : string :=
  "https://t.me/+AbCd1234" +:+ String CR nl +:+ nl +:+ "  @somebot " +:+ nl
  +:+ "https://t.me/+AbCd1234".

(** What every row of the links table satisfies: it is pending, its kind
    is "unknown" or the category of its url, and its url is trimmed and
    not empty. *)
Definition link_row_ok (r : link_row) : Prop :=
  status r = "pending"
  /\ (kind r = "unknown" \/ kind r = classify_link (url r))
  /\ PyStr.nonempty (url r) = true
  /\ PyStr.strip (url r) = url r.

(** The store is as the handlers keep it. *)
Definition store_ok (d : db) : Prop :=
  unique_urls d /\ unique_sessions d /\ positive_estimates d
  /\ Forall link_row_ok (links d).



(** What the conversation has stored when it is in state [s]: each
    handler finds the keys the handlers before it have written. *)
Definition data_ready (s : option AddAccount) (d : fsm_data) : Prop :=
  match s with
  | Some waiting_api_id => is_Some (data_session_name d)
  | Some waiting_api_hash => is_Some (data_session_name d) /\ is_Some (data_api_id d)
  | Some waiting_phone | Some waiting_code | Some waiting_password =>
      is_Some (data_session_name d) /\ is_Some (data_api_id d)
      /\ is_Some (data_api_hash d)
  | _ => True
  end.

(** The conversation waits for the code or for the password. *)
Definition awaiting_sign_in (s : option AddAccount) : Prop :=
  s = Some waiting_code \/ s = Some waiting_password.

(** The conversations, the pending logins and the connections fit
    together: connected clients were constructed; the client of a pending
    login is connected; no two operators' pending logins share a client;
    each conversation has stored what its state needs; and an operator who
    is asked for the code or the password has a pending login, for the
    session name of the conversation. *)
Definition flows_ok (w : world) : Prop :=
  (forall c, c ∈ live w -> (c < clients w)%nat)
  /\ (forall u obj, pending_login w !! u = Some obj -> telethon_client obj ∈ live w)
  /\ (forall u1 u2 o1 o2,
        pending_login w !! u1 = Some o1 -> pending_login w !! u2 = Some o2 ->
        telethon_client o1 = telethon_client o2 -> u1 = u2)
  /\ (forall u, data_ready (get_state u w) (get_data u w))
  /\ (forall u, awaiting_sign_in (get_state u w) ->
        exists obj, pending_login w !! u = Some obj
                    /\ data_session_name (get_data u w) = Some (login_session_name obj)).

(** Operator 7 has answered every question but the one for the phone
    number. *)
Definition awaiting_phone_world : world :=
  initial_world |> add_account_start 7 |> got_session_name 7 "acc1"
    |> got_api_id 7 "12345" |> got_api_hash 7 "0123456789abcdef".

(** The provider cannot be reached. *)
Definition no_connection : provider :=
  {| on_connect := Error "Connection to Telegram failed 5 time(s)";
     on_send_code_request := Done; on_sign_in := Done; on_sign_in_code := Done;
     on_sign_in_password := Done; on_file_connect := Done |}.

(** The provider asks for the password of the second factor. *)
Definition second_factor : provider :=
  {| on_connect := Done; on_send_code_request := Done;
     on_sign_in := SessionPasswordNeededError; on_sign_in_code := Done;
     on_sign_in_password := Done; on_file_connect := Done |}.

(** The row of the link stored in [one_link_world]. *)
Definition invite_row : link_row :=
  {| link_id := 1; url := "https://t.me/+AbCd1234"; kind := "group_invite";
     status := "pending"; last_checked := 0; tries := 0 |}.

(** * Properties *)

(** ** Evaluation of the embedding *)

Example split_report_text :
  PyStr.split "  /report  acc1 flood 12 " = ["/report"; "acc1"; "flood"; "12"].
Proof. reflexivity. Qed.

Example strip_keeps_inner_space : PyStr.strip "  a b  " = "a b".
Proof. reflexivity. Qed.

Example int_of_digits_leading_zero : PyStr.int_of_digits "0120" = Some 120.
Proof. reflexivity. Qed.

Example isdigit_superscript :
  PyStr.isdigit (String (ascii_of_N 178) EmptyString) = true
  /\ PyStr.int_of_digits (String (ascii_of_N 178) EmptyString) = None.
Proof. by vm_compute. Qed.

Example classify_link_upper_case : classify_link "  HTTPS://T.ME/JOINCHAT/abc " = "group_invite".
Proof. reflexivity. Qed.

Example format_one_decimal : format_f 1 116.4 = "116.4" /\ format_f 1 0.05 = "0.1".
Proof. by vm_compute. Qed.

Example format_no_decimal :
  format_f 0 2.5 = "2" /\ format_f 0 1.5 = "2" /\ format_f 0 (-0.4) = "-0".
Proof. by vm_compute. Qed.

Example float_of_int_default : float_of_int DEFAULT_COOLDOWN = Ok 120%float.
Proof. by vm_compute. Qed.

Example float_of_int_largest :
  float_of_int (2 ^ 1024 - 2 ^ 970 - 1) = Ok 0x1.fffffffffffffp+1023%float
  /\ float_of_int (2 ^ 1024 - 2 ^ 970) = Raise OverflowError.
Proof. by vm_compute. Qed.

Example init_db_first_start : init_db [] = (["links"], Raise OperationalError).
Proof. reflexivity. Qed.

(** The login that [got_phone] stores carries the name chosen at the
    first step. *)
Example awaiting_code_login : pending_login awaiting_code_world !! 7 = Some acc1_login.
Proof. by vm_compute. Qed.

Example onboarded_accounts :
  accounts (database onboarded_world)
  = [ {| account_id := 1; session_name := "acc1"; owner_telegram_id := 7;
         ema_cooldown := Some 120%float |} ].
Proof. by vm_compute. Qed.

(** A report "ok" for an account whose estimate is 100: the observation is
    120 * 0.9 = 108 and the new estimate 102.4. *)
Example report_ok_from_100 :
  let d := update_account "acc1" (Some 100%float) acc1_db in
  update_ema "acc1" (PyFloat 108) d
  = (update_account "acc1" (Some 102.4%float) d, Ok (PyFloat 102.4)).
Proof. by vm_compute. Qed.

(** A flood report of 10^400 seconds for a registered account: the
    conversion of the observation to a float overflows inside
    [update_ema]. *)
Example report_flood_overflow :
  update_ema "acc1" (PyInt (10 ^ 400)) acc1_db = (acc1_db, Raise OverflowError).
Proof. by vm_compute. Qed.

(** ** Strings *)

Module PyStrFacts.
Import PyStr.

Ltac each_char c :=
  destruct c as [[] [] [] [] [] [] [] []]; vm_compute; reflexivity.

Lemma is_space_lower_char c : is_space (lower_char c) = is_space c.
Proof. each_char c. Qed.

Lemma lower_char_idem c : lower_char (lower_char c) = lower_char c.
Proof. each_char c. Qed.

Lemma lower_idem s : lower (lower s) = lower s.
Proof. induction s as [|c s IH]; simpl; [done|]. by rewrite lower_char_idem, IH. Qed.

Lemma lower_lstrip s : lstrip (lower s) = lower (lstrip s).
Proof.
  induction s as [|c s IH]; simpl; [done|].
  rewrite is_space_lower_char. by destruct (is_space c).
Qed.

Lemma lower_rstrip s : rstrip (lower s) = lower (rstrip s).
Proof.
  induction s as [|c s IH]; simpl; [done|].
  rewrite IH, is_space_lower_char.
  destruct (rstrip s); simpl; [by destruct (is_space c)|done].
Qed.

Lemma lower_strip s : strip (lower s) = lower (strip s).
Proof. unfold strip. by rewrite lower_lstrip, lower_rstrip. Qed.

Lemma prefix_refl s : String.prefix s s = true.
Proof. induction s as [|c s IH]; simpl; [done|]. by destruct (ascii_dec c c). Qed.

Lemma contains_self s : contains s s = true.
Proof.
  assert (H : contains s s = String.prefix s s
                             || match s with
                                | EmptyString => false
                                | String _ s' => contains s s'
                                end) by (by destruct s).
  by rewrite H, prefix_refl.
Qed.

Lemma endswith_contains s pat : endswith s pat = true -> contains pat s = true.
Proof.
  induction s as [|c s IH].
  - by destruct pat.
  - change (endswith (String c s) pat)
      with (String.eqb (String c s) pat || endswith s pat).
    intros [H%String.eqb_eq|H]%orb_true_iff.
    + subst pat. apply (contains_self (String c s)).
    + simpl. apply orb_true_iff. right. by apply IH.
Qed.

End PyStrFacts.

(** ** Link classifier *)

(** C5: [classify_link] is a total function into the three categories
    (the code's name for unclassified is "unknown"), it gives the same
    category to a string and to its lowercase form, it applies its rules
    in order, the first that matches deciding (the mention sigil, then the
    invitation markers, then link host together with "bot"), and it
    classifies the three example identifiers as the specification says. *)
Theorem classify_link_total_case_insensitive :
  (forall s, classify_link s = "unknown" \/ classify_link s = "bot"
             \/ classify_link s = "group_invite")
  /\ (forall s, classify_link (PyStr.lower s) = classify_link s)
  /\ (forall s,
        let u := PyStr.lower (PyStr.strip s) in
        classify_link s =
          if PyStr.startswith u "@" then "unknown"
          else if PyStr.contains "t.me/joinchat" u || PyStr.contains "/+/" u
                  || PyStr.contains "t.me/+" u || PyStr.contains "joinchat" u
          then "group_invite"
          else if PyStr.contains "t.me/" u && PyStr.contains "bot" u then "bot"
          else "unknown")
  /\ classify_link "https://t.me/+AbCd1234" = "group_invite"
  /\ classify_link "@somebot" = "unknown"
  /\ classify_link "https://t.me/examplebot" = "bot".
Proof.
  split; [|split; [|split]].
  - intros s. unfold classify_link.
    repeat match goal with |- context [if ?b then _ else _] => destruct b end; auto.
  - intros s. unfold classify_link.
    by rewrite PyStrFacts.lower_strip, PyStrFacts.lower_idem.
  - intros s u. unfold classify_link. fold u.
    destruct (PyStr.startswith u "@"); [done|].
    destruct (_ || _ || _ || _); [done|].
    destruct (PyStr.contains "bot" u) eqn:Hbot; [done|].
    destruct (PyStr.endswith u "bot") eqn:Hend; [|done].
    apply PyStrFacts.endswith_contains in Hend. congruence.
  - by vm_compute.
Qed.

(** ** The links table *)

Section Links.
Implicit Types (d : db) (u k : string) (l : list link_row).

Lemma has_url_spec u d : has_url u d = true <-> u ∈ map url (links d).
Proof.
  unfold has_url. rewrite existsb_exists, list_elem_of_fmap. split.
  - intros (r & Hr%list_elem_of_In & <-%String.eqb_eq). by exists r.
  - intros (r & -> & Hr%list_elem_of_In). exists r. split; [done|apply String.eqb_refl].
Qed.

Lemma insert_link_present u k d : has_url u d = true -> insert_link u k d = d.
Proof. unfold insert_link. by intros ->. Qed.

Lemma insert_link_has_url u k d : has_url u (insert_link u k d) = true.
Proof.
  unfold insert_link. destruct (has_url u d) eqn:H; [done|].
  unfold has_url. simpl. rewrite existsb_app. simpl.
  by rewrite String.eqb_refl, orb_true_r.
Qed.

Lemma insert_link_twice u k k' d : insert_link u k' (insert_link u k d) = insert_link u k d.
Proof. apply insert_link_present, insert_link_has_url. Qed.

Lemma insert_link_unique u k d : unique_urls d -> unique_urls (insert_link u k d).
Proof.
  unfold unique_urls, insert_link. intros Hd.
  destruct (has_url u d) eqn:H; [done|]. simpl.
  rewrite map_app. apply NoDup_app. repeat split; [done| |apply NoDup_singleton].
  intros x Hx [->|[]%elem_of_nil]%elem_of_cons.
  simpl in Hx. apply has_url_spec in Hx. congruence.
Qed.

Lemma filter_url_absent u l :
  u ∉ map url l -> List.filter (fun r => String.eqb (url r) u) l = [].
Proof.
  induction l as [|r l IH]; simpl; [done|].
  intros [Hne Hl]%not_elem_of_cons.
  destruct (String.eqb_spec (url r) u); [congruence|auto].
Qed.

Lemma rows_of_url_unique u d : unique_urls d -> (length (rows_of_url u d) <= 1)%nat.
Proof.
  unfold unique_urls, rows_of_url. induction (links d) as [|r l IH]; simpl; [lia|].
  intros [Hr Hl]%NoDup_cons.
  destruct (String.eqb_spec (url r) u) as [<-|]; [|auto].
  rewrite filter_url_absent by done. simpl. lia.
Qed.

Lemma rows_of_url_present u d : has_url u d = true -> (1 <= length (rows_of_url u d))%nat.
Proof.
  unfold has_url, rows_of_url. induction (links d) as [|r l IH]; simpl; [done|].
  destruct (String.eqb (url r) u); simpl; [lia|auto].
Qed.

Lemma rows_of_url_fresh u k d :
  has_url u d = false ->
  rows_of_url u (insert_link u k d)
  = [ {| link_id := links_seq d + 1; url := u; kind := k; status := "pending";
         last_checked := 0; tries := 0 |} ].
Proof.
  intros H. unfold rows_of_url, insert_link. rewrite H. simpl.
  rewrite List.filter_app. simpl. rewrite String.eqb_refl.
  rewrite filter_url_absent; [done|].
  rewrite <- has_url_spec. congruence.
Qed.

End Links.

(** C6: two link messages with the same trimmed text, handled one after
    the other: the second leaves the store as the first left it, the
    identifier is stored in exactly one row (the url column being unique),
    and when it was new that row carries the category computed from the
    first message. *)
Theorem classify_msg_twice (u1 u2 : Z) (t1 t2 : string) (w : world) :
  PyStr.startswith t1 "http" || PyStr.startswith t1 "@" = true ->
  PyStr.startswith t2 "http" || PyStr.startswith t2 "@" = true ->
  PyStr.strip t1 = PyStr.strip t2 ->
  unique_urls (database w) ->
  let w1 := classify_msg u1 t1 w in
  let w2 := classify_msg u2 t2 w1 in
  database w2 = database w1
  /\ length (rows_of_url (PyStr.strip t1) (database w2)) = 1%nat
  /\ (has_url (PyStr.strip t1) (database w) = false ->
      kind <$> rows_of_url (PyStr.strip t1) (database w2) = [classify_link t1]).
Proof.
  intros H1 H2 Heq Huniq w1 w2.
  assert (Hd1 : database w1 = insert_link (PyStr.strip t1) (classify_link t1) (database w)).
  { unfold w1, classify_msg. by rewrite H1. }
  assert (Hd2 : database w2 = database w1).
  { unfold w2, classify_msg. rewrite H2. simpl. rewrite Hd1, <- Heq.
    apply insert_link_twice. }
  split; [done|]. rewrite Hd2, Hd1. split.
  - apply Nat.le_antisymm.
    + by apply rows_of_url_unique, insert_link_unique.
    + apply rows_of_url_present, insert_link_has_url.
  - intros Hnew. by rewrite rows_of_url_fresh.
Qed.

Lemma classify_msg_twice_witness :
  let w1 := classify_msg 7 "https://t.me/+AbCd1234" initial_world in
  let w2 := classify_msg 7 "https://t.me/+AbCd1234  " w1 in
  database w2 = database w1
  /\ length (rows_of_url "https://t.me/+AbCd1234" (database w2)) = 1%nat
  /\ (has_url "https://t.me/+AbCd1234" (database initial_world) = false ->
      kind <$> rows_of_url "https://t.me/+AbCd1234" (database w2) = ["group_invite"]).
Proof.
  apply (classify_msg_twice 7 7 "https://t.me/+AbCd1234" "https://t.me/+AbCd1234  "
           initial_world); try reflexivity.
  apply NoDup_nil_2.
Defined.

(** ** Text of the export artifact *)

Module TextFacts.
Import PyStr.

Lemma all_chars_lstrip p s : all_chars p s = true -> all_chars p (lstrip s) = true.
Proof.
  induction s as [|c s IH]; simpl; [done|].
  intros [Hc Hs]%andb_true_iff. destruct (is_space c); [auto|].
  simpl. by rewrite Hc, Hs.
Qed.

Lemma all_chars_rstrip p s : all_chars p s = true -> all_chars p (rstrip s) = true.
Proof.
  induction s as [|c s IH]; simpl; [done|].
  intros [Hc Hs]%andb_true_iff. specialize (IH Hs).
  destruct (rstrip s) as [|c' r]; simpl in *.
  - destruct (is_space c); simpl; [done|]. by rewrite Hc.
  - by rewrite Hc, IH.
Qed.

Lemma all_chars_strip p s : all_chars p s = true -> all_chars p (strip s) = true.
Proof. intros H. by apply all_chars_rstrip, all_chars_lstrip. Qed.

(** The tokens of [split] contain no white space. *)
Lemma split_no_space s : Forall (fun t => all_chars no_space t = true) (split s).
Proof.
  induction s as [|c s IH]; [by constructor|].
  cbn [split]. destruct (is_space c) eqn:Hc; [done|].
  assert (Hn : no_space c = true) by (unfold no_space; by rewrite Hc).
  destruct s as [|c' s'].
  - repeat constructor. simpl. by rewrite Hn.
  - destruct (is_space c') eqn:Hc'.
    + constructor; [simpl; by rewrite Hn|done].
    + destruct (split (String c' s')) as [|t ts].
      * repeat constructor. simpl. by rewrite Hn.
      * inversion IH; subst. constructor; [|done]. simpl. by rewrite Hn.
Qed.

Lemma no_space_no_LF s : all_chars no_space s = true -> count_char LF s = O.
Proof.
  induction s as [|c s IH]; cbn [count_char all_chars]; [done|].
  intros [Hc Hs]%andb_true_iff. rewrite (IH Hs).
  destruct (Ascii.eqb LF c) eqn:E; [|done].
  apply Ascii.eqb_eq in E. subst c. by vm_compute in Hc.
Qed.

Lemma append_cons x a b : String x a +:+ b = String x (a +:+ b).
Proof. reflexivity. Qed.

Lemma append_nil_l b : EmptyString +:+ b = b.
Proof. reflexivity. Qed.

Lemma append_nil_r a : a +:+ EmptyString = a.
Proof. induction a as [|x a IH]; [done|]. by rewrite append_cons, IH. Qed.

Lemma append_assoc a b c : (a +:+ b) +:+ c = a +:+ (b +:+ c).
Proof. induction a as [|x a IH]; [done|]. by rewrite !append_cons, IH. Qed.

Lemma count_char_app c a b :
  count_char c (a +:+ b) = (count_char c a + count_char c b)%nat.
Proof.
  induction a as [|x a IH]; [done|].
  rewrite append_cons. cbn [count_char]. rewrite IH. lia.
Qed.

Lemma last_is_app c a b :
  last_is c (a +:+ b) = if nonempty b then last_is c b else last_is c a.
Proof.
  induction a as [|x a IH].
  - simpl. by destruct b.
  - change (String x a +:+ b) with (String x (a +:+ b)).
    destruct b as [|y b]; [by rewrite append_nil_r|].
    simpl nonempty in *. cbn [last_is]. rewrite IH.
    by destruct a.
Qed.

Lemma string_of_uint_no_LF d : count_char LF (NilEmpty.string_of_uint d) = O.
Proof.
  induction d as [|d IH|d IH|d IH|d IH|d IH|d IH|d IH|d IH|d IH|d IH];
    cbn [NilEmpty.string_of_uint count_char]; [done|by rewrite IH..].
Qed.

Lemma digits_no_LF z : count_char LF (digits z) = O.
Proof.
  unfold digits, NilZero.string_of_uint.
  destruct (N.to_uint (Z.to_N z)); first [done|apply string_of_uint_no_LF].
Qed.

Lemma format_f_0_no_LF f : count_char LF (format_f 0 f) = O.
Proof.
  unfold format_f.
  destruct (Prim2SF f) as [[]|[]| |[] m e]; try done;
    rewrite ?count_char_app; simpl; by rewrite ?digits_no_LF.
Qed.

Lemma count_LF_concat_lines ls :
  Forall (fun l => count_char LF l = O) ls ->
  count_char LF (concat_lines ls) = length ls.
Proof.
  induction 1 as [|l ls Hl _ IH]; simpl; [done|].
  rewrite count_char_app, Hl. simpl. by rewrite IH.
Qed.

Lemma written_lines ls : written (map (fun l => l +:+ nl) ls) = concat_lines ls.
Proof.
  induction ls as [|l ls IH]; simpl; [done|].
  rewrite IH. unfold nl. by rewrite append_assoc.
Qed.

End TextFacts.

(** ** Export *)

Lemma assist_content name secs urls :
  written (assist_writes name secs urls)
  = assist_header name secs +:+ nl +:+ nl +:+ PyStr.concat_lines urls.
Proof.
  unfold assist_writes, assist_header. cbn [written fold_right].
  change (fold_right String.append EmptyString ?l) with (written l).
  rewrite TextFacts.written_lines.
  by rewrite !TextFacts.append_assoc.
Qed.

Lemma assist_line_count header urls :
  PyStr.count_char PyStr.LF header = O ->
  Forall (fun x => PyStr.count_char PyStr.LF x = O) urls ->
  PyStr.line_count (header +:+ nl +:+ nl +:+ PyStr.concat_lines urls)
  = (2 + length urls)%nat.
Proof.
  intros Hh Hu. unfold PyStr.line_count.
  rewrite !TextFacts.count_char_app, Hh, TextFacts.count_LF_concat_lines by done.
  assert (Hnl : forall a, PyStr.nonempty (nl +:+ a) = true) by done.
  assert (Hne : forall a b c, PyStr.nonempty (a +:+ String b c) = true)
    by (by intros []).
  assert (Hcons : forall s, PyStr.last_is PyStr.LF (String PyStr.LF s)
                            = if PyStr.nonempty s then PyStr.last_is PyStr.LF s else true)
    by (by intros []).
  assert (Hlines : forall ls, ls <> [] ->
            PyStr.last_is PyStr.LF (PyStr.concat_lines ls) = true).
  { induction ls as [|y ls IH]; [done|]. intros _.
    cbn [PyStr.concat_lines]. rewrite TextFacts.last_is_app.
    change (PyStr.nonempty (String PyStr.LF ?s)) with true. cbv iota.
    rewrite Hcons. destruct ls as [|z ls]; [done|].
    cbn [PyStr.concat_lines] in *. rewrite Hne. by apply IH. }
  assert (Hlast : PyStr.last_is PyStr.LF
                    (header +:+ nl +:+ nl +:+ PyStr.concat_lines urls) = true).
  { rewrite TextFacts.last_is_app, Hnl, TextFacts.last_is_app, Hnl.
    rewrite TextFacts.last_is_app.
    destruct urls as [|x urls]; [done|].
    cbn [PyStr.concat_lines] in *. rewrite Hne. by apply (Hlines (x :: urls)). }
  rewrite Hlast, andb_false_r. simpl. lia.
Qed.

(** C4, as stated, fails: with one pending invitation link the artifact
    has three lines (the header, an empty line and the identifier), not
    two. *)
Lemma export_one_line_per_entry_fails :
  ~ export_one_line_per_entry 7 "/export_assist acc1" one_link_world.
Proof.
  intros [_ H]. destruct H as (content & Hc & Hn); [by vm_compute|].
  vm_compute in Hc. injection Hc as <-. by vm_compute in Hn.
Qed.

(** C4, amended: for a request that names a session whose stored estimate
    is not NULL, the export replies "No pending group links." and writes
    no file when no pending entry has kind group_invite or unknown;
    otherwise the artifact is the recommended-delay header line, one empty
    line, and then the matching identifiers in stored order, each ended by
    a line feed, with nothing after them; when no identifier contains a
    line feed its line count is 2 plus the number of matching entries. *)
Theorem cmd_export_assist_artifact (u : Z) (text cmd name : string)
    (rest : list string) (w : world) :
  PyStr.split text = cmd :: name :: rest ->
  select_ema (PyStr.strip name) (database w) <> Some None ->
  let urls := select_pending (database w) in
  let w' := cmd_export_assist u text w in
  (urls = [] ->
   exported w' = None /\ data_files w' = data_files w
   /\ trace w' = trace w ++ [Reply u "No pending group links."])
  /\ (urls <> [] ->
      exists secs,
        PyStr.count_char PyStr.LF (assist_header (PyStr.strip name) secs) = O
        /\ exported w'
           = Some (assist_header (PyStr.strip name) secs +:+ nl +:+ nl
                   +:+ PyStr.concat_lines urls)
        /\ (Forall (fun x => PyStr.count_char PyStr.LF x = O) urls ->
            PyStr.line_count <$> exported w' = Some (2 + length urls)%nat)).
Proof.
  intros Hsplit Hnum urls w'. subst w'. unfold cmd_export_assist. rewrite Hsplit.
  fold urls. split.
  - intros ->. unfold exported, reply, emit. simpl. by rewrite last_snoc.
  - intros Hurls. destruct urls as [|x urls'] eqn:Hx; [done|]. rewrite <- Hx.
    set (ema := match select_ema (PyStr.strip name) (database w) with
                | Some v => PyFloat <$> v
                | None => Some (PyInt DEFAULT_COOLDOWN)
                end).
    assert (Hfmt : exists f, format_num 0 ema = Ok (format_f 0 f)).
    { unfold ema. destruct (select_ema _ _) as [[f|]|]; [by exists f|done|].
      exists 120%float. by vm_compute. }
    destruct Hfmt as (f & ->). exists (format_f 0 f).
    assert (Hname : PyStr.count_char PyStr.LF (PyStr.strip name) = O).
    { apply TextFacts.no_space_no_LF, TextFacts.all_chars_strip.
      pose proof (TextFacts.split_no_space text) as Hall. rewrite Hsplit in Hall.
      apply Forall_cons_1 in Hall as [_ Hall].
      by apply Forall_cons_1 in Hall as [Hall _]. }
    assert (Hhead : PyStr.count_char PyStr.LF
                      (assist_header (PyStr.strip name) (format_f 0 f)) = O).
    { unfold assist_header.
      by rewrite !TextFacts.count_char_app, Hname, TextFacts.format_f_0_no_LF. }
    assert (Hexp : exported
                     (w |> with_data_files
                             (<["assist_" +:+ PyStr.strip name +:+ ".txt" :=
                                written (assist_writes (PyStr.strip name) (format_f 0 f) urls)]>
                                (data_files w))
                        |> emit (ReplyDocument u ("assist_" +:+ PyStr.strip name +:+ ".txt")
                                   ("Assist file for " +:+ PyStr.strip name
                                    +:+ ". Recommended delay " +:+ format_f 0 f +:+ "s")))
                   = Some (assist_header (PyStr.strip name) (format_f 0 f) +:+ nl +:+ nl
                           +:+ PyStr.concat_lines urls)).
    { unfold exported, emit, with_trace, with_data_files. cbn [trace data_files].
      by rewrite last_snoc, lookup_insert_eq, assist_content. }
    split; [done|]. split; [done|].
    intros Hall. rewrite Hexp. simpl. f_equal. by apply assist_line_count.
Qed.

Lemma cmd_export_assist_artifact_witness :
  let w := one_link_world in
  let urls := select_pending (database w) in
  let w' := cmd_export_assist 7 "/export_assist acc1" w in
  (urls = [] ->
   exported w' = None /\ data_files w' = data_files w
   /\ trace w' = trace w ++ [Reply 7 "No pending group links."])
  /\ (urls <> [] ->
      exists secs,
        PyStr.count_char PyStr.LF (assist_header (PyStr.strip "acc1") secs) = O
        /\ exported w'
           = Some (assist_header (PyStr.strip "acc1") secs +:+ nl +:+ nl
                   +:+ PyStr.concat_lines urls)
        /\ (Forall (fun x => PyStr.count_char PyStr.LF x = O) urls ->
            PyStr.line_count <$> exported w' = Some (2 + length urls)%nat)).
Proof.
  apply (cmd_export_assist_artifact 7 "/export_assist acc1" "/export_assist" "acc1" []
           one_link_world).
  - reflexivity.
  - vm_compute. discriminate.
Defined.

(** ** Startup *)

(** C10: [init_db] never returns normally. Its second statement puts a
    placeholder after DEFAULT, which SQLite refuses when it prepares the
    statement, so the call raises [OperationalError] after the first
    statement has created the links table, and no accounts table is
    created. *)
Theorem init_db_raises (tables : list string) :
  snd (init_db tables) = Raise OperationalError
  /\ fst (init_db tables)
     = (if existsb (String.eqb "links") tables then tables else tables ++ ["links"]).
Proof.
  assert (H1 : execute_create create_links [] tables
               = (if existsb (String.eqb "links") tables then tables
                  else tables ++ ["links"], Ok ())).
  { unfold execute_create.
    change (existsb is_parameter (tbl_columns create_links)) with false.
    change (tbl_name create_links) with "links".
    by destruct (existsb (String.eqb "links") tables). }
  assert (H2 : forall t, execute_create create_accounts [PyInt DEFAULT_COOLDOWN] t
                         = (t, Raise OperationalError)) by reflexivity.
  unfold init_db. by rewrite H1, H2.
Qed.

(** ** Cooldown controller *)

Section Cooldown.
Implicit Types (d : db) (name : string) (v : option float).

Lemma one_minus_alpha : pysub (PyInt 1) (PyFloat EMA_ALPHA) = Ok (PyFloat 0.7).
Proof. by vm_compute. Qed.

Lemma default_bound : bind_real (PyInt DEFAULT_COOLDOWN) = Ok (Some 120%float).
Proof. by vm_compute. Qed.

Lemma pymul_float_l f y o :
  to_float y = Ok o -> pymul (PyFloat f) y = Ok (PyFloat (f * o)).
Proof. unfold pymul, arith. intros H. simpl. by rewrite H. Qed.

Lemma ema_value_float observed o prev :
  to_float observed = Ok o ->
  ema_value observed (Some prev) = Ok (PyFloat (0.3 * o + 0.7 * prev)).
Proof.
  intros Ho. unfold ema_value.
  rewrite (pymul_float_l _ _ _ Ho), one_minus_alpha. reflexivity.
Qed.

Lemma select_ema_update name v d :
  select_ema name (update_account name v d) = (fun _ => v) <$> select_ema name d.
Proof.
  unfold select_ema, update_account. cbn [accounts].
  induction (accounts d) as [|r l IH]; [done|].
  cbn [map List.find]. unfold set_ema at 1.
  destruct (String.eqb (session_name r) name) eqn:E.
  - cbn [session_name]. rewrite E. unfold set_ema. by rewrite E.
  - by rewrite E.
Qed.

Lemma find_none_existsb {A} (f : A -> bool) (l : list A) :
  List.find f l = None <-> existsb f l = false.
Proof. induction l as [|x l IH]; simpl; [done|]. by destruct (f x). Qed.

Lemma find_app_none {A} (f : A -> bool) (l k : list A) :
  List.find f l = None -> List.find f (l ++ k) = List.find f k.
Proof. induction l as [|x l IH]; simpl; [done|]. by destruct (f x). Qed.

Lemma select_ema_absent name d : select_ema name d = None <-> has_account name d = false.
Proof.
  unfold select_ema, has_account. rewrite <- find_none_existsb.
  by destruct (List.find _ _).
Qed.

Lemma select_ema_insert_absent name owner v d :
  select_ema name d = None ->
  select_ema name (insert_account name owner v d) = Some v.
Proof.
  intros H. unfold insert_account.
  rewrite (proj1 (select_ema_absent name d) H).
  unfold select_ema in *. cbn [accounts].
  rewrite find_app_none by (by destruct (List.find _ _)).
  cbn [List.find session_name]. by rewrite String.eqb_refl.
Qed.

Lemma select_ema_insert_present name owner v d :
  select_ema name d <> None -> insert_account name owner v d = d.
Proof.
  intros H. unfold insert_account.
  destruct (has_account name d) eqn:E; [done|].
  by apply select_ema_absent in E.
Qed.

Lemma real_of_float_eqb f :
  PrimFloat.is_nan f = false ->
  exists s, real_of_float f = Some s /\ PrimFloat.eqb s f = true.
Proof.
  intros Hnan. unfold real_of_float. rewrite Hnan.
  assert (Hrefl : PrimFloat.eqb f f = true).
  { unfold PrimFloat.is_nan in Hnan. by destruct (PrimFloat.eqb f f). }
  destruct (PrimFloat.is_zero f) eqn:Hz; [|by exists f].
  exists 0%float. split; [done|].
  unfold PrimFloat.is_zero in Hz. rewrite FloatAxioms.eqb_spec in *.
  change (Prim2SF 0) with (S754_zero false) in *.
  by destruct (Prim2SF f) as [[]|[]| |[] m e].
Qed.

End Cooldown.

(** C2: for an account whose stored estimate is [prev], [update_ema] with
    an observation of value [o] returns 0.3 * o + 0.7 * prev computed in
    binary64 and stores it (SQLite keeps the number, a zero without its
    sign), provided the result is a number; after [add_account_meta] has
    registered acc1 with the default 120.0, the update with 108.0 returns
    and stores 116.4. *)
Theorem update_ema_existing :
  (forall (name : string) (observed : pynum) (o prev : float) (d : db),
     select_ema name d = Some (Some prev) ->
     to_float observed = Ok o ->
     let ema := (0.3 * o + 0.7 * prev)%float in
     PrimFloat.is_nan ema = false ->
     snd (update_ema name observed d) = Ok (PyFloat ema)
     /\ exists stored,
          select_ema name (fst (update_ema name observed d)) = Some (Some stored)
          /\ PrimFloat.eqb stored ema = true
          /\ (PrimFloat.is_zero ema = false -> stored = ema))
  /\ (let d := fst (add_account_meta "acc1" 42 empty_db) in
      select_ema "acc1" d = Some (Some 120%float)
      /\ snd (update_ema "acc1" (PyFloat 108) d) = Ok (PyFloat 116.4)
      /\ select_ema "acc1" (fst (update_ema "acc1" (PyFloat 108) d))
         = Some (Some 116.4%float)).
Proof.
  split; [|by vm_compute].
  intros name observed o prev d Hsel Ho ema Hnan.
  unfold update_ema. rewrite Hsel, (ema_value_float _ _ _ Ho). fold ema.
  cbn [mbind result_bind bind_real]. cbn [fst snd]. split; [done|].
  destruct (real_of_float_eqb ema Hnan) as (s & Hs & Heq).
  exists s. rewrite select_ema_update, Hsel, Hs. repeat split; [done|].
  intros Hz. unfold real_of_float in Hs. rewrite Hnan, Hz in Hs. congruence.
Qed.

Lemma update_ema_existing_witness :
  let d := fst (add_account_meta "acc1" 42 empty_db) in
  let ema := (0.3 * 108 + 0.7 * 120)%float in
  snd (update_ema "acc1" (PyFloat 108) d) = Ok (PyFloat ema)
  /\ exists stored,
       select_ema "acc1" (fst (update_ema "acc1" (PyFloat 108) d)) = Some (Some stored)
       /\ PrimFloat.eqb stored ema = true
       /\ (PrimFloat.is_zero ema = false -> stored = ema).
Proof.
  apply (proj1 update_ema_existing "acc1" (PyFloat 108) 108%float 120%float
           (fst (add_account_meta "acc1" 42 empty_db)));
    vm_compute; reflexivity.
Defined.

(** ** Outcome reports *)

Section Report.
Implicit Types (u : Z) (w : world) (text cmd name res secs : string).

Lemma lstrip_token t : PyStr.all_chars PyStr.no_space t = true -> PyStr.lstrip t = t.
Proof.
  destruct t as [|c t]; [done|]. cbn [PyStr.all_chars PyStr.lstrip].
  unfold PyStr.no_space at 1. by destruct (PyStr.is_space c).
Qed.

Lemma rstrip_token t : PyStr.all_chars PyStr.no_space t = true -> PyStr.rstrip t = t.
Proof.
  induction t as [|c t IH]; [done|]. cbn [PyStr.all_chars PyStr.rstrip].
  intros [Hc Ht]%andb_true_iff. rewrite (IH Ht).
  unfold PyStr.no_space in Hc. destruct (PyStr.is_space c); [done|].
  by destruct t.
Qed.

(** [strip] leaves the tokens of [split] as they are. *)
Lemma strip_token text t : t ∈ PyStr.split text -> PyStr.strip t = t.
Proof.
  intros Ht. pose proof (TextFacts.split_no_space text) as Hall.
  rewrite Forall_forall in Hall. specialize (Hall t Ht).
  unfold PyStr.strip. by rewrite lstrip_token, rstrip_token.
Qed.

Lemma report_observations :
  pymul (PyInt DEFAULT_COOLDOWN) (PyFloat 0.9) = Ok (PyFloat 108)
  /\ pymul (PyInt DEFAULT_COOLDOWN) (PyFloat 1.2) = Ok (PyFloat 144).
Proof. by vm_compute. Qed.

Lemma decimal_is_digit s :
  PyStr.all_chars PyStr.is_decimal_char s = true ->
  PyStr.all_chars PyStr.is_digit_char s = true.
Proof.
  induction s as [|c s IH]; [done|]. cbn [PyStr.all_chars].
  intros [Hc Hs]%andb_true_iff. rewrite (IH Hs), andb_true_r.
  unfold PyStr.is_digit_char. by rewrite Hc.
Qed.

Lemma int_of_digits_isdigit s n :
  PyStr.int_of_digits s = Some n -> PyStr.isdigit s = true.
Proof.
  unfold PyStr.int_of_digits, PyStr.isdigit.
  destruct (PyStr.nonempty s); [|done].
  destruct (PyStr.all_chars PyStr.is_decimal_char s) eqn:E; [|done].
  by rewrite (decimal_is_digit s E).
Qed.



(** A report "flood" followed by decimal digits is an update with their
    value. *)
Lemma cmd_report_flood u text cmd name secs rest sec w :
  PyStr.split text = cmd :: name :: "flood" :: secs :: rest ->
  PyStr.int_of_digits secs = Some sec ->
  cmd_report u text w
  = report_update u name (Ok (PyInt sec))
      ("Recorded FloodWait " +:+ digits sec +:+ "s.") w.
Proof.
  intros H Hsec. unfold cmd_report. rewrite H.
  rewrite !(strip_token text) by (rewrite H; set_solver).
  rewrite String.eqb_refl, (int_of_digits_isdigit _ _ Hsec), Hsec.
  reflexivity.
Qed.

(** The other reports whose fourth word, if the third is "flood", is not
    made of digits in the sense of [str.isdigit], are answered with a
    usage message and change nothing else. *)
Lemma cmd_report_rejected u text w :
  match PyStr.split text with
  | _ :: _ :: res :: rest =>
      res <> "ok" /\ res <> "fail"
      /\ (res <> "flood" \/ rest = [] \/ exists secs rest', rest = secs :: rest'
                                                    /\ PyStr.isdigit secs = false)
  | _ => True
  end ->
  exists usage, (usage = report_usage \/ usage = report_invalid)
                /\ cmd_report u text w = reply u usage w.
Proof.
  unfold cmd_report. destruct (PyStr.split text) as [|cmd [|name [|res rest]]] eqn:H;
    try (intros _; exists report_usage; by split; [left|]).
  rewrite !(strip_token text) by (rewrite H; set_solver).
  intros (Hok & Hfail & Hflood). exists report_invalid. split; [by right|].
  rewrite (proj2 (String.eqb_neq _ _) Hok), (proj2 (String.eqb_neq _ _) Hfail).
  destruct rest as [|secs rest']; [done|].
  destruct Hflood as [Hne|[?|(s & r & [= <- <-] & Hd)]]; [|done|].
  - by rewrite (proj2 (String.eqb_neq _ _) Hne).
  - by rewrite Hd, andb_false_r.
Qed.

End Report.

(** C3: a report "flood" whose fourth word is the superscript two, which
    [str.isdigit] accepts and [int] refuses, is not rejected with a usage
    message: the handler ends with an unhandled [ValueError], sends no
    reply and changes no stored state. *)
Theorem cmd_report_superscript_raises (u : Z) (w : world) :
  PyStr.split report_superscript
  = ["/report"; "acc1"; "flood"; String (ascii_of_N 178) EmptyString]
  /\ cmd_report u report_superscript w = emit (Unhandled ValueError) w
  /\ database (cmd_report u report_superscript w) = database w
  /\ trace (cmd_report u report_superscript w) = trace w ++ [Unhandled ValueError].
Proof. by vm_compute. Qed.

(** ** The accounts table *)

Section Accounts.
Implicit Types (d : db) (name : string) (v : option float) (l : list account_row).

Lemma has_account_spec name d :
  has_account name d = true <-> name ∈ map session_name (accounts d).
Proof.
  unfold has_account. rewrite existsb_exists, list_elem_of_fmap. split.
  - intros (r & Hr%list_elem_of_In & <-%String.eqb_eq). by exists r.
  - intros (r & -> & Hr%list_elem_of_In). exists r. split; [done|apply String.eqb_refl].
Qed.

Lemma insert_account_has name owner v d : has_account name (insert_account name owner v d) = true.
Proof.
  unfold insert_account. destruct (has_account name d) eqn:H; [done|].
  unfold has_account. cbn [accounts]. rewrite existsb_app. cbn [existsb session_name].
  by rewrite String.eqb_refl, orb_true_r.
Qed.

Lemma insert_account_unique name owner v d :
  unique_sessions d -> unique_sessions (insert_account name owner v d).
Proof.
  unfold unique_sessions, insert_account. intros Hd.
  destruct (has_account name d) eqn:H; [done|]. cbn [accounts].
  rewrite map_app. apply NoDup_app. repeat split; [done| |apply NoDup_singleton].
  intros x Hx [->|[]%elem_of_nil]%elem_of_cons.
  cbn [session_name] in Hx. apply has_account_spec in Hx. congruence.
Qed.

Lemma filter_account_absent name l :
  name ∉ map session_name l ->
  List.filter (fun r => String.eqb (session_name r) name) l = [].
Proof.
  induction l as [|r l IH]; [done|]. cbn [map List.filter].
  intros [Hne Hl]%not_elem_of_cons.
  destruct (String.eqb_spec (session_name r) name); [congruence|auto].
Qed.

Lemma rows_of_account_unique name d :
  unique_sessions d -> (length (rows_of_account name d) <= 1)%nat.
Proof.
  unfold unique_sessions, rows_of_account.
  induction (accounts d) as [|r l IH]; [simpl; lia|]. cbn [map List.filter].
  intros [Hr Hl]%NoDup_cons.
  destruct (String.eqb_spec (session_name r) name) as [<-|]; [|auto].
  rewrite filter_account_absent by done. simpl. lia.
Qed.

Lemma rows_of_account_present name d :
  has_account name d = true -> (1 <= length (rows_of_account name d))%nat.
Proof.
  unfold has_account, rows_of_account.
  induction (accounts d) as [|r l IH]; [done|]. cbn [existsb List.filter].
  destruct (String.eqb (session_name r) name); simpl; [lia|auto].
Qed.

(** After an insert-or-ignore the name is stored in exactly one row. *)
Lemma rows_of_account_insert name owner v d :
  unique_sessions d ->
  length (rows_of_account name (insert_account name owner v d)) = 1%nat.
Proof.
  intros Hd. apply Nat.le_antisymm.
  - by apply rows_of_account_unique, insert_account_unique.
  - apply rows_of_account_present, insert_account_has.
Qed.

Lemma update_account_names name v d :
  map session_name (accounts (update_account name v d)) = map session_name (accounts d).
Proof.
  unfold update_account. cbn [accounts]. rewrite map_map. apply map_ext.
  intros r. unfold set_ema. by destruct (String.eqb (session_name r) name).
Qed.

End Accounts.

(** ** Onboarding: completion *)

Section Completion.
Implicit Types (u : Z) (w : world) (p : provider) (obj : login).

Lemma add_account_meta_default name owner d :
  add_account_meta name owner d = (insert_account name owner (Some 120%float) d, Ok ()).
Proof. unfold add_account_meta. by rewrite default_bound. Qed.

Lemma save_session_spec u obj p saved w :
  let w' := save_session u obj p saved w in
  database w' = insert_account (login_session_name obj) u (Some 120%float) (database w)
  /\ (telethon_client obj ∉ live w')
  /\ (live w' ⊆ live w)
  /\ pending_login w' = delete u (pending_login w)
  /\ fsm w' = delete u (fsm w)
  /\ last (trace w') = Some (Reply u saved).
Proof.
  unfold save_session. rewrite add_account_meta_default.
  destruct (on_file_connect p);
    cbn -[insert_account]; rewrite ?last_snoc;
    (split; [done|]); (split; [set_solver|]); (split; [set_solver|done]).
Qed.

Lemma finish_saves k u text p obj w :
  pending_login w !! u = Some obj ->
  signs_in k p ->
  exists saved w0,
    finish k u text p w = save_session u obj p saved w0
    /\ database w0 = database w /\ live w0 = live w /\ clients w0 = clients w
    /\ pending_login w0 = pending_login w /\ fsm w0 = fsm w.
Proof.
  intros Hobj Hp. destruct k; cbn [finish signs_in] in *.
  - unfold got_code. rewrite Hobj.
    destruct Hp as [->|(e & -> & ->)]; eexists _, _; (split; [reflexivity|done]).
  - unfold got_password. rewrite Hobj, Hp.
    eexists _, _. split; [reflexivity|done].
Qed.

End Completion.

(** C1, as stated, fails: after operator 7 has onboarded acc1, reported a
    failure for it and onboarded acc1 a second time, the one row of acc1
    still holds the learned estimate 127.2, not the default 120. *)
Lemma completed_with_default_fails :
  ~ completed_with_default "acc1" 2 onboarded_again_world.
Proof.
  intros [(r & Hr & He) _]. vm_compute in Hr. injection Hr as <-.
  vm_compute in He. discriminate He.
Qed.

(** C1, amended: when [got_code] or [got_password] signs in (the accounts
    table respecting its UNIQUE constraint), afterwards exactly one row
    has the session name of the flow; its estimate is the default 120.0
    when no row had that name before, and the table is unchanged when one
    had (insert-or-ignore); neither the flow's client nor the file-backed
    client used for saving is left connected (the flow's client is closed
    and no connection is added), and the operator has no pending login and
    no conversation state left. *)
Theorem onboarding_completed (k : finishing) (u : Z) (text : string) (p : provider)
    (obj : login) (w : world) :
  pending_login w !! u = Some obj ->
  signs_in k p ->
  unique_sessions (database w) ->
  let name := login_session_name obj in
  let w' := finish k u text p w in
  length (rows_of_account name (database w')) = 1%nat
  /\ (select_ema name (database w) = None ->
      select_ema name (database w') = Some (Some 120%float))
  /\ (select_ema name (database w) <> None -> database w' = database w)
  /\ (telethon_client obj ∉ live w') /\ (live w' ⊆ live w)
  /\ pending_login w' !! u = None /\ fsm w' !! u = None.
Proof.
  intros Hobj Hp Huniq name w'.
  destruct (finish_saves k u text p obj w Hobj Hp)
    as (saved & w0 & Hfin & Hd & Hl & Hc & Hpl & Hf).
  subst w'. rewrite Hfin.
  destruct (save_session_spec u obj p saved w0) as (Hdb & H1 & H3 & H4 & H5 & _).
  rewrite Hdb, Hd, H4, H5. rewrite Hl in H3.
  repeat split; try done.
  - by apply rows_of_account_insert.
  - apply select_ema_insert_absent.
  - apply select_ema_insert_present.
  - apply lookup_delete_eq.
  - apply lookup_delete_eq.
Qed.

Lemma onboarding_completed_witness :
  let name := login_session_name acc1_login in
  let w' := finish ByCode 7 "11111" all_done awaiting_code_world in
  length (rows_of_account name (database w')) = 1%nat
  /\ (select_ema name (database awaiting_code_world) = None ->
      select_ema name (database w') = Some (Some 120%float))
  /\ (select_ema name (database awaiting_code_world) <> None ->
      database w' = database awaiting_code_world)
  /\ (telethon_client acc1_login ∉ live w') /\ (live w' ⊆ live awaiting_code_world)
  /\ pending_login w' !! 7 = None /\ fsm w' !! 7 = None.
Proof.
  refine (onboarding_completed ByCode 7 "11111" all_done acc1_login awaiting_code_world
            _ _ _).
  - vm_compute. reflexivity.
  - left. reflexivity.
  - apply NoDup_nil_2.
Defined.

(** ** Onboarding: provider calls *)

(** C8, as stated, fails: when the sign-in with the code raises, [got_code]
    calls the provider again (the fallback sign-in, then the connection of
    the file-backed client). *)
Lemma never_retried_fails :
  ~ never_retried (got_code 7 "11111" fallback_accepts) awaiting_code_world.
Proof. unfold never_retried. by vm_compute. Qed.

Example fallback_events :
  events_of (got_code 7 "11111" fallback_accepts) awaiting_code_world
  = [ Reply 7 "Trying to sign in...";
      Called 0 (sign_in "+15550100" "11111") (Error "PHONE_CODE_INVALID");
      Called 0 (sign_in_code "11111") Done;
      Called 0 disconnect Done;
      Called 1 connect Done;
      Called 1 disconnect Done;
      Reply 7 ("Account saved as `acc1.session`." +:+ nl
               +:+ "Use /sessions to list accounts.") ].
Proof. by vm_compute. Qed.

Ltac run_events :=
  cbn -[insert_account]; rewrite <- ?app_assoc, ?drop_app_length.

(** C8, amended: in a run of [got_phone], [got_code] or [got_password],
    no request to the provider follows a failed connect, send-code,
    fallback sign-in or second-factor sign-in (only the closing of the
    connection does), and such a failure leaves the operator without
    conversation state, and after the code and password steps without
    pending login, so that the flow has to be restarted. The sign-in with
    the code is the exception: when it raises anything but the
    second-factor signal, [got_code] calls sign-in once more, with the
    code alone, and that answer decides. *)
Theorem final_failure_ends_flow (k : calling) (u : Z) (text : string) (p : provider)
    (w : world) :
  let w' := handler k u text p w in
  let t := events_of (handler k u text p) w in
  no_request_after is_final_failure t = true
  /\ (existsb is_final_failure t = true ->
      fsm w' !! u = None /\ (k <> AtPhone -> pending_login w' !! u = None))
  /\ (forall obj, k = AtCode -> pending_login w !! u = Some obj ->
      let c := telethon_client obj in
      let saving := [Called (clients w) connect (on_file_connect p)] in
      List.filter is_request t
      = Called c (sign_in (phone obj) (PyStr.strip text)) (on_sign_in p)
        :: match on_sign_in p with
           | Done => saving
           | SessionPasswordNeededError => []
           | Error _ =>
               Called c (sign_in_code (PyStr.strip text)) (on_sign_in_code p)
               :: match on_sign_in_code p with
                  | Done => saving
                  | _ => []
                  end
           end).
Proof.
  intros w' t. subst w' t. split; [|split].
  - destruct k; unfold events_of, handler, got_phone, got_code, got_password.
    + by destruct (data_session_name (get_data u w)), (data_api_id (get_data u w)),
        (data_api_hash (get_data u w));
        destruct (on_connect p), (on_send_code_request p); run_events.
    + by destruct (pending_login w !! u) as [obj|];
        unfold save_session; rewrite ?add_account_meta_default;
        destruct (on_sign_in p), (on_sign_in_code p), (on_file_connect p); run_events.
    + by destruct (pending_login w !! u) as [obj|];
        unfold save_session; rewrite ?add_account_meta_default;
        destruct (on_sign_in_password p), (on_file_connect p); run_events.
  - destruct k; unfold events_of, handler, got_phone, got_code, got_password.
    + destruct (data_session_name (get_data u w)), (data_api_id (get_data u w)),
        (data_api_hash (get_data u w));
        destruct (on_connect p), (on_send_code_request p); run_events;
        try discriminate; intros _; (split; [apply lookup_delete_eq|done]).
    + destruct (pending_login w !! u) as [obj|];
        unfold save_session; rewrite ?add_account_meta_default;
        destruct (on_sign_in p), (on_sign_in_code p), (on_file_connect p); run_events;
        try discriminate; intros _; (split; [|intros _]); apply lookup_delete_eq.
    + destruct (pending_login w !! u) as [obj|];
        unfold save_session; rewrite ?add_account_meta_default;
        destruct (on_sign_in_password p), (on_file_connect p); run_events;
        try discriminate; intros _; (split; [|intros _]); apply lookup_delete_eq.
  - intros obj -> Hobj. unfold events_of, handler, got_code. rewrite Hobj.
    unfold save_session; rewrite ?add_account_meta_default.
    by destruct (on_sign_in p), (on_sign_in_code p), (on_file_connect p); run_events.
Qed.

Lemma final_failure_ends_flow_witness :
  let w' := handler AtCode 7 "11111" code_refused awaiting_code_world in
  let t := events_of (handler AtCode 7 "11111" code_refused) awaiting_code_world in
  existsb is_final_failure t = true
  /\ fsm w' !! 7 = None /\ pending_login w' !! 7 = None
  /\ List.filter is_request t
     = [ Called 0 (sign_in "+15550100" "11111") (Error "PHONE_CODE_INVALID");
         Called 0 (sign_in_code "11111") (Error "PHONE_CODE_INVALID") ].
Proof.
  pose proof (final_failure_ends_flow AtCode 7 "11111" code_refused awaiting_code_world)
    as (_ & Hend & Hreq).
  assert (Hfail : existsb is_final_failure
                    (events_of (handler AtCode 7 "11111" code_refused) awaiting_code_world)
                  = true) by (vm_compute; reflexivity).
  destruct (Hend Hfail) as [Hfsm Hpending].
  split; [exact Hfail|]. split; [exact Hfsm|]. split; [apply Hpending; discriminate|].
  apply (Hreq acc1_login eq_refl). vm_compute. reflexivity.
Defined.

(** ** Onboarding: abandoned flows *)

(** C9, as stated, fails: the second flow has stored client 1 under the
    operator's id and client 0 of the abandoned flow is still connected. *)
Lemma abandoned_closed_fails :
  pending_login awaiting_code_world !! 7 = Some acc1_login
  /\ telethon_client <$> pending_login restarted_world !! 7 = Some 1%nat
  /\ ~ abandoned_closed acc1_login restarted_world.
Proof.
  split; [by vm_compute|]. split; [by vm_compute|].
  intros H. apply H. apply (bool_decide_unpack _). by vm_compute.
Qed.

(** C9, amended: starting a new flow closes nothing. [add_account_start]
    and the name, id and hash steps leave the pending logins and the
    connections as they are, and when the phone step of the new flow has
    its code sent it stores the new client under the operator's id in
    place of the abandoned one, whose connection stays open: the code has
    neither close-on-overwrite nor a timeout. *)
Theorem abandoned_connection_stays_open (u : Z) (old : login) (text : string)
    (p : provider) (w : world) :
  pending_login w !! u = Some old ->
  telethon_client old ∈ live w ->
  (telethon_client old < clients w)%nat ->
  (forall step,
     step ∈ [add_account_start u; got_session_name u text; got_api_id u text;
             got_api_hash u text] ->
     pending_login (step w) = pending_login w /\ live (step w) = live w
     /\ clients (step w) = clients w)
  /\ (is_Some (data_session_name (get_data u w)) ->
      is_Some (data_api_id (get_data u w)) ->
      is_Some (data_api_hash (get_data u w)) ->
      on_connect p = Done -> on_send_code_request p = Done ->
      let w' := got_phone u text p w in
      telethon_client old ∈ live w'
      /\ live w' = {[clients w]} ∪ live w
      /\ exists new, pending_login w' !! u = Some new
                     /\ telethon_client new = clients w
                     /\ telethon_client new <> telethon_client old).
Proof.
  intros Hold Hlive Hfresh. split.
  - intros step Hstep. repeat apply elem_of_cons in Hstep as [->|Hstep].
    + done.
    + unfold got_session_name. by destruct (negb _).
    + unfold got_api_id. destruct (negb _); [done|]. by destruct (PyStr.int_of_digits _).
    + done.
    + by apply elem_of_nil in Hstep.
  - intros [name Hn] [api_id Hi] [api_hash Hh] Hc Hs. unfold got_phone.
    rewrite Hn, Hi, Hh, Hc, Hs. cbn.
    split; [set_solver|]. split; [done|].
    eexists. rewrite lookup_insert_eq. split; [done|]. cbn. split; [done|lia].
Qed.

Lemma abandoned_connection_stays_open_witness :
  let w := awaiting_code_world |> add_account_start 7 |> got_session_name 7 "acc2"
             |> got_api_id 7 "12345" |> got_api_hash 7 "0123456789abcdef" in
  let w' := got_phone 7 "+15550100" all_done w in
  telethon_client acc1_login ∈ live w'
  /\ live w' = {[clients w]} ∪ live w
  /\ exists new, pending_login w' !! 7 = Some new
                 /\ telethon_client new = clients w
                 /\ telethon_client new <> telethon_client acc1_login.
Proof.
  refine (proj2 (abandoned_connection_stays_open 7 acc1_login "+15550100" all_done
                   (awaiting_code_world |> add_account_start 7 |> got_session_name 7 "acc2"
                      |> got_api_id 7 "12345" |> got_api_hash 7 "0123456789abcdef")
                   _ _ _) _ _ _ _ _).
  - vm_compute. reflexivity.
  - apply (bool_decide_unpack _). vm_compute. reflexivity.
  - vm_compute. lia.
  - vm_compute. eexists. reflexivity.
  - vm_compute. eexists. reflexivity.
  - vm_compute. eexists. reflexivity.
  - reflexivity.
  - reflexivity.
Defined.

(** ** Binary64 arithmetic of the update rule

    Signs of the results of the primitive operations, from their
    specification in [SpecFloat]. *)

Module Binary64.

Lemma fexp_eq z : fexp prec emax z = Z.max (z - 53) (-1074).
Proof. reflexivity. Qed.

Lemma iter_pos_nat {A} (f : A -> A) p x : SpecFloat.iter_pos f p x = Nat.iter (Pos.to_nat p) f x.
Proof.
  revert x. induction p as [p IH|p IH|]; intros x; cbn [SpecFloat.iter_pos].
  - rewrite !IH, Pos2Nat.inj_xI.
    replace (S (2 * Pos.to_nat p)) with (Pos.to_nat p + (Pos.to_nat p + 1))%nat by lia.
    by rewrite !Nat.iter_add.
  - rewrite !IH, Pos2Nat.inj_xO.
    replace (2 * Pos.to_nat p)%nat with (Pos.to_nat p + Pos.to_nat p)%nat by lia.
    by rewrite Nat.iter_add.
  - done.
Qed.

Ltac bool_cases :=
  repeat match goal with
         | |- context [Z.eqb ?a ?b] => destruct (Z.eqb_spec a b)
         | |- context [Z.leb ?a ?b] => destruct (Z.leb_spec a b)
         end;
  simpl; try reflexivity; try lia.

Lemma shifted_start M :
  0 <= M -> shifted M 1 {| shr_m := M; shr_r := false; shr_s := false |}.
Proof. intros H. exists 0. cbn. repeat split; lia. Qed.

Lemma shifted_step M P mrs : 0 < P -> shifted M P mrs -> shifted M (2 * P) (shr_1 mrs).
Proof.
  intros HP (R & HM & HR & Hm & Hr & Hs). destruct mrs as [m r s]. cbn in *.
  assert (Hrs : r || s = negb (R =? 0)) by (subst r s; bool_cases).
  destruct m as [|[q|q|]|q]; [| | | |lia]; cbn [shr_m shr_r shr_s]; rewrite Hrs.
  - exists R. cbn [shr_m shr_r shr_s]. repeat split; try lia; bool_cases.
  - exists (R + P). cbn [shr_m shr_r shr_s]. repeat split; try lia; bool_cases.
  - exists R. cbn [shr_m shr_r shr_s]. repeat split; try lia; bool_cases.
  - exists (R + P). cbn [shr_m shr_r shr_s]. repeat split; try lia; bool_cases.
Qed.

Lemma shifted_iter M n :
  0 <= M ->
  shifted M (2 ^ Z.of_nat n)
    (Nat.iter n shr_1 {| shr_m := M; shr_r := false; shr_s := false |}).
Proof.
  intros HM. induction n as [|n IH]; [by apply shifted_start|].
  rewrite Nat2Z.inj_succ, Z.pow_succ_r by lia.
  apply shifted_step; [lia|exact IH].
Qed.

Lemma shifted_shr M e n :
  0 <= M ->
  let '(mrs, e') := shr {| shr_m := M; shr_r := false; shr_s := false |} e n in
  shifted M (2 ^ Z.max n 0) mrs /\ e' = e + Z.max n 0.
Proof.
  intros HM. destruct n as [|q|q]; cbn [shr].
  - split; [by apply shifted_start|lia].
  - rewrite iter_pos_nat. split; [|lia].
    replace (Z.max (Z.pos q) 0) with (Z.of_nat (Pos.to_nat q)) by lia.
    by apply shifted_iter.
  - split; [by apply shifted_start|lia].
Qed.

Lemma rounded_bounds M P mrs :
  0 < P -> shifted M P mrs ->
  shr_m mrs <= rounded mrs /\ (P < 2 * M -> 0 < rounded mrs).
Proof.
  intros HP (R & HM & HR & Hm & Hr & Hs). destruct mrs as [m r s].
  unfold rounded. cbn [shr_m shr_r shr_s loc_of_shr_record] in *. split.
  - destruct r, s; cbn [round_nearest_even]; try lia. destruct (Z.even m); lia.
  - intros Hhalf. destruct (Z.eq_dec m 0) as [->|Hne].
    + assert (r = true) as -> by (subst r; bool_cases).
      assert (s = true) as -> by (subst s; bool_cases).
      cbn. lia.
    + destruct r, s; cbn [round_nearest_even]; try lia. destruct (Z.even m); lia.
Qed.

Lemma digits2_pos_lower p : 2 ^ (Z.pos (digits2_pos p) - 1) <= Z.pos p.
Proof.
  induction p as [p IH|p IH|]; cbn [digits2_pos]; [| |done].
  - rewrite Pos2Z.inj_succ. replace (Z.succ (Z.pos (digits2_pos p)) - 1)
      with (Z.succ (Z.pos (digits2_pos p) - 1)) by lia.
    rewrite Z.pow_succ_r by lia. lia.
  - rewrite Pos2Z.inj_succ. replace (Z.succ (Z.pos (digits2_pos p)) - 1)
      with (Z.succ (Z.pos (digits2_pos p) - 1)) by lia.
    rewrite Z.pow_succ_r by lia. lia.
Qed.

Lemma first_round p e :
  let '(mrs, e') := shr_fexp prec emax (Z.pos p) e loc_Exact in
  0 <= rounded mrs /\ -1074 <= e'
  /\ (-1074 <= e \/ 2 ^ (-1074 - e) < 2 * Z.pos p -> 0 < rounded mrs).
Proof.
  unfold shr_fexp. cbn [shr_record_of_loc Zdigits2]. rewrite fexp_eq.
  pose proof (digits2_pos_lower p) as Hd.
  set (d := Z.pos (digits2_pos p)) in *.
  set (n := Z.max (d + e - 53) (-1074) - e).
  pose proof (shifted_shr (Z.pos p) e n ltac:(lia)) as H.
  destruct (shr _ e n) as [mrs e']. destruct H as [Hsh ->].
  assert (HP : 0 < 2 ^ Z.max n 0) by (apply Z.pow_pos_nonneg; lia).
  destruct (rounded_bounds _ _ _ HP Hsh) as [Hle Hpos].
  destruct Hsh as (R & HM & HR & Hm & _).
  split; [lia|]. split; [lia|]. intros Hc. apply Hpos.
  destruct (Z.le_gt_cases n 0) as [Hn|Hn].
  - rewrite Z.max_r by done. change (2 ^ 0) with 1. lia.
  - rewrite Z.max_l by lia.
    destruct (Z.le_gt_cases (-1074 - e) (d - 53)) as [Hc'|Hc'].
    + assert (n = d - 53) as -> by lia.
      assert (2 ^ (d - 53) <= 2 ^ (d - 1)) by (apply Z.pow_le_mono_r; lia). lia.
    + assert (n = -1074 - e) as -> by lia. destruct Hc as [Hc|Hc]; lia.
Qed.

Lemma second_round m e :
  0 <= m -> -1074 <= e ->
  let '(mrs, _) := shr_fexp prec emax m e loc_Exact in
  0 <= shr_m mrs /\ (0 < m -> 0 < shr_m mrs).
Proof.
  intros Hm He. unfold shr_fexp. cbn [shr_record_of_loc]. rewrite fexp_eq.
  set (n := Z.max (Zdigits2 m + e - 53) (-1074) - e).
  pose proof (shifted_shr m e n Hm) as H.
  destruct (shr _ e n) as [mrs e']. destruct H as [Hsh _].
  destruct Hsh as (R & HM & HR & Hq & _). split; [done|]. intros Hpos.
  destruct m as [|q|q]; [lia| |lia]. cbn [Zdigits2] in n.
  pose proof (digits2_pos_lower q) as Hd.
  set (d := Z.pos (digits2_pos q)) in *.
  destruct (Z.le_gt_cases n 0) as [Hn|Hn].
  - rewrite Z.max_r in HM, HR by done. change (2 ^ 0) with 1 in *. lia.
  - rewrite Z.max_l in HM, HR by lia.
    assert (n = d - 53) by lia.
    assert (2 ^ n <= 2 ^ (d - 1)) by (apply Z.pow_le_mono_r; lia).
    assert (0 < 2 ^ n) by (apply Z.pow_pos_nonneg; lia).
    nia.
Qed.

(** Rounding a positive mantissa to binary64 gives a number that is not
    negative, and a positive one unless the value is at most half of the
    least positive binary64. *)
Lemma binary_round_aux_sign p e :
  sf_nonnegative (binary_round_aux prec emax false (Z.pos p) e loc_Exact) = true
  /\ (-1074 <= e \/ 2 ^ (-1074 - e) < 2 * Z.pos p ->
      sf_positive (binary_round_aux prec emax false (Z.pos p) e loc_Exact) = true).
Proof.
  unfold binary_round_aux.
  pose proof (first_round p e) as H1.
  destruct (shr_fexp prec emax (Z.pos p) e loc_Exact) as [mrs e'].
  destruct H1 as (Hr & He' & Hpos). fold (rounded mrs).
  pose proof (second_round (rounded mrs) e' Hr He') as H2.
  destruct (shr_fexp prec emax (rounded mrs) e' loc_Exact) as [mrs2 e2].
  destruct H2 as [Hm2 Hpos2].
  destruct (shr_m mrs2) as [|q|q]; [| |lia].
  - split; [done|]. intros Hc. specialize (Hpos2 (Hpos Hc)). lia.
  - by destruct (e2 <=? emax - prec).
Qed.

Lemma bounded_emin m e : bounded prec emax m e = true -> -1074 <= e.
Proof.
  unfold bounded, canonical_mantissa. rewrite fexp_eq.
  intros [H%Z.eqb_eq _]%andb_true_iff. lia.
Qed.

Lemma binary_round_sign m e :
  sf_nonnegative (binary_round prec emax false m e) = true
  /\ (-1074 <= e -> sf_positive (binary_round prec emax false m e) = true).
Proof.
  unfold binary_round. rewrite fexp_eq.
  destruct (shl_align m e _) as [mz ez] eqn:E.
  destruct (binary_round_aux_sign mz ez) as [Hn Hp]. split; [done|].
  intros He. apply Hp. left.
  unfold shl_align in E. destruct (_ - e) eqn:Hd; injection E as <- <-; lia.
Qed.

Lemma SFmul_nonnegative m e x :
  sf_nonnegative x = true ->
  sf_nonnegative (SFmul prec emax (S754_finite false m e) x) = true.
Proof.
  destruct x as [s|[]| |[] mx ex]; try done. intros _. cbn [SFmul xorb].
  apply binary_round_aux_sign.
Qed.

(** A constant above one half times a positive binary64 is positive:
    the product of the least positive binary64 rounds up, not to zero. *)
Lemma SFmul_positive m e x :
  2 ^ (- e) < 2 * Z.pos m ->
  sf_positive x = true -> valid_binary x = true ->
  sf_positive (SFmul prec emax (S754_finite false m e) x) = true.
Proof.
  intros Hm. destruct x as [s|[]| |[] mx ex]; try done. intros _ Hv%bounded_emin.
  cbn [SFmul xorb]. apply binary_round_aux_sign. right.
  assert (2 ^ (-1074 - (e + ex)) <= 2 ^ (- e)) by (apply Z.pow_le_mono_r; lia).
  rewrite Pos2Z.inj_mul. nia.
Qed.

Lemma SFadd_positive x y :
  sf_nonnegative x = true -> sf_positive y = true ->
  valid_binary x = true -> valid_binary y = true ->
  sf_positive (SFadd prec emax x y) = true.
Proof.
  destruct x as [sx|[]| |[] mx ex], y as [sy|[]| |[] my ey]; try done.
  intros _ _ Hx%bounded_emin Hy%bounded_emin. cbn [SFadd cond_Zopp Z.add].
  cbn [binary_normalize]. apply binary_round_sign. lia.
Qed.

Lemma ltb_zero f : (0 <? f)%float = sf_positive (Prim2SF f).
Proof.
  rewrite FloatAxioms.ltb_spec. change (Prim2SF 0) with (S754_zero false).
  by destruct (Prim2SF f) as [s|[]| |[] m e].
Qed.

Lemma leb_zero f : (0 <=? f)%float = sf_nonnegative (Prim2SF f).
Proof.
  rewrite FloatAxioms.leb_spec. change (Prim2SF 0) with (S754_zero false).
  by destruct (Prim2SF f) as [s|[]| |[] m e].
Qed.

(** The update rule keeps a positive estimate positive. *)
Theorem ema_positive (o p : float) :
  (0 <=? o)%float = true -> (0 <? p)%float = true ->
  (0 <? 0.3 * o + 0.7 * p)%float = true.
Proof.
  rewrite !ltb_zero, leb_zero, add_spec. intros Ho Hp.
  apply SFadd_positive; try apply Prim2SF_valid; rewrite mul_spec.
  - change (Prim2SF 0.3) with (S754_finite false 5404319552844595 (-54)).
    by apply SFmul_nonnegative.
  - change (Prim2SF 0.7) with (S754_finite false 6305039478318694 (-53)).
    apply SFmul_positive; [by vm_compute|done|apply Prim2SF_valid].
Qed.

Lemma positive_is_number f :
  (0 <? f)%float = true -> is_nan f = false /\ is_zero f = false.
Proof.
  rewrite ltb_zero. unfold is_nan, is_zero. rewrite !FloatAxioms.eqb_spec.
  change (Prim2SF 0) with (S754_zero false).
  destruct (Prim2SF f) as [s|[]| |[] m e]; try done. intros _.
  unfold SFeqb, SFcompare. by rewrite Z.compare_refl, Pos.compare_cont_refl.
Qed.

Lemma of_uint63_nonnegative n : sf_nonnegative (Prim2SF (of_uint63 n)) = true.
Proof.
  rewrite of_uint63_spec. pose proof (Uint63.to_Z_bounded n) as [H _].
  destruct (Uint63.to_Z n) as [|q|q]; [done| |lia].
  apply binary_round_sign.
Qed.

Lemma SF2Prim_nonnegative x :
  sf_nonnegative x = true -> (0 <=? SF2Prim x)%float = true.
Proof.
  destruct x as [[]|[]| |[] m e]; try done. intros _.
  rewrite leb_zero. cbn [SF2Prim]. rewrite Z_ldexp_spec.
  pose proof (of_uint63_nonnegative (Uint63.of_Z (Z.pos m))) as H.
  destruct (Prim2SF _) as [s|[]| |[] mx ex]; try done.
  cbn [SFldexp]. apply binary_round_sign.
Qed.

End Binary64.

(** ** The estimate stays positive *)

Section Positive.
Implicit Types (d : db) (name : string) (f : float).

Lemma positive_insert name owner f d :
  (0 <? f)%float = true -> positive_estimates d ->
  positive_estimates (insert_account name owner (Some f) d).
Proof.
  intros Hf Hd. unfold positive_estimates, insert_account.
  destruct (has_account name d); [done|]. cbn [accounts].
  apply Forall_app. split; [done|]. repeat constructor. by exists f.
Qed.

Lemma positive_update name f d :
  (0 <? f)%float = true -> positive_estimates d ->
  positive_estimates (update_account name (Some f) d).
Proof.
  intros Hf Hd. unfold positive_estimates, update_account in *. cbn [accounts].
  apply Forall_map. eapply Forall_impl; [exact Hd|].
  intros r Hr. unfold set_ema. destruct (String.eqb _ _); [|done]. by exists f.
Qed.

Lemma positive_select name d prev :
  positive_estimates d -> select_ema name d = Some prev ->
  exists p, prev = Some p /\ (0 <? p)%float = true.
Proof.
  unfold positive_estimates, select_ema. intros Hd.
  destruct (List.find _ _) as [r|] eqn:E; [|done]. intros [= <-].
  apply find_some in E as [Hin _].
  rewrite Forall_forall in Hd. apply Hd. by apply list_elem_of_In.
Qed.

Lemma to_float_nonnegative x o :
  nonnegative x -> to_float x = Ok o -> (0 <=? o)%float = true.
Proof.
  destruct x as [z|f]; cbn [nonnegative to_float]; [|by intros ? [= <-]].
  intros Hz. unfold float_of_int.
  assert (Hn : sf_nonnegative (binary_normalize prec emax z 0 false) = true).
  { destruct z as [|q|q]; [done| |lia]. apply Binary64.binary_round_sign. }
  destruct (binary_normalize prec emax z 0 false) as [s|s| |s m e] eqn:E; try done;
    intros [= <-].
  - by apply (Binary64.SF2Prim_nonnegative (S754_zero s)).
  - by apply (Binary64.SF2Prim_nonnegative (S754_finite s m e)).
Qed.

Lemma real_of_positive f : (0 <? f)%float = true -> real_of_float f = Some f.
Proof.
  intros [Hnan Hzero]%Binary64.positive_is_number.
  unfold real_of_float. by rewrite Hnan, Hzero.
Qed.

Lemma update_ema_positive name observed d :
  nonnegative observed -> positive_estimates d ->
  positive_estimates (fst (update_ema name observed d)).
Proof.
  intros Hobs Hd. unfold update_ema.
  destruct (select_ema name d) as [prev|] eqn:Hsel.
  - destruct (positive_select name d prev Hd Hsel) as (p & -> & Hp).
    destruct (to_float observed) as [o|e] eqn:Ho.
    + rewrite (ema_value_float _ _ _ Ho). cbn [mbind result_bind bind_real].
      pose proof (Binary64.ema_positive o p (to_float_nonnegative _ _ Hobs Ho) Hp) as He.
      rewrite (real_of_positive _ He). cbn [fst]. by apply positive_update.
    + assert (ema_value observed (Some p) = Raise e) as ->; [|done].
      unfold ema_value, pymul, arith. cbn [to_float mbind result_bind].
      by rewrite Ho.
  - rewrite default_bound. cbn [fst]. by apply positive_insert.
Qed.

Lemma run_op_positive o d :
  nonnegative_op o -> positive_estimates d -> positive_estimates (run_op o d).
Proof.
  destruct o as [name owner|name observed]; cbn [nonnegative_op run_op].
  - intros _ Hd. rewrite add_account_meta_default. cbn [fst].
    by apply positive_insert.
  - apply update_ema_positive.
Qed.

End Positive.

(** C7: from a store whose estimates are positive (the empty one at
    first), after each call of a sequence of registrations, which store
    the default 120, and of updates with observations that are not
    negative, every stored estimate is a binary64 number strictly above
    zero. *)
Theorem estimates_stay_positive (ops : list op) (d : db) (n : nat) :
  positive_estimates d ->
  Forall nonnegative_op ops ->
  positive_estimates (run_ops (take n ops) d).
Proof.
  intros Hd Hops. apply (Forall_take _ n) in Hops.
  revert d Hd. induction Hops as [|o ops' Ho _ IH]; intros d Hd; [done|].
  cbn [run_ops fold_left]. apply IH. by apply run_op_positive.
Qed.

Lemma estimates_stay_positive_witness :
  positive_estimates
    (run_ops (take 3 [Register "acc1" 42; Update "acc1" (PyFloat 108);
                      Update "acc2" (PyInt 0); Update "acc1" (PyInt 30)])
       empty_db).
Proof.
  apply estimates_stay_positive.
  - constructor.
  - repeat constructor; vm_compute; congruence.
Defined.

Example estimates_after_three_calls :
  map ema_cooldown
    (accounts (run_ops [Register "acc1" 42; Update "acc1" (PyFloat 108);
                        Update "acc1" (PyInt 0)] empty_db))
  = [Some 81.48%float].
Proof. by vm_compute. Qed.

(** ** Seeding *)

Section Seeding.
Implicit Types (d : db) (u k l : string) (ls : list string) (n : Z).

Lemma insert_link_accounts u k d : accounts (insert_link u k d) = accounts d.
Proof. unfold insert_link. by destruct (has_url u d). Qed.

Lemma insert_link_mono u u' k d : has_url u d = true -> has_url u (insert_link u' k d) = true.
Proof.
  intros H. unfold insert_link. destruct (has_url u' d); [done|].
  unfold has_url in *. cbn [links]. by rewrite existsb_app, H.
Qed.

Lemma insert_link_other u u' k d :
  u <> u' -> has_url u (insert_link u' k d) = has_url u d.
Proof.
  intros Hne. unfold insert_link. destruct (has_url u' d); [done|].
  unfold has_url. cbn [links]. rewrite existsb_app. cbn [existsb url].
  rewrite (proj2 (String.eqb_neq u' u)) by congruence.
  by rewrite !orb_false_r.
Qed.

Lemma rows_of_url_insert_other u u' k d :
  u <> u' -> rows_of_url u (insert_link u' k d) = rows_of_url u d.
Proof.
  intros Hne. unfold insert_link. destruct (has_url u' d); [done|].
  unfold rows_of_url. cbn [links]. rewrite List.filter_app. cbn [List.filter url].
  rewrite (proj2 (String.eqb_neq u' u)) by congruence.
  by rewrite app_nil_r.
Qed.

Lemma insert_link_links u k d : links (insert_link u k d) = links d ++ added_rows u k d.
Proof.
  unfold insert_link, added_rows. destruct (has_url u d); [by rewrite app_nil_r|done].
Qed.

Lemma seed_line_eq d n l :
  seed_line (d, n) l
  = if negb (PyStr.nonempty (PyStr.strip l)) then (d, n)
    else (insert_link (PyStr.strip l) "unknown" d,
          n + (if has_url (PyStr.strip l) d then 0 else 1)).
Proof. reflexivity. Qed.

Lemma seed_fold_spec ls d n :
  exists new,
    links (fst (fold_left seed_line ls (d, n))) = links d ++ new
    /\ Forall (fun r => kind r = "unknown" /\ status r = "pending"
                        /\ PyStr.nonempty (url r) = true) new
    /\ snd (fold_left seed_line ls (d, n)) = n + Z.of_nat (length new)
    /\ accounts (fst (fold_left seed_line ls (d, n))) = accounts d
    /\ (unique_urls d -> unique_urls (fst (fold_left seed_line ls (d, n)))).
Proof.
  revert d n. induction ls as [|l ls IH]; intros d n.
  - exists []. cbn. rewrite app_nil_r. repeat split; try done. lia.
  - cbn [fold_left]. rewrite seed_line_eq.
    destruct (negb (PyStr.nonempty (PyStr.strip l))) eqn:Hblank; [apply IH|].
    apply negb_false_iff in Hblank.
    destruct (IH (insert_link (PyStr.strip l) "unknown" d)
                 (n + (if has_url (PyStr.strip l) d then 0 else 1)))
      as (new & Hl & Hnew & Hn & Ha & Hu).
    exists (added_rows (PyStr.strip l) "unknown" d ++ new).
    rewrite Hl, Hn, Ha, insert_link_links, insert_link_accounts, <- app_assoc.
    split; [done|]. split.
    { apply Forall_app. split; [|done]. unfold added_rows.
      destruct (has_url _ d); repeat constructor; done. }
    split.
    { rewrite length_app. unfold added_rows. destruct (has_url _ d); simpl length; lia. }
    split; [done|]. intros Hd. by apply Hu, insert_link_unique.
Qed.

Lemma seed_fold_present ls d n :
  Forall (fun l => PyStr.nonempty (PyStr.strip l) = true ->
                   has_url (PyStr.strip l) d = true) ls ->
  fold_left seed_line ls (d, n) = (d, n).
Proof.
  induction 1 as [|l ls Hl _ IH]; [done|]. cbn [fold_left]. rewrite seed_line_eq.
  destruct (PyStr.nonempty (PyStr.strip l)) eqn:E; cbn [negb]; [|done].
  rewrite (Hl eq_refl), insert_link_present by auto.
  by rewrite Z.add_0_r.
Qed.

Lemma seed_fold_mono ls d n u :
  has_url u d = true -> has_url u (fst (fold_left seed_line ls (d, n))) = true.
Proof.
  revert d n. induction ls as [|l ls IH]; intros d n H; [done|].
  cbn [fold_left]. rewrite seed_line_eq.
  destruct (negb _); [by apply IH|]. by apply IH, insert_link_mono.
Qed.

Lemma seed_fold_stores ls d n :
  Forall (fun l => PyStr.nonempty (PyStr.strip l) = true ->
                   has_url (PyStr.strip l) (fst (fold_left seed_line ls (d, n))) = true) ls.
Proof.
  revert d n. induction ls as [|l ls IH]; intros d n; [done|].
  constructor.
  - intros Hl. cbn [fold_left]. rewrite seed_line_eq, Hl. cbn [negb].
    apply seed_fold_mono, insert_link_has_url.
  - cbn [fold_left]. destruct (seed_line (d, n) l) as [d1 n1]. apply IH.
Qed.

End Seeding.

(** X1: [seed_links_from_file] only appends to the links table: the rows
    it adds have kind "unknown", status "pending" and a url that is not
    empty, the number it returns is the number of rows it added, the
    accounts table is untouched and the uniqueness of urls is kept. *)
Theorem seed_links_appends (file : option string) (d : db) :
  unique_urls d ->
  let d' := fst (seed_links_from_file file d) in
  unique_urls d'
  /\ accounts d' = accounts d
  /\ exists new,
       links d' = links d ++ new
       /\ Forall (fun r => kind r = "unknown" /\ status r = "pending"
                           /\ PyStr.nonempty (url r) = true) new
       /\ snd (seed_links_from_file file d) = Z.of_nat (length new).
Proof.
  intros Hd. destruct file as [content|]; cbn [seed_links_from_file].
  - destruct (seed_fold_spec (readlines content) d 0) as (new & Hl & Hnew & Hn & Ha & Hu).
    split; [by apply Hu|]. split; [done|]. exists new.
    split; [done|]. split; [done|]. rewrite Hn. lia.
  - cbn. split; [done|]. split; [done|]. exists []. by rewrite app_nil_r.
Qed.

Lemma seed_links_appends_witness :
  let d' := fst (seed_links_from_file (Some two_links_file) empty_db) in
  unique_urls d'
  /\ accounts d' = accounts empty_db
  /\ exists new,
       links d' = links empty_db ++ new
       /\ Forall (fun r => kind r = "unknown" /\ status r = "pending"
                           /\ PyStr.nonempty (url r) = true) new
       /\ snd (seed_links_from_file (Some two_links_file) empty_db)
          = Z.of_nat (length new).
Proof.
  apply (seed_links_appends (Some two_links_file) empty_db). apply NoDup_nil_2.
Defined.

Example seed_two_links :
  readlines two_links_file
  = ["https://t.me/+AbCd1234" +:+ nl; nl; "  @somebot " +:+ nl; "https://t.me/+AbCd1234"]
  /\ map url (links (fst (seed_links_from_file (Some two_links_file) empty_db)))
     = ["https://t.me/+AbCd1234"; "@somebot"]
  /\ snd (seed_links_from_file (Some two_links_file) empty_db) = 2.
Proof. by vm_compute. Qed.

(** X2: seeding the same file a second time adds nothing and returns 0,
    whatever the store was before the first seeding. *)
Theorem seed_links_twice (content : string) (d : db) :
  let d1 := fst (seed_links_from_file (Some content) d) in
  seed_links_from_file (Some content) d1 = (d1, 0).
Proof.
  cbn [seed_links_from_file]. apply seed_fold_present.
  eapply Forall_impl; [apply (seed_fold_stores (readlines content) d 0)|]. auto.
Qed.

Section SeededRows.
Implicit Types (d : db) (x l : string) (ls : list string) (n : Z).

Lemma seed_fold_keeps_rows ls d n x :
  has_url x d = true ->
  rows_of_url x (fst (fold_left seed_line ls (d, n))) = rows_of_url x d.
Proof.
  revert d n. induction ls as [|l ls IH]; intros d n Hx; [done|].
  cbn [fold_left]. rewrite seed_line_eq.
  destruct (negb _); [by apply IH|].
  rewrite IH by (by apply insert_link_mono).
  destruct (String.eqb_spec x (PyStr.strip l)) as [<-|Hne].
  - by rewrite insert_link_present.
  - by apply rows_of_url_insert_other.
Qed.

Lemma seed_fold_new_rows ls d n l :
  l ∈ ls -> PyStr.nonempty (PyStr.strip l) = true ->
  has_url (PyStr.strip l) d = false ->
  kind <$> rows_of_url (PyStr.strip l) (fst (fold_left seed_line ls (d, n))) = ["unknown"].
Proof.
  revert d n. induction ls as [|l0 ls IH]; intros d n Hin Hl Hd.
  { by apply elem_of_nil in Hin. }
  cbn [fold_left]. rewrite seed_line_eq.
  destruct (String.eqb_spec (PyStr.strip l0) (PyStr.strip l)) as [Heq|Hne].
  - rewrite Heq, Hl. cbn [negb].
    rewrite seed_fold_keeps_rows by apply insert_link_has_url.
    by rewrite rows_of_url_fresh.
  - apply elem_of_cons in Hin as [->|Hin]; [done|].
    destruct (negb _); [by apply IH|].
    apply IH; [done|done|]. rewrite insert_link_other by congruence. done.
Qed.

End SeededRows.

(** X3: a link first stored by seeding keeps the kind "unknown": a later
    message with the same trimmed text changes nothing in the store,
    while the reply names the category [classify_link] computes for
    it. *)
Theorem seeded_link_stays_unknown (u : Z) (content l t : string) (w : world) :
  l ∈ readlines content ->
  PyStr.nonempty (PyStr.strip l) = true ->
  has_url (PyStr.strip l) (database w) = false ->
  PyStr.startswith t "http" || PyStr.startswith t "@" = true ->
  PyStr.strip t = PyStr.strip l ->
  let w1 := cmd_seed_links u (Some content) w in
  let w2 := classify_msg u t w1 in
  database w2 = database w1
  /\ kind <$> rows_of_url (PyStr.strip t) (database w2) = ["unknown"]
  /\ last (trace w2)
     = Some (Reply u ("Saved link as kind=" +:+ classify_link t
                      +:+ ". Use /export_assist <session_name> to get assist file.")).
Proof.
  intros Hin Hl Hd Ht Heq w1 w2.
  assert (Hd1 : database w1 = fst (seed_links_from_file (Some content) (database w))).
  { unfold w1, cmd_seed_links. by destruct (seed_links_from_file _ _). }
  assert (Hrows : kind <$> rows_of_url (PyStr.strip t) (database w1) = ["unknown"]).
  { rewrite Hd1, Heq. cbn [seed_links_from_file]. by apply seed_fold_new_rows. }
  assert (Hhas : has_url (PyStr.strip t) (database w1) = true).
  { destruct (has_url (PyStr.strip t) (database w1)) eqn:E; [done|].
    unfold rows_of_url in Hrows. rewrite filter_url_absent in Hrows; [done|].
    rewrite <- has_url_spec. congruence. }
  assert (Hd2 : database w2 = database w1).
  { unfold w2, classify_msg. rewrite Ht. cbn [database with_database reply emit with_trace].
    by apply insert_link_present. }
  split; [done|]. split; [by rewrite Hd2|].
  unfold w2, classify_msg. rewrite Ht. unfold reply, emit, with_trace. cbn [trace].
  by rewrite last_snoc.
Qed.

Lemma seeded_link_stays_unknown_witness :
  let w1 := cmd_seed_links 7 (Some two_links_file) initial_world in
  let w2 := classify_msg 7 "https://t.me/+AbCd1234" w1 in
  database w2 = database w1
  /\ kind <$> rows_of_url (PyStr.strip "https://t.me/+AbCd1234") (database w2) = ["unknown"]
  /\ last (trace w2)
     = Some (Reply 7 ("Saved link as kind=" +:+ classify_link "https://t.me/+AbCd1234"
                      +:+ ". Use /export_assist <session_name> to get assist file.")).
Proof.
  refine (seeded_link_stays_unknown 7 two_links_file "https://t.me/+AbCd1234"
            "https://t.me/+AbCd1234" initial_world _ _ _ _ _).
  - apply (bool_decide_unpack _). vm_compute. reflexivity.
  - reflexivity.
  - reflexivity.
  - reflexivity.
  - reflexivity.
Defined.

(** ** Trimming *)

Section Strip.
Implicit Types (s : string).

Lemma lstrip_idem s : PyStr.lstrip (PyStr.lstrip s) = PyStr.lstrip s.
Proof.
  induction s as [|c s IH]; [done|]. cbn [PyStr.lstrip].
  destruct (PyStr.is_space c) eqn:E; [done|]. cbn [PyStr.lstrip]. by rewrite E.
Qed.

Lemma rstrip_cons c s :
  PyStr.rstrip (String c s)
  = match PyStr.rstrip s with
    | EmptyString => if PyStr.is_space c then EmptyString else String c EmptyString
    | r => String c r
    end.
Proof. reflexivity. Qed.

Lemma rstrip_idem s : PyStr.rstrip (PyStr.rstrip s) = PyStr.rstrip s.
Proof.
  induction s as [|c s IH]; [done|]. rewrite rstrip_cons.
  destruct (PyStr.rstrip s) as [|c' r] eqn:E.
  - destruct (PyStr.is_space c) eqn:Ec; [done|]. rewrite rstrip_cons. cbn [PyStr.rstrip].
    by rewrite Ec.
  - rewrite rstrip_cons, IH. done.
Qed.

Lemma lstrip_rstrip s : PyStr.lstrip (PyStr.rstrip s) = PyStr.rstrip (PyStr.lstrip s).
Proof.
  induction s as [|c s IH]; [done|]. rewrite rstrip_cons. cbn [PyStr.lstrip].
  destruct (PyStr.is_space c) eqn:Ec.
  - rewrite <- IH. destruct (PyStr.rstrip s) as [|c' r]; [done|].
    cbn [PyStr.lstrip]. by rewrite Ec.
  - rewrite rstrip_cons.
    destruct (PyStr.rstrip s) as [|c' r]; cbn [PyStr.lstrip]; by rewrite Ec.
Qed.

Lemma strip_idem s : PyStr.strip (PyStr.strip s) = PyStr.strip s.
Proof.
  unfold PyStr.strip. by rewrite lstrip_rstrip, lstrip_idem, rstrip_idem.
Qed.

End Strip.

Lemma classify_link_kinds t :
  classify_link t = "unknown" \/ classify_link t = "bot" \/ classify_link t = "group_invite".
Proof.
  unfold classify_link.
  repeat match goal with |- context [if ?b then _ else _] => destruct b end; auto.
Qed.

Lemma classify_link_strip t : classify_link (PyStr.strip t) = classify_link t.
Proof. unfold classify_link. by rewrite strip_idem. Qed.

(** X4: the category depends on the trimmed text only, so the row that
    [classify_msg] creates for a new identifier holds the category that
    [classify_link] gives for the url it stores. *)
Theorem stored_kind_is_kind_of_url (u : Z) (t : string) (w : world) :
  PyStr.startswith t "http" || PyStr.startswith t "@" = true ->
  has_url (PyStr.strip t) (database w) = false ->
  classify_link (PyStr.strip t) = classify_link t
  /\ exists r, rows_of_url (PyStr.strip t) (database (classify_msg u t w)) = [r]
               /\ url r = PyStr.strip t
               /\ kind r = classify_link (url r)
               /\ status r = "pending".
Proof.
  intros Ht Hnew.
  assert (Hk : classify_link (PyStr.strip t) = classify_link t).
  { unfold classify_link. by rewrite strip_idem. }
  split; [done|]. unfold classify_msg. rewrite Ht.
  cbn [database with_database reply emit with_trace].
  rewrite rows_of_url_fresh by done. eexists. split; [reflexivity|].
  cbn [url kind status]. by rewrite Hk.
Qed.

Lemma stored_kind_is_kind_of_url_witness :
  classify_link (PyStr.strip " https://t.me/+AbCd1234 ") = classify_link " https://t.me/+AbCd1234 "
  /\ exists r, rows_of_url (PyStr.strip "https://T.me/Examplebot  ")
                 (database (classify_msg 7 "https://T.me/Examplebot  " initial_world)) = [r]
               /\ url r = PyStr.strip "https://T.me/Examplebot  "
               /\ kind r = classify_link (url r)
               /\ status r = "pending".
Proof.
  split; [reflexivity|].
  apply (stored_kind_is_kind_of_url 7 "https://T.me/Examplebot  " initial_world);
    reflexivity.
Defined.

(** X5: what a new identifier adds to the export: a message that
    [classify_msg] stores as a new row is appended to the identifiers
    that [cmd_export_assist] lists, in arrival order, unless its category
    is "bot", in which case the listed identifiers stay the same. *)
Theorem new_link_in_export (u : Z) (t : string) (w : world) :
  PyStr.startswith t "http" || PyStr.startswith t "@" = true ->
  has_url (PyStr.strip t) (database w) = false ->
  select_pending (database (classify_msg u t w))
  = select_pending (database w)
    ++ (if String.eqb (classify_link t) "bot" then [] else [PyStr.strip t]).
Proof.
  intros Ht Hnew. unfold classify_msg. rewrite Ht.
  cbn [database with_database reply emit with_trace].
  unfold select_pending. rewrite insert_link_links. unfold added_rows. rewrite Hnew.
  rewrite List.filter_app, map_app. f_equal.
  cbn [List.filter]. unfold exportable. cbn [status kind].
  destruct (classify_link_kinds t) as [-> | [-> | ->]]; reflexivity.
Qed.

Lemma new_link_in_export_witness :
  select_pending (database (classify_msg 7 "https://t.me/examplebot" one_link_world))
  = select_pending (database one_link_world)
    ++ (if String.eqb (classify_link "https://t.me/examplebot") "bot" then []
        else [PyStr.strip "https://t.me/examplebot"]).
Proof.
  apply (new_link_in_export 7 "https://t.me/examplebot" one_link_world); reflexivity.
Defined.

(** ** Accounts: registration and updates *)

Section AccountRows.
Implicit Types (d : db) (name : string) (v : option float).

Lemma rows_of_account_insert_other name name' owner v d :
  name' <> name ->
  rows_of_account name' (insert_account name owner v d) = rows_of_account name' d.
Proof.
  intros Hne. unfold insert_account. destruct (has_account name d); [done|].
  unfold rows_of_account. cbn [accounts]. rewrite List.filter_app.
  cbn [List.filter session_name].
  rewrite (proj2 (String.eqb_neq name name')) by congruence. by rewrite app_nil_r.
Qed.

Lemma rows_of_account_update_other name name' v d :
  name' <> name ->
  rows_of_account name' (update_account name v d) = rows_of_account name' d.
Proof.
  intros Hne. unfold rows_of_account, update_account. cbn [accounts].
  induction (accounts d) as [|r l IH]; [done|]. cbn [map List.filter].
  unfold set_ema at 1 2. destruct (String.eqb_spec (session_name r) name) as [Hr|Hr].
  - cbn [session_name]. rewrite (proj2 (String.eqb_neq (session_name r) name')) by congruence.
    exact IH.
  - destruct (String.eqb (session_name r) name'); by rewrite IH.
Qed.

Lemma rows_of_account_fresh name owner v d :
  select_ema name d = None ->
  rows_of_account name (insert_account name owner v d)
  = [ {| account_id := accounts_seq d + 1; session_name := name;
         owner_telegram_id := owner; ema_cooldown := v |} ].
Proof.
  intros H. apply select_ema_absent in H as Habs. unfold insert_account. rewrite Habs.
  unfold rows_of_account. cbn [accounts]. rewrite List.filter_app.
  cbn [List.filter session_name]. rewrite String.eqb_refl.
  rewrite filter_account_absent; [done|].
  rewrite <- has_account_spec. congruence.
Qed.

Lemma update_ema_store name observed d :
  fst (update_ema name observed d) = d
  \/ (exists v, fst (update_ema name observed d) = update_account name v d)
  \/ exists v, fst (update_ema name observed d) = insert_account name 0 v d.
Proof.
  unfold update_ema. destruct (select_ema name d) as [prev|].
  - destruct (ema ← ema_value observed prev; v ← bind_real ema; Ok (ema, v)) as [[ema v]|e];
      [right; left; by exists v|by left].
  - rewrite default_bound. right. right. by eexists.
Qed.

End AccountRows.

(** X6: an update for a session that has no row does not apply the
    observation: whatever was observed, [update_ema] returns the default
    120 and appends one row for the session, with owner 0 and the
    estimate 120.0. *)
Theorem update_ema_unknown_account (name : string) (observed : pynum) (d : db) :
  select_ema name d = None ->
  snd (update_ema name observed d) = Ok (PyInt DEFAULT_COOLDOWN)
  /\ accounts (fst (update_ema name observed d))
     = accounts d ++ [ {| account_id := accounts_seq d + 1; session_name := name;
                          owner_telegram_id := 0; ema_cooldown := Some 120%float |} ]
  /\ rows_of_account name (fst (update_ema name observed d))
     = [ {| account_id := accounts_seq d + 1; session_name := name;
            owner_telegram_id := 0; ema_cooldown := Some 120%float |} ].
Proof.
  intros H. unfold update_ema. rewrite H, default_bound. cbn [fst snd].
  split; [done|]. split; [|by apply rows_of_account_fresh].
  unfold insert_account. by rewrite (proj1 (select_ema_absent name d) H).
Qed.

Lemma update_ema_unknown_account_witness :
  snd (update_ema "acc2" (PyInt 3600) acc1_db) = Ok (PyInt DEFAULT_COOLDOWN)
  /\ accounts (fst (update_ema "acc2" (PyInt 3600) acc1_db))
     = accounts acc1_db ++ [ {| account_id := accounts_seq acc1_db + 1; session_name := "acc2";
                                owner_telegram_id := 0; ema_cooldown := Some 120%float |} ]
  /\ rows_of_account "acc2" (fst (update_ema "acc2" (PyInt 3600) acc1_db))
     = [ {| account_id := accounts_seq acc1_db + 1; session_name := "acc2";
            owner_telegram_id := 0; ema_cooldown := Some 120%float |} ].
Proof. apply (update_ema_unknown_account "acc2" (PyInt 3600) acc1_db). reflexivity. Defined.

(** X7: [update_ema] for one session leaves the rows of every other
    session and the links table as they were, and keeps session names
    unique. *)
Theorem update_ema_other_sessions (name name' : string) (observed : pynum) (d : db) :
  name' <> name ->
  unique_sessions d ->
  let d' := fst (update_ema name observed d) in
  rows_of_account name' d' = rows_of_account name' d
  /\ links d' = links d
  /\ unique_sessions d'.
Proof.
  intros Hne Hd d'. subst d'.
  destruct (update_ema_store name observed d) as [->|[[v ->]|[v ->]]].
  - done.
  - split; [by apply rows_of_account_update_other|]. split; [done|].
    unfold unique_sessions. by rewrite update_account_names.
  - split; [by apply rows_of_account_insert_other|]. split.
    + unfold insert_account. by destruct (has_account name d).
    + by apply insert_account_unique.
Qed.

Lemma update_ema_other_sessions_witness :
  let d := fst (update_ema "acc2" (PyInt 0) acc1_db) in
  let d' := fst (update_ema "acc1" (PyFloat 108) d) in
  rows_of_account "acc2" d' = rows_of_account "acc2" d
  /\ links d' = links d
  /\ unique_sessions d'.
Proof.
  apply (update_ema_other_sessions "acc1" "acc2" (PyFloat 108)
           (fst (update_ema "acc2" (PyInt 0) acc1_db))).
  - discriminate.
  - vm_compute. repeat constructor; set_solver.
Defined.

(** X8: the first registration of a session name decides its row: a
    second [add_account_meta] for the name, by any owner, changes
    nothing, so the row keeps the first owner and its estimate. *)
Theorem add_account_meta_first_owner (name : string) (o1 o2 : Z) (d : db) :
  select_ema name d = None ->
  let d1 := fst (add_account_meta name o1 d) in
  fst (add_account_meta name o2 d1) = d1
  /\ rows_of_account name d1
     = [ {| account_id := accounts_seq d + 1; session_name := name;
            owner_telegram_id := o1; ema_cooldown := Some 120%float |} ].
Proof.
  intros H d1. subst d1. rewrite !add_account_meta_default. cbn [fst]. split.
  - apply select_ema_insert_present. by rewrite select_ema_insert_absent.
  - by apply rows_of_account_fresh.
Qed.

Lemma add_account_meta_first_owner_witness :
  let d1 := fst (add_account_meta "acc1" 42 empty_db) in
  fst (add_account_meta "acc1" 7 d1) = d1
  /\ rows_of_account "acc1" d1
     = [ {| account_id := accounts_seq empty_db + 1; session_name := "acc1";
            owner_telegram_id := 42; ema_cooldown := Some 120%float |} ].
Proof. apply (add_account_meta_first_owner "acc1" 42 7 empty_db). reflexivity. Defined.

(** ** Export and listing *)



(** ** The store along runs *)

Section StoreInvariant.
Implicit Types (d : db) (w : world) (u : Z) (name text : string).

Lemma store_ok_insert_link x k d :
  PyStr.nonempty x = true -> PyStr.strip x = x ->
  k = "unknown" \/ k = classify_link x ->
  store_ok d -> store_ok (insert_link x k d).
Proof.
  intros Hx Hs Hk (Hu & Ha & Hp & Hl). repeat split.
  - by apply insert_link_unique.
  - unfold unique_sessions. by rewrite insert_link_accounts.
  - unfold positive_estimates. by rewrite insert_link_accounts.
  - rewrite insert_link_links. apply Forall_app. split; [done|].
    unfold added_rows. destruct (has_url x d); [constructor|].
    apply Forall_cons. split; [|constructor]. by repeat split.
Qed.

Lemma insert_account_links name owner v d : links (insert_account name owner v d) = links d.
Proof. unfold insert_account. by destruct (has_account name d). Qed.

Lemma store_ok_insert_account name owner f d :
  (0 <? f)%float = true -> store_ok d -> store_ok (insert_account name owner (Some f) d).
Proof.
  intros Hf (Hu & Ha & Hp & Hl). repeat split.
  - unfold unique_urls. by rewrite insert_account_links.
  - by apply insert_account_unique.
  - by apply positive_insert.
  - by rewrite insert_account_links.
Qed.

Lemma store_ok_update_ema name observed d :
  nonnegative observed -> store_ok d -> store_ok (fst (update_ema name observed d)).
Proof.
  intros Hobs (Hu & Ha & Hp & Hl).
  pose proof (update_ema_positive name observed d Hobs Hp) as Hpos.
  destruct (update_ema_store name observed d) as [E|[[v E]|[v E]]];
    rewrite E in *; repeat split; try done.
  - unfold unique_sessions. by rewrite update_account_names.
  - unfold unique_urls. by rewrite insert_account_links.
  - by apply insert_account_unique.
  - by rewrite insert_account_links.
Qed.

Lemma strip_starts text :
  PyStr.startswith text "http" || PyStr.startswith text "@" = true ->
  PyStr.nonempty (PyStr.strip text) = true.
Proof.
  intros H.
  assert (Hc : exists c t, text = String c t /\ PyStr.is_space c = false).
  { destruct text as [|c t]; [done|]. exists c, t. split; [done|].
    unfold PyStr.startswith in H. cbn [String.prefix] in H.
    destruct (ascii_dec "h" c) as [<-|_]; [done|].
    destruct (ascii_dec "@" c) as [<-|_]; [done|].
    by rewrite orb_false_r in H. }
  destruct Hc as (c & t & -> & Hc). unfold PyStr.strip. cbn [PyStr.lstrip].
  rewrite Hc, rstrip_cons, Hc. by destruct (PyStr.rstrip t).
Qed.

Lemma store_ok_seed ls d n : store_ok d -> store_ok (fst (fold_left seed_line ls (d, n))).
Proof.
  revert d n. induction ls as [|l ls IH]; intros d n Hd; [done|].
  cbn [fold_left]. rewrite seed_line_eq.
  destruct (PyStr.nonempty (PyStr.strip l)) eqn:E; cbn [negb]; [|by apply IH].
  apply IH, store_ok_insert_link; auto using strip_idem.
Qed.

Lemma int_of_digits_nonneg s n : PyStr.int_of_digits s = Some n -> 0 <= n.
Proof.
  unfold PyStr.int_of_digits. destruct (PyStr.nonempty s); [|done]. cbn [andb].
  destruct (PyStr.all_chars PyStr.is_decimal_char s) eqn:E; [|done]. intros [= <-].
  assert (H : forall acc, 0 <= acc -> 0 <= PyStr.decimal_value acc s); [|apply H; lia].
  induction s as [|c s IH]; intros acc Hacc; [done|].
  cbn [PyStr.all_chars PyStr.decimal_value] in *.
  apply andb_true_iff in E as [Hc Hs]. apply IH; [done|].
  unfold PyStr.is_decimal_char in Hc. apply andb_true_iff in Hc as [H1%N.leb_le _]. lia.
Qed.

Lemma report_update_database u name observed recorded w :
  database (report_update u name observed recorded w) = database w
  \/ exists obs, observed = Ok obs
                 /\ database (report_update u name observed recorded w)
                    = fst (update_ema name obs (database w)).
Proof.
  unfold report_update. destruct observed as [obs|e]; [|by left].
  right. exists obs. split; [done|].
  destruct (update_ema name obs (database w)) as [d [new_ema|e]]; [|done].
  by destruct (format_num 1 (Some new_ema)).
Qed.

(** The store after a report is the store before, or the store after an
    update with an observation that is not negative. *)
Lemma cmd_report_database u text w :
  database (cmd_report u text w) = database w
  \/ exists name obs, nonnegative obs
                      /\ database (cmd_report u text w)
                         = fst (update_ema name obs (database w)).
Proof.
  unfold cmd_report.
  destruct (PyStr.split text) as [|cmd [|name [|res rest]]]; try by left.
  destruct (String.eqb (PyStr.strip res) "ok").
  { destruct (report_update_database u (PyStr.strip name)
                (pymul (PyInt DEFAULT_COOLDOWN) (PyFloat 0.9)) "Recorded success." w)
      as [H|(obs & Ho & H)]; [by left|].
    right. exists (PyStr.strip name), obs. split; [|done].
    vm_compute in Ho. injection Ho as <-. by vm_compute. }
  destruct (String.eqb (PyStr.strip res) "fail").
  { destruct (report_update_database u (PyStr.strip name)
                (pymul (PyInt DEFAULT_COOLDOWN) (PyFloat 1.2)) "Recorded failure." w)
      as [H|(obs & Ho & H)]; [by left|].
    right. exists (PyStr.strip name), obs. split; [|done].
    vm_compute in Ho. injection Ho as <-. by vm_compute. }
  destruct rest as [|secs rest']; [by left|].
  destruct (_ && _); [|by left].
  destruct (PyStr.int_of_digits secs) as [sec|] eqn:Hsec; [|by left].
  destruct (report_update_database u (PyStr.strip name) (Ok (PyInt sec))
              ("Recorded FloodWait " +:+ digits sec +:+ "s.") w)
    as [H|(obs & Ho & H)]; [by left|].
  right. exists (PyStr.strip name), obs. split; [|done].
  injection Ho as <-. by apply int_of_digits_nonneg in Hsec.
Qed.

Lemma save_session_database u obj p saved w :
  database (save_session u obj p saved w)
  = insert_account (login_session_name obj) u (Some 120%float) (database w).
Proof. apply save_session_spec. Qed.

(** The store after a handler of the conversation is the store before,
    or the store after a registration with the default. *)
Lemma conversation_database w w' :
  step w w' ->
  database w' = database w
  \/ (exists name u, database w' = insert_account name u (Some 120%float) (database w))
  \/ (exists name obs, nonnegative obs /\ database w' = fst (update_ema name obs (database w)))
  \/ (exists ls n, database w' = fst (fold_left seed_line ls (database w, n)))
  \/ exists text, PyStr.startswith text "http" || PyStr.startswith text "@" = true
                  /\ database w'
                     = insert_link (PyStr.strip text) (classify_link text) (database w).
Proof.
  intros [u w0|u text w0 _|u text w0 _|u text w0 _|u text p w0 _|u text p w0 _
          |u text p w0 _|u w0|u file w0|u text w0|u text w0|u text w0].
  - by left.
  - left. unfold got_session_name. by destruct (negb _).
  - left. unfold got_api_id. destruct (negb _); [done|]. by destruct (PyStr.int_of_digits _).
  - by left.
  - left. unfold got_phone.
    destruct (data_session_name (get_data u w0)), (data_api_id (get_data u w0)),
      (data_api_hash (get_data u w0)); try done.
    by destruct (on_connect p), (on_send_code_request p).
  - unfold got_code. destruct (pending_login w0 !! u) as [obj|]; [|by left].
    destruct (on_sign_in p); [| by left |].
    + right; left. eexists _, _. by rewrite save_session_database.
    + destruct (on_sign_in_code p); [|by left..].
      right; left. eexists _, _. by rewrite save_session_database.
  - unfold got_password. destruct (pending_login w0 !! u) as [obj|]; [|by left].
    destruct (on_sign_in_password p); [|by left..].
    right; left. eexists _, _. by rewrite save_session_database.
  - left. unfold cmd_sessions. destruct (list_accounts _); [done|].
    by destruct (sessions_text _ _).
  - unfold cmd_seed_links, seed_links_from_file. destruct file as [content|]; [|by left].
    do 3 right. left. exists (readlines content), 0.
    by destruct (fold_left seed_line _ _).
  - left. unfold cmd_export_assist.
    destruct (PyStr.split text) as [|cmd [|name rest]]; try done.
    destruct (select_pending _); [done|]. by destruct (format_num 0 _).
  - destruct (cmd_report_database u text w0) as [H|H]; [by left|].
    do 2 right. by left.
  - unfold classify_msg. destruct (_ || _) eqn:E; [|by left].
    do 4 right. exists text. by split.
Qed.

Lemma step_store_ok w w' : step w w' -> store_ok (database w) -> store_ok (database w').
Proof.
  intros Hstep Hd.
  destruct (conversation_database w w' Hstep)
    as [->|[(name & u & ->)|[(name & obs & Hobs & ->)|[(ls & n & ->)|(text & Ht & ->)]]]].
  - done.
  - by apply store_ok_insert_account.
  - by apply store_ok_update_ema.
  - by apply store_ok_seed.
  - apply store_ok_insert_link; auto using strip_starts, strip_idem.
    right. by rewrite classify_link_strip.
Qed.

End StoreInvariant.

Lemma store_ok_reachable (w : world) : reachable w -> store_ok (database w).
Proof.
  induction 1 as [|w w' _ IH Hstep].
  - repeat split; try apply NoDup_nil_2; constructor.
  - by apply (step_store_ok w w').
Qed.

(** X10: in every world the bot can reach from its start, urls and
    session names are unique, every stored estimate is a number above
    zero, and every link is pending, of kind "unknown" or of the kind
    [classify_link] gives for its url, with a trimmed url that is not
    empty. *)
Theorem reachable_store_ok (w : world) : reachable w -> store_ok (database w).
Proof.
  intros Hw. destruct (store_ok_reachable w Hw) as (Hu & Ha & Hp & Hl).
  repeat split; assumption.
Qed.

Lemma reachable_store_ok_witness : store_ok (database one_link_world).
Proof.
  apply reachable_store_ok.
  apply (reachable_step initial_world); [apply reachable_initial|].
  apply step_classify_msg.
Defined.

Section Answers.
Implicit Types (d : db) (w : world) (u : Z) (name text : string).






End Answers.



(** ** The conversations along runs *)

Section FlowInvariant.
Implicit Types (w : world) (u : Z) (text : string) (p : provider).

Lemma entry_of_same u w w' :
  fsm w' !! u = fsm w !! u -> get_state u w' = get_state u w /\ get_data u w' = get_data u w.
Proof. unfold get_state, get_data, entry_of. by intros ->. Qed.

Lemma entry_of_some u w e :
  fsm w !! u = Some e -> get_state u w = fsm_state e /\ get_data u w = fsm_values e.
Proof. unfold get_state, get_data, entry_of. by intros ->. Qed.

Lemma entry_of_none u w :
  fsm w !! u = None -> get_state u w = None /\ get_data u w = no_data.
Proof. unfold get_state, get_data, entry_of. by intros ->. Qed.

(** A step that touches nothing the conversations share. *)
Lemma flows_ok_frame w w' :
  fsm w' = fsm w -> pending_login w' = pending_login w -> live w' = live w ->
  clients w' = clients w -> flows_ok w -> flows_ok w'.
Proof.
  intros Hf Hp Hl Hc (I1 & I2 & I3 & I4 & I5).
  unfold flows_ok, get_state, get_data, entry_of. rewrite Hf, Hp, Hl, Hc.
  by repeat split.
Qed.

(** A step that writes the conversation of [u] and nothing else. *)
Lemma flows_ok_fsm u e w w' :
  fsm w' !! u = Some e -> (forall u', u' <> u -> fsm w' !! u' = fsm w !! u') ->
  pending_login w' = pending_login w -> live w' = live w -> clients w' = clients w ->
  data_ready (fsm_state e) (fsm_values e) ->
  (awaiting_sign_in (fsm_state e) ->
   exists obj, pending_login w !! u = Some obj
               /\ data_session_name (fsm_values e) = Some (login_session_name obj)) ->
  flows_ok w -> flows_ok w'.
Proof.
  intros Hu Hother Hp Hl Hc Hready Hlogin (I1 & I2 & I3 & I4 & I5).
  unfold flows_ok. rewrite Hp, Hl, Hc. repeat split; try done.
  - intros u'. destruct (decide (u' = u)) as [->|Hne].
    + by destruct (entry_of_some u w' e Hu) as [-> ->].
    + destruct (entry_of_same u' w w' (Hother u' Hne)) as [-> ->]. apply I4.
  - intros u'. destruct (decide (u' = u)) as [->|Hne].
    + by destruct (entry_of_some u w' e Hu) as [-> ->].
    + destruct (entry_of_same u' w w' (Hother u' Hne)) as [-> ->]. apply I5.
Qed.

(** A step that ends the conversation of [u]: it closes no connection
    but the one of the pending login it drops. *)
Lemma flows_ok_end u w w' :
  fsm w' !! u = None -> (forall u', u' <> u -> fsm w' !! u' = fsm w !! u') ->
  (forall u', u' <> u -> pending_login w' !! u' = pending_login w !! u') ->
  pending_login w' !! u = pending_login w !! u \/ pending_login w' !! u = None ->
  (forall c, c ∈ live w' -> c ∈ live w) ->
  (forall c, c ∈ live w ->
     c ∈ live w' \/ exists obj, pending_login w !! u = Some obj /\ telethon_client obj = c
                                /\ pending_login w' !! u = None) ->
  (clients w <= clients w')%nat ->
  flows_ok w -> flows_ok w'.
Proof.
  intros Hu Hother Hpo Hpu Hsub Hkeep Hc (I1 & I2 & I3 & I4 & I5).
  assert (Hp : forall u' o, pending_login w' !! u' = Some o -> pending_login w !! u' = Some o).
  { intros u' o. destruct (decide (u' = u)) as [->|Hne]; [|by rewrite Hpo].
    by destruct Hpu as [-> | ->]. }
  repeat split.
  - intros c Hin. specialize (I1 c (Hsub c Hin)). lia.
  - intros u' o Ho. pose proof (Hp u' o Ho) as Ho'.
    destruct (Hkeep _ (I2 u' o Ho')) as [H|(obj & Hobj & Heq & Hnone)]; [done|].
    rewrite (I3 u' u o obj Ho' Hobj (eq_sym Heq)) in Ho. congruence.
  - intros u1 u2 o1 o2 H1 H2. eauto.
  - intros u'. destruct (decide (u' = u)) as [->|Hne].
    + by destruct (entry_of_none u w' Hu) as [-> ->].
    + destruct (entry_of_same u' w w' (Hother u' Hne)) as [-> ->]. apply I4.
  - intros u'. destruct (decide (u' = u)) as [->|Hne].
    + destruct (entry_of_none u w' Hu) as [-> ->]. by intros [|].
    + destruct (entry_of_same u' w w' (Hother u' Hne)) as [-> ->].
      rewrite (Hpo u' Hne). apply I5.
Qed.

(** The step that opens a connection for [u] and records the pending
    login. *)
Lemma flows_ok_open u e obj w w' :
  fsm w' !! u = Some e -> (forall u', u' <> u -> fsm w' !! u' = fsm w !! u') ->
  pending_login w' = <[u := obj]> (pending_login w) ->
  telethon_client obj = clients w ->
  live w' = {[clients w]} ∪ live w -> clients w' = S (clients w) ->
  data_ready (fsm_state e) (fsm_values e) ->
  data_session_name (fsm_values e) = Some (login_session_name obj) ->
  flows_ok w -> flows_ok w'.
Proof.
  intros Hu Hother Hp Hcl Hl Hc Hready Hname (I1 & I2 & I3 & I4 & I5).
  assert (Hfresh : forall u' o, pending_login w !! u' = Some o ->
                     (telethon_client o < clients w)%nat) by (intros; eauto).
  unfold flows_ok. rewrite Hp, Hl, Hc. repeat split.
  - intros c [->%elem_of_singleton|Hin]%elem_of_union; [lia|].
    specialize (I1 c Hin). lia.
  - intros u' o. destruct (decide (u' = u)) as [->|Hne].
    + rewrite lookup_insert_eq. intros [= <-]. rewrite Hcl. set_solver.
    + rewrite lookup_insert_ne by done. intros Ho. specialize (I2 u' o Ho). set_solver.
  - intros u1 u2 o1 o2.
    destruct (decide (u1 = u)) as [->|H1], (decide (u2 = u)) as [->|H2]; [done|..];
      rewrite ?lookup_insert_eq, ?lookup_insert_ne by done.
    + intros [= <-] Ho2 Heq. specialize (Hfresh u2 o2 Ho2). lia.
    + intros Ho1 [= <-] Heq. specialize (Hfresh u1 o1 Ho1). lia.
    + apply I3.
  - intros u'. destruct (decide (u' = u)) as [->|Hne].
    + by destruct (entry_of_some u w' e Hu) as [-> ->].
    + destruct (entry_of_same u' w w' (Hother u' Hne)) as [-> ->]. apply I4.
  - intros u'. destruct (decide (u' = u)) as [->|Hne].
    + destruct (entry_of_some u w' e Hu) as [-> ->]. intros _. exists obj.
      by rewrite lookup_insert_eq.
    + destruct (entry_of_same u' w w' (Hother u' Hne)) as [-> ->].
      rewrite lookup_insert_ne by done. apply I5.
Qed.

Lemma flows_ok_ready u w : flows_ok w -> data_ready (get_state u w) (get_data u w).
Proof. intros (_ & _ & _ & I4 & _). apply I4. Qed.

Lemma flows_ok_login u w :
  flows_ok w -> awaiting_sign_in (get_state u w) ->
  exists obj, pending_login w !! u = Some obj
              /\ data_session_name (get_data u w) = Some (login_session_name obj).
Proof. intros (_ & _ & _ & _ & I5). apply I5. Qed.

Lemma flows_ok_fresh c w : flows_ok w -> c ∈ live w -> c <> clients w.
Proof. intros (I1 & _) Hin. specialize (I1 c Hin). lia. Qed.

(** What [save_session] does to the conversations and the connections. *)
Lemma save_session_flow u obj p saved w :
  let w' := save_session u obj p saved w in
  fsm w' = delete u (fsm w)
  /\ pending_login w' = delete u (pending_login w)
  /\ clients w' = S (clients w)
  /\ (forall c, c ∈ live w' -> c ∈ live w /\ c <> telethon_client obj)
  /\ (forall c, c ∈ live w -> c <> telethon_client obj -> c <> clients w -> c ∈ live w').
Proof.
  unfold save_session. rewrite add_account_meta_default.
  destruct (on_file_connect p); cbn -[insert_account];
    (split; [done|]); (split; [done|]); (split; [done|]); split; intros c; set_solver.
Qed.

Lemma save_session_flows_ok u obj p saved w0 w :
  fsm w = fsm w0 -> pending_login w = pending_login w0 -> live w = live w0 ->
  clients w = clients w0 ->
  pending_login w0 !! u = Some obj ->
  flows_ok w0 -> flows_ok (save_session u obj p saved w).
Proof.
  intros Hf Hp Hl Hc Hobj Hok.
  destruct (save_session_flow u obj p saved w) as (Ef & Ep & Ec & Hsub & Hkeep).
  rewrite Hf in Ef. rewrite Hp in Ep. rewrite Hc in Ec.
  eapply (flows_ok_end u); [..|exact Hok].
  - rewrite Ef. apply lookup_delete_eq.
  - intros u' Hne. rewrite Ef. by apply lookup_delete_ne.
  - intros u' Hne. rewrite Ep. by apply lookup_delete_ne.
  - right. rewrite Ep. apply lookup_delete_eq.
  - intros c Hin. rewrite <- Hl. by apply Hsub.
  - intros c Hin. destruct (decide (c = telethon_client obj)) as [->|Hne].
    + right. exists obj. rewrite Ep. by rewrite lookup_delete_eq.
    + left. apply Hkeep; [by rewrite Hl|done|]. rewrite Hc.
      by apply (flows_ok_fresh c w0).
  - lia.
Qed.

(** A failed sign-in: the connection is closed, the pending login and
    the conversation are dropped. *)
Lemma flows_ok_drop u obj w0 w :
  pending_login w0 !! u = Some obj ->
  fsm w = delete u (fsm w0) -> pending_login w = delete u (pending_login w0) ->
  live w = live w0 ∖ {[telethon_client obj]} -> clients w = clients w0 ->
  flows_ok w0 -> flows_ok w.
Proof.
  intros Hobj Ef Ep El Ec Hok. eapply (flows_ok_end u); [..|exact Hok].
  - rewrite Ef. apply lookup_delete_eq.
  - intros u' Hne. rewrite Ef. by apply lookup_delete_ne.
  - intros u' Hne. rewrite Ep. by apply lookup_delete_ne.
  - right. rewrite Ep. apply lookup_delete_eq.
  - intros c. rewrite El. set_solver.
  - intros c Hin. destruct (decide (c = telethon_client obj)) as [->|Hne].
    + right. exists obj. rewrite Ep. by rewrite lookup_delete_eq.
    + left. rewrite El. set_solver.
  - lia.
Qed.

Lemma report_update_frame u name observed recorded w :
  let w' := report_update u name observed recorded w in
  fsm w' = fsm w /\ pending_login w' = pending_login w /\ live w' = live w
  /\ clients w' = clients w.
Proof.
  unfold report_update. destruct observed as [obs|e]; [|done].
  destruct (update_ema name obs (database w)) as [d [new_ema|e]]; [|done].
  by destruct (format_num 1 (Some new_ema)).
Qed.

Lemma cmd_report_frame u text w :
  let w' := cmd_report u text w in
  fsm w' = fsm w /\ pending_login w' = pending_login w /\ live w' = live w
  /\ clients w' = clients w.
Proof.
  unfold cmd_report.
  destruct (PyStr.split text) as [|cmd [|name [|res rest]]]; try done.
  destruct (String.eqb (PyStr.strip res) "ok"); [apply report_update_frame|].
  destruct (String.eqb (PyStr.strip res) "fail"); [apply report_update_frame|].
  destruct rest as [|secs rest']; [done|].
  destruct (_ && _); [|done].
  destruct (PyStr.int_of_digits secs) as [sec|]; [apply report_update_frame|done].
Qed.

Lemma step_flows_ok w w' : step w w' -> flows_ok w -> flows_ok w'.
Proof.
  intros [u w0|u text w0 Hs|u text w0 Hs|u text w0 Hs|u text p w0 Hs|u text p w0 Hs
          |u text p w0 Hs|u w0|u file w0|u text w0|u text w0|u text w0] Hok.
  - eapply (flows_ok_fsm u); [apply lookup_insert_eq|..|exact Hok]; try done.
    + intros u' Hne. cbn. by rewrite lookup_insert_ne.
    + by intros [|].
  - unfold got_session_name. destruct (negb _); [by apply (flows_ok_frame w0)|].
    eapply (flows_ok_fsm u); [apply lookup_insert_eq|..|exact Hok]; try done.
    + intros u' Hne. cbn. by rewrite !lookup_insert_ne.
    + unfold get_data, entry_of. cbn. rewrite lookup_insert_eq. by cbn.
    + by intros [|].
  - pose proof (flows_ok_ready u w0 Hok) as Hd. rewrite Hs in Hd. cbn in Hd.
    unfold got_api_id. destruct (negb _); [by apply (flows_ok_frame w0)|].
    destruct (PyStr.int_of_digits _) as [n|]; [|by apply (flows_ok_frame w0)].
    eapply (flows_ok_fsm u); [apply lookup_insert_eq|..|exact Hok]; try done.
    + intros u' Hne. cbn. by rewrite !lookup_insert_ne.
    + unfold get_data, entry_of. cbn. rewrite lookup_insert_eq. by cbn.
    + by intros [|].
  - pose proof (flows_ok_ready u w0 Hok) as Hd. rewrite Hs in Hd. cbn in Hd.
    eapply (flows_ok_fsm u); [apply lookup_insert_eq|..|exact Hok]; try done.
    + intros u' Hne. cbn. by rewrite !lookup_insert_ne.
    + unfold get_data, entry_of. cbn. rewrite lookup_insert_eq. cbn.
      destruct Hd. by repeat split.
    + by intros [|].
  - pose proof (flows_ok_ready u w0 Hok) as Hd. rewrite Hs in Hd. cbn in Hd.
    unfold got_phone.
    destruct (data_session_name (get_data u w0)) as [name|] eqn:En;
      [|by apply (flows_ok_frame w0)].
    destruct (data_api_id (get_data u w0)) as [api_id|] eqn:Ei;
      [|by apply (flows_ok_frame w0)].
    destruct (data_api_hash (get_data u w0)) as [api_hash|] eqn:Eh;
      [|by apply (flows_ok_frame w0)].
    assert (Hend : forall w1, fsm w1 = delete u (fsm w0) ->
              pending_login w1 = pending_login w0 ->
              (live w1 = live w0 ∖ {[clients w0]}
               \/ live w1 = ({[clients w0]} ∪ live w0) ∖ {[clients w0]}) ->
              clients w1 = S (clients w0) -> flows_ok w1).
    { intros w1 Ef Ep El Ec. eapply (flows_ok_end u); [..|exact Hok].
      - rewrite Ef. apply lookup_delete_eq.
      - intros u' Hne. rewrite Ef. by apply lookup_delete_ne.
      - intros u' Hne. by rewrite Ep.
      - left. by rewrite Ep.
      - intros c. destruct El as [-> | ->]; set_solver.
      - intros c Hin. left. pose proof (flows_ok_fresh c w0 Hok Hin).
        destruct El as [-> | ->]; set_solver.
      - lia. }
    destruct (on_connect p); [|by apply Hend; [..|left|]|by apply Hend; [..|left|]].
    destruct (on_send_code_request p);
      [|by apply Hend; [..|right|]|by apply Hend; [..|right|]].
    eapply (flows_ok_open u); [apply lookup_insert_eq|..|exact Hok]; try done.
    intros u' Hne. cbn. by rewrite lookup_insert_ne.
  - destruct (flows_ok_login u w0 Hok) as (obj & Hobj & Hname); [left; exact Hs|].
    unfold got_code. rewrite Hobj.
    destruct (on_sign_in p) as [| |e].
    + by apply (save_session_flows_ok u obj p _ w0).
    + eapply (flows_ok_fsm u); [apply lookup_insert_eq|..|exact Hok]; try done.
      * intros u' Hne. cbn. by rewrite lookup_insert_ne.
      * cbn. apply (flows_ok_ready u w0) in Hok. by rewrite Hs in Hok.
      * intros _. by exists obj.
    + destruct (on_sign_in_code p).
      * by apply (save_session_flows_ok u obj p _ w0).
      * by apply (flows_ok_drop u obj w0).
      * by apply (flows_ok_drop u obj w0).
  - destruct (flows_ok_login u w0 Hok) as (obj & Hobj & Hname); [right; exact Hs|].
    unfold got_password. rewrite Hobj.
    destruct (on_sign_in_password p).
    + by apply (save_session_flows_ok u obj p _ w0).
    + by apply (flows_ok_drop u obj w0).
    + by apply (flows_ok_drop u obj w0).
  - apply (flows_ok_frame w0); [..|exact Hok]; unfold cmd_sessions;
      destruct (list_accounts _); try done; by destruct (sessions_text _ _).
  - apply (flows_ok_frame w0); [..|exact Hok]; unfold cmd_seed_links;
      by destruct (seed_links_from_file _ _).
  - apply (flows_ok_frame w0); [..|exact Hok]; unfold cmd_export_assist;
      destruct (PyStr.split text) as [|cmd [|name rest]]; try done;
      destruct (select_pending _); try done; by destruct (format_num 0 _).
  - destruct (cmd_report_frame u text w0) as (Ef & Ep & El & Ec).
    by apply (flows_ok_frame w0).
  - apply (flows_ok_frame w0); [..|exact Hok]; unfold classify_msg; by destruct (_ || _).
Qed.

End FlowInvariant.

Lemma flows_ok_reachable (w : world) : reachable w -> flows_ok w.
Proof.
  induction 1 as [|w w' _ IH Hstep].
  - repeat split; try done.
    + intros u [|]; done.
  - by apply (step_flows_ok w w').
Qed.

Lemma awaiting_code_reachable : reachable awaiting_code_world.
Proof.
  unfold awaiting_code_world.
  eapply reachable_step; [|apply step_got_phone; by vm_compute].
  eapply reachable_step; [|apply step_got_api_hash; by vm_compute].
  eapply reachable_step; [|apply step_got_api_id; by vm_compute].
  eapply reachable_step; [|apply step_got_session_name; by vm_compute].
  eapply reachable_step; [|apply step_add_account_start].
  apply reachable_initial.
Qed.

(** X12: in every world the bot can reach from its start, the
    conversations, the pending logins and the connections fit together:
    every connected client was constructed, the client of every pending
    login is connected, no two operators' pending logins share a client,
    each conversation has stored the keys its state needs, and an
    operator who is asked for the code or the password has a pending
    login for the session name of the conversation. *)
Theorem reachable_flows_ok (w : world) : reachable w -> flows_ok w.
Proof.
  intros Hw. destruct (flows_ok_reachable w Hw) as (I1 & I2 & I3 & I4 & I5).
  repeat split; assumption.
Qed.

Lemma reachable_flows_ok_witness : flows_ok awaiting_code_world.
Proof. apply reachable_flows_ok. apply awaiting_code_reachable. Defined.

(** X13: the handlers that read the context of a conversation find it
    in every reachable world. In the state that waits for the phone
    number the three stored keys are there, so [got_phone] raises no
    [KeyError] and begins with its first message; in the states that wait
    for the code or the password the pending login is there and its
    client is connected, so [got_code] and [got_password] never answer
    that no login is pending: the first begins with "Trying to sign
    in...", the second with the call that sends the password. *)
Theorem context_is_found (w : world) (u : Z) (text : string) (p : provider) :
  reachable w ->
  (get_state u w = Some waiting_phone ->
   head (events_of (got_phone u text p) w) = Some (Reply u "Sending code... please wait."))
  /\ (get_state u w = Some waiting_code ->
      exists obj, pending_login w !! u = Some obj /\ telethon_client obj ∈ live w
                  /\ head (events_of (got_code u text p) w)
                     = Some (Reply u "Trying to sign in..."))
  /\ (get_state u w = Some waiting_password ->
      exists obj, pending_login w !! u = Some obj /\ telethon_client obj ∈ live w
                  /\ head (events_of (got_password u text p) w)
                     = Some (Called (telethon_client obj)
                               (sign_in_password (PyStr.strip text))
                               (on_sign_in_password p))).
Proof.
  intros Hw. pose proof (flows_ok_reachable w Hw) as Hok.
  assert (Hlive : forall obj, pending_login w !! u = Some obj -> telethon_client obj ∈ live w).
  { destruct Hok as (_ & I2 & _). apply I2. }
  split; [|split]; intros Hs.
  - pose proof (flows_ok_ready u w Hok) as Hd. rewrite Hs in Hd.
    destruct Hd as ([name En] & [api_id Ei] & [api_hash Eh]).
    unfold events_of, got_phone. rewrite En, Ei, Eh.
    destruct (on_connect p), (on_send_code_request p);
      cbn; by rewrite <- ?app_assoc, drop_app_length.
  - destruct (flows_ok_login u w Hok) as (obj & Hobj & _); [by left|].
    exists obj. split; [done|]. split; [by apply Hlive|].
    unfold events_of, got_code, save_session. rewrite Hobj, !add_account_meta_default.
    destruct (on_sign_in p), (on_sign_in_code p), (on_file_connect p);
      cbn -[insert_account]; by rewrite <- ?app_assoc, drop_app_length.
  - destruct (flows_ok_login u w Hok) as (obj & Hobj & _); [by right|].
    exists obj. split; [done|]. split; [by apply Hlive|].
    unfold events_of, got_password, save_session. rewrite Hobj, !add_account_meta_default.
    destruct (on_sign_in_password p), (on_file_connect p);
      cbn -[insert_account]; by rewrite <- ?app_assoc, drop_app_length.
Qed.

Lemma context_is_found_witness :
  get_state 7 awaiting_code_world = Some waiting_code
  /\ ((get_state 7 awaiting_code_world = Some waiting_phone ->
       head (events_of (got_phone 7 "11111" all_done) awaiting_code_world)
       = Some (Reply 7 "Sending code... please wait."))
      /\ (get_state 7 awaiting_code_world = Some waiting_code ->
          exists obj, pending_login awaiting_code_world !! 7 = Some obj
                      /\ telethon_client obj ∈ live awaiting_code_world
                      /\ head (events_of (got_code 7 "11111" all_done) awaiting_code_world)
                         = Some (Reply 7 "Trying to sign in..."))
      /\ (get_state 7 awaiting_code_world = Some waiting_password ->
          exists obj, pending_login awaiting_code_world !! 7 = Some obj
                      /\ telethon_client obj ∈ live awaiting_code_world
                      /\ head (events_of (got_password 7 "11111" all_done) awaiting_code_world)
                         = Some (Called (telethon_client obj)
                                   (sign_in_password (PyStr.strip "11111"))
                                   (on_sign_in_password all_done)))).
Proof.
  split; [by vm_compute|].
  apply (context_is_found awaiting_code_world 7 "11111" all_done awaiting_code_reachable).
Defined.

Section Operators.
Implicit Types (w : world) (u : Z) (text : string) (p : provider).

(** The handlers of the conversation of [u] leave the conversation and
    the pending login of any other operator as they are. *)
Lemma conversation_other w u u' text p run :
  u' <> u ->
  run ∈ [add_account_start u; got_session_name u text; got_api_id u text;
         got_api_hash u text; got_phone u text p; got_code u text p;
         got_password u text p] ->
  fsm (run w) !! u' = fsm w !! u'
  /\ pending_login (run w) !! u' = pending_login w !! u'.
Proof.
  intros Hne Hrun. repeat (apply elem_of_cons in Hrun as [->|Hrun]);
    [..|by apply elem_of_nil in Hrun].
  - cbn. by rewrite lookup_insert_ne.
  - unfold got_session_name. destruct (negb _); [done|]. cbn.
    by rewrite !lookup_insert_ne.
  - unfold got_api_id. destruct (negb _); [done|].
    destruct (PyStr.int_of_digits _); [|done]. cbn. by rewrite !lookup_insert_ne.
  - cbn. by rewrite !lookup_insert_ne.
  - unfold got_phone.
    destruct (data_session_name (get_data u w)), (data_api_id (get_data u w)),
      (data_api_hash (get_data u w)); try done.
    destruct (on_connect p), (on_send_code_request p); cbn;
      by rewrite ?lookup_insert_ne, ?lookup_delete_ne.
  - unfold got_code.
    destruct (pending_login w !! u) as [obj|];
      [|cbn; by rewrite ?lookup_delete_ne].
    unfold save_session. rewrite !add_account_meta_default.
    destruct (on_sign_in p), (on_sign_in_code p), (on_file_connect p);
      cbn -[insert_account]; by rewrite ?lookup_insert_ne, ?lookup_delete_ne.
  - unfold got_password.
    destruct (pending_login w !! u) as [obj|];
      [|cbn; by rewrite ?lookup_delete_ne].
    unfold save_session. rewrite !add_account_meta_default.
    destruct (on_sign_in_password p), (on_file_connect p);
      cbn -[insert_account]; by rewrite ?lookup_insert_ne, ?lookup_delete_ne.
Qed.

(** They close no connection but the one of the pending login of [u],
    and the one they open themselves. *)
Lemma conversation_live w u text p run c :
  run ∈ [add_account_start u; got_session_name u text; got_api_id u text;
         got_api_hash u text; got_phone u text p; got_code u text p;
         got_password u text p] ->
  c ∈ live w -> c <> clients w ->
  (forall obj, pending_login w !! u = Some obj -> telethon_client obj <> c) ->
  c ∈ live (run w).
Proof.
  intros Hrun Hin Hfresh Hobj. repeat (apply elem_of_cons in Hrun as [->|Hrun]);
    [..|by apply elem_of_nil in Hrun].
  - done.
  - unfold got_session_name. by destruct (negb _).
  - unfold got_api_id. destruct (negb _); [done|].
    by destruct (PyStr.int_of_digits _).
  - done.
  - unfold got_phone.
    destruct (data_session_name (get_data u w)), (data_api_id (get_data u w)),
      (data_api_hash (get_data u w)); try done.
    destruct (on_connect p), (on_send_code_request p); cbn; set_solver.
  - unfold got_code.
    destruct (pending_login w !! u) as [obj|]; [|done].
    specialize (Hobj obj eq_refl).
    unfold save_session. rewrite !add_account_meta_default.
    destruct (on_sign_in p), (on_sign_in_code p), (on_file_connect p);
      cbn -[insert_account]; set_solver.
  - unfold got_password.
    destruct (pending_login w !! u) as [obj|]; [|done].
    specialize (Hobj obj eq_refl).
    unfold save_session. rewrite !add_account_meta_default.
    destruct (on_sign_in_password p), (on_file_connect p);
      cbn -[insert_account]; set_solver.
Qed.

End Operators.

(** X14: the conversation of one operator does not disturb another's.
    Whatever a handler of the add-account conversation does for operator
    [u] in a reachable world, and whatever the provider answers, any other
    operator keeps the state and the data of their conversation and their
    pending login, and the connection of that pending login stays open. *)
Theorem other_operator_undisturbed (w : world) (u u' : Z) (text : string) (p : provider)
    (run : world -> world) :
  reachable w -> u' <> u ->
  run ∈ [add_account_start u; got_session_name u text; got_api_id u text;
         got_api_hash u text; got_phone u text p; got_code u text p;
         got_password u text p] ->
  get_state u' (run w) = get_state u' w
  /\ get_data u' (run w) = get_data u' w
  /\ pending_login (run w) !! u' = pending_login w !! u'
  /\ forall obj, pending_login w !! u' = Some obj -> telethon_client obj ∈ live (run w).
Proof.
  intros Hw Hne Hrun. pose proof (flows_ok_reachable w Hw) as Hok.
  destruct (conversation_other w u u' text p run Hne Hrun) as [Hf Hp].
  destruct (entry_of_same u' w (run w) Hf) as [Hs Hd].
  repeat split; try done.
  intros obj Hobj. destruct Hok as (I1 & I2 & I3 & _).
  apply (conversation_live w u text p run); [done|exact (I2 u' obj Hobj)| |].
  - specialize (I1 _ (I2 u' obj Hobj)). lia.
  - intros obj' Hobj' Heq. apply Hne. by apply (I3 u' u obj obj').
Qed.

Lemma other_operator_undisturbed_witness :
  get_state 7 (add_account_start 8 awaiting_code_world) = get_state 7 awaiting_code_world
  /\ get_data 7 (add_account_start 8 awaiting_code_world) = get_data 7 awaiting_code_world
  /\ pending_login (add_account_start 8 awaiting_code_world) !! 7
     = pending_login awaiting_code_world !! 7
  /\ forall obj, pending_login awaiting_code_world !! 7 = Some obj ->
                 telethon_client obj ∈ live (add_account_start 8 awaiting_code_world).
Proof.
  apply (other_operator_undisturbed awaiting_code_world 8 7 "hello" all_done
           (add_account_start 8) awaiting_code_reachable); [done|].
  apply list_elem_of_here.
Defined.

(** X15: when the code cannot be sent, because the connection or the
    request for the code fails, the attempt leaves nothing behind. In a
    reachable world where the operator is asked for the phone number,
    [got_phone] then reports the provider's reason, closes the client it
    has constructed, so that the connections are those from before, ends
    the conversation, records no pending login and does not touch the
    store. *)
Theorem got_phone_failure (w : world) (u : Z) (text : string) (p : provider) :
  reachable w -> get_state u w = Some waiting_phone ->
  let a := match on_connect p with Done => on_send_code_request p | a => a end in
  a <> Done ->
  let w' := got_phone u text p w in
  events_of (got_phone u text p) w
  = [Reply u "Sending code... please wait."; Called (clients w) connect (on_connect p)]
    ++ match on_connect p with
       | Done => [Called (clients w) (send_code_request (PyStr.strip text)) a]
       | _ => []
       end
    ++ [Reply u ("Failed to send code: " +:+ reason_of a);
        Called (clients w) disconnect Done]
  /\ live w' = live w
  /\ pending_login w' = pending_login w
  /\ fsm w' = delete u (fsm w)
  /\ database w' = database w
  /\ session_files w' = session_files w.
Proof.
  intros Hw Hs a Ha w'. pose proof (flows_ok_reachable w Hw) as Hok.
  assert (Hfresh : clients w ∉ live w).
  { intros Hin. by apply (flows_ok_fresh _ w Hok Hin). }
  pose proof (flows_ok_ready u w Hok) as Hd. rewrite Hs in Hd.
  destruct Hd as ([name En] & [api_id Ei] & [api_hash Eh]).
  subst w' a. unfold events_of, got_phone. rewrite En, Ei, Eh.
  destruct (on_connect p) eqn:Ec; [destruct (on_send_code_request p) eqn:Es; [done|..]|..];
    cbn; rewrite <- ?app_assoc, drop_app_length;
    (split; [done|]); (split; [set_solver|done]).
Qed.

Lemma awaiting_phone_reachable : reachable awaiting_phone_world.
Proof.
  unfold awaiting_phone_world.
  eapply reachable_step; [|apply step_got_api_hash; by vm_compute].
  eapply reachable_step; [|apply step_got_api_id; by vm_compute].
  eapply reachable_step; [|apply step_got_session_name; by vm_compute].
  eapply reachable_step; [|apply step_add_account_start].
  apply reachable_initial.
Qed.

Lemma got_phone_failure_witness :
  let a := match on_connect no_connection with
           | Done => on_send_code_request no_connection
           | a => a
           end in
  let w' := got_phone 7 "+15550100" no_connection awaiting_phone_world in
  events_of (got_phone 7 "+15550100" no_connection) awaiting_phone_world
  = [Reply 7 "Sending code... please wait.";
     Called (clients awaiting_phone_world) connect (on_connect no_connection)]
    ++ match on_connect no_connection with
       | Done => [Called (clients awaiting_phone_world)
                    (send_code_request (PyStr.strip "+15550100")) a]
       | _ => []
       end
    ++ [Reply 7 ("Failed to send code: " +:+ reason_of a);
        Called (clients awaiting_phone_world) disconnect Done]
  /\ live w' = live awaiting_phone_world
  /\ pending_login w' = pending_login awaiting_phone_world
  /\ fsm w' = delete 7 (fsm awaiting_phone_world)
  /\ database w' = database awaiting_phone_world
  /\ session_files w' = session_files awaiting_phone_world.
Proof.
  refine (got_phone_failure awaiting_phone_world 7 "+15550100" no_connection
            awaiting_phone_reachable _ _); [by vm_compute|done].
Defined.

(** X16: the sign-in with a second factor. In a reachable world where the
    operator is asked for the code, an answer that asks for the password
    stores nothing and closes nothing: the conversation waits for the
    password with the same pending login, whose client stays connected.
    When the password is then accepted, the account is registered under
    the session name of the conversation with this operator as owner, its
    session file is written, the client is closed, and the pending login
    and the conversation are gone. *)
Theorem two_step_sign_in (w : world) (u : Z) (code pwd : string) (p1 p2 : provider)
    (obj : login) :
  reachable w -> get_state u w = Some waiting_code ->
  pending_login w !! u = Some obj ->
  on_sign_in p1 = SessionPasswordNeededError -> on_sign_in_password p2 = Done ->
  let w1 := got_code u code p1 w in
  let w2 := got_password u pwd p2 w1 in
  (get_state u w1 = Some waiting_password
   /\ events_of (got_code u code p1) w
      = [Reply u "Trying to sign in...";
         Called (telethon_client obj) (sign_in (phone obj) (PyStr.strip code))
           SessionPasswordNeededError;
         Reply u "This account has two-step verification (password). Send the password now."]
   /\ pending_login w1 = pending_login w /\ live w1 = live w
   /\ (telethon_client obj ∈ live w1)
   /\ database w1 = database w /\ session_files w1 = session_files w)
  /\ (data_session_name (get_data u w) = Some (login_session_name obj)
      /\ head (events_of (got_password u pwd p2) w1)
         = Some (Called (telethon_client obj) (sign_in_password (PyStr.strip pwd)) Done)
      /\ database w2
         = insert_account (login_session_name obj) u (Some 120%float) (database w)
      /\ (login_session_name obj ∈ session_files w2)
      /\ (telethon_client obj ∉ live w2)
      /\ pending_login w2 !! u = None /\ fsm w2 !! u = None).
Proof.
  intros Hw Hs Hobj H1 H2 w1 w2. pose proof (flows_ok_reachable w Hw) as Hok.
  destruct (flows_ok_login u w Hok) as (obj' & Hobj' & Hname); [by left|].
  rewrite Hobj in Hobj'. injection Hobj' as <-.
  assert (Hlive : telethon_client obj ∈ live w).
  { destruct Hok as (_ & I2 & _). by apply (I2 u). }
  assert (E1 : w1 = w |> reply u "Trying to sign in..."
                      |> called (telethon_client obj) (sign_in (phone obj) (PyStr.strip code))
                           SessionPasswordNeededError
                      |> set_state u waiting_password
                      |> reply u "This account has two-step verification (password). Send the password now.").
  { subst w1. unfold got_code. by rewrite Hobj, H1. }
  split.
  - unfold events_of. fold w1. rewrite E1. cbn.
    rewrite <- !app_assoc, drop_app_length.
    unfold get_state, entry_of. cbn. rewrite lookup_insert_eq. done.
  - split; [done|].
    assert (Hobj1 : pending_login w1 !! u = Some obj) by (by rewrite E1).
    subst w2. clearbody w1. unfold events_of, got_password, save_session.
    rewrite Hobj1, H2, !add_account_meta_default.
    destruct (on_file_connect p2); cbn -[insert_account];
      rewrite <- ?app_assoc, ?drop_app_length, ?lookup_delete_eq;
      rewrite E1; cbn -[insert_account];
      (split; [done|]); (split; [done|]); (split; [set_solver|]);
      (split; [set_solver|done]).
Qed.

Lemma two_step_sign_in_witness :
  let w1 := got_code 7 "11111" second_factor awaiting_code_world in
  let w2 := got_password 7 "hunter2" all_done w1 in
  (get_state 7 w1 = Some waiting_password
   /\ events_of (got_code 7 "11111" second_factor) awaiting_code_world
      = [Reply 7 "Trying to sign in...";
         Called (telethon_client acc1_login)
           (sign_in (phone acc1_login) (PyStr.strip "11111")) SessionPasswordNeededError;
         Reply 7 "This account has two-step verification (password). Send the password now."]
   /\ pending_login w1 = pending_login awaiting_code_world
   /\ live w1 = live awaiting_code_world
   /\ (telethon_client acc1_login ∈ live w1)
   /\ database w1 = database awaiting_code_world
   /\ session_files w1 = session_files awaiting_code_world)
  /\ (data_session_name (get_data 7 awaiting_code_world)
      = Some (login_session_name acc1_login)
      /\ head (events_of (got_password 7 "hunter2" all_done) w1)
         = Some (Called (telethon_client acc1_login)
                   (sign_in_password (PyStr.strip "hunter2")) Done)
      /\ database w2
         = insert_account (login_session_name acc1_login) 7 (Some 120%float)
             (database awaiting_code_world)
      /\ (login_session_name acc1_login ∈ session_files w2)
      /\ (telethon_client acc1_login ∉ live w2)
      /\ pending_login w2 !! 7 = None /\ fsm w2 !! 7 = None).
Proof.
  refine (two_step_sign_in awaiting_code_world 7 "11111" "hunter2" second_factor all_done
            acc1_login awaiting_code_reachable _ _ _ _); by vm_compute.
Defined.

Lemma get_data_update_data u f w : get_data u (update_data u f w) = f (get_data u w).
Proof. unfold get_data, entry_of, update_data. cbn. by rewrite lookup_insert_eq. Qed.

Lemma get_data_set_state u s w : get_data u (set_state u s w) = get_data u w.
Proof. unfold get_data at 1, entry_of, set_state. cbn. by rewrite lookup_insert_eq. Qed.

Lemma get_data_reply u chat text w : get_data u (reply chat text w) = get_data u w.
Proof. reflexivity. Qed.

Lemma questions_answered (w : world) (u : Z) (name_text id_text hash_text : string)
    (api_id : Z) :
  PyStr.nonempty (PyStr.strip name_text) = true ->
  PyStr.int_of_digits (PyStr.strip id_text) = Some api_id ->
  let w4 := w |> add_account_start u |> got_session_name u name_text
              |> got_api_id u id_text |> got_api_hash u hash_text in
  get_state u w4 = Some waiting_phone
  /\ get_data u w4 = {| data_session_name := Some (PyStr.strip name_text);
                        data_api_id := Some api_id;
                        data_api_hash := Some (PyStr.strip hash_text) |}
  /\ pending_login w4 = pending_login w /\ live w4 = live w /\ clients w4 = clients w
  /\ database w4 = database w /\ session_files w4 = session_files w.
Proof.
  intros Hn Hi w4. subst w4. unfold got_api_hash, got_api_id, got_session_name.
  rewrite Hn, (int_of_digits_isdigit _ _ Hi), Hi. cbn [negb].
  unfold add_account_start.
  repeat rewrite ?get_data_reply, ?get_data_set_state, ?get_data_update_data.
  unfold get_state, entry_of. cbn. by rewrite lookup_insert_eq.
Qed.

(** X17: the add-account conversation from its start to the accepted
    code. Whatever the world before, when the operator sends a session
    name that is not blank, an API id of decimal digits, an API hash, a
    phone number and a code, and the provider accepts the connection, the
    request for the code and the sign-in, then the pending login holds
    the trimmed answers and the API id as a number, the sign-in is called
    with the trimmed phone number and code on the client constructed for
    the flow, and at the end the account is registered under the trimmed
    session name with the operator as owner, its session file is
    written, the client is closed and nothing of the conversation is
    left. *)
Theorem add_account_flow (w : world) (u : Z)
    (name_text id_text hash_text phone_text code_text : string) (api_id : Z)
    (p1 p2 : provider) :
  PyStr.nonempty (PyStr.strip name_text) = true ->
  PyStr.int_of_digits (PyStr.strip id_text) = Some api_id ->
  on_connect p1 = Done -> on_send_code_request p1 = Done -> on_sign_in p2 = Done ->
  let w5 := w |> add_account_start u |> got_session_name u name_text
              |> got_api_id u id_text |> got_api_hash u hash_text
              |> got_phone u phone_text p1 in
  let w6 := got_code u code_text p2 w5 in
  get_state u w5 = Some waiting_code
  /\ pending_login w5 !! u
     = Some {| telethon_client := clients w; phone := PyStr.strip phone_text;
               login_session_name := PyStr.strip name_text; login_api_id := api_id;
               login_api_hash := PyStr.strip hash_text |}
  /\ events_of (got_code u code_text p2) w5 !! 1%nat
     = Some (Called (clients w) (sign_in (PyStr.strip phone_text) (PyStr.strip code_text)) Done)
  /\ database w6 = insert_account (PyStr.strip name_text) u (Some 120%float) (database w)
  /\ (PyStr.strip name_text ∈ session_files w6)
  /\ (clients w ∉ live w6)
  /\ pending_login w6 !! u = None /\ fsm w6 !! u = None.
Proof.
  intros Hn Hi Hc Hs Hd w5 w6.
  set (obj := {| telethon_client := clients w; phone := PyStr.strip phone_text;
                 login_session_name := PyStr.strip name_text; login_api_id := api_id;
                 login_api_hash := PyStr.strip hash_text |}).
  assert (E5 : get_state u w5 = Some waiting_code /\ pending_login w5 !! u = Some obj
               /\ database w5 = database w /\ session_files w5 = session_files w).
  { destruct (questions_answered w u name_text id_text hash_text api_id Hn Hi)
      as (_ & E4 & E4p & E4l & E4c & E4d & E4f).
    subst w5. unfold got_phone. rewrite E4, Hc, Hs. cbn [data_session_name data_api_id data_api_hash].
    unfold get_state, entry_of. cbn -[got_api_hash got_api_id got_session_name add_account_start].
    rewrite !lookup_insert_eq, E4c, E4d, E4f. done. }
  destruct E5 as (E5s & E5p & E5d & E5f). clearbody w5.
  split; [done|]. split; [done|].
  subst w6. unfold events_of, got_code, save_session.
  rewrite E5p, Hd, !add_account_meta_default.
  destruct (on_file_connect p2); cbn -[insert_account];
    rewrite <- ?app_assoc, ?drop_app_length, ?lookup_delete_eq, E5d, E5f;
    (split; [done|]); (split; [done|]); (split; [set_solver|]);
    (split; [set_solver|done]).
Qed.

Lemma add_account_flow_witness :
  let w5 := initial_world |> add_account_start 7 |> got_session_name 7 " acc1 "
              |> got_api_id 7 "12345" |> got_api_hash 7 "0123456789abcdef"
              |> got_phone 7 "+15550100 " all_done in
  let w6 := got_code 7 "11111" all_done w5 in
  get_state 7 w5 = Some waiting_code
  /\ pending_login w5 !! 7
     = Some {| telethon_client := clients initial_world;
               phone := PyStr.strip "+15550100 ";
               login_session_name := PyStr.strip " acc1 "; login_api_id := 12345;
               login_api_hash := PyStr.strip "0123456789abcdef" |}
  /\ events_of (got_code 7 "11111" all_done) w5 !! 1%nat
     = Some (Called (clients initial_world)
               (sign_in (PyStr.strip "+15550100 ") (PyStr.strip "11111")) Done)
  /\ database w6
     = insert_account (PyStr.strip " acc1 ") 7 (Some 120%float) (database initial_world)
  /\ (PyStr.strip " acc1 " ∈ session_files w6)
  /\ (clients initial_world ∉ live w6)
  /\ pending_login w6 !! 7 = None /\ fsm w6 !! 7 = None.
Proof.
  refine (add_account_flow initial_world 7 " acc1 " "12345" "0123456789abcdef"
            "+15550100 " "11111" 12345 all_done all_done _ _ _ _ _); by vm_compute.
Defined.

(** X18: the answer to the question for the API id. When the trimmed
    text is a string of decimal digits the conversation goes on to the
    API hash with the number stored, which is never negative, and with
    the session name and the hash it had stored before. Any other text
    leaves every conversation as it was, so the question stays open: the
    handler either answers that the id must be numeric or, for a text
    that [str.isdigit] accepts and [int] refuses, ends with an unhandled
    [ValueError] and no answer. *)
Theorem got_api_id_outcomes (w : world) (u : Z) (text : string) :
  let w' := got_api_id u text w in
  match PyStr.int_of_digits (PyStr.strip text) with
  | Some n =>
      0 <= n
      /\ get_state u w' = Some waiting_api_hash
      /\ get_data u w' = {| data_session_name := data_session_name (get_data u w);
                            data_api_id := Some n;
                            data_api_hash := data_api_hash (get_data u w) |}
  | None =>
      fsm w' = fsm w
      /\ events_of (got_api_id u text) w
         = [if PyStr.isdigit (PyStr.strip text) then Unhandled ValueError
            else Reply u "API_ID must be numeric."]
  end
  /\ pending_login w' = pending_login w /\ live w' = live w /\ database w' = database w.
Proof.
  intros w'. subst w'. unfold events_of, got_api_id.
  destruct (PyStr.int_of_digits (PyStr.strip text)) as [n|] eqn:Hi.
  - rewrite (int_of_digits_isdigit _ _ Hi). cbn [negb].
    repeat rewrite ?get_data_reply, ?get_data_set_state, ?get_data_update_data.
    split; [|done]. split; [by apply (int_of_digits_nonneg _ _ Hi)|].
    split; [|done]. unfold get_state, entry_of. cbn. by rewrite lookup_insert_eq.
  - destruct (PyStr.isdigit (PyStr.strip text)); cbn; by rewrite drop_app_length.
Qed.

Section Exports.
Implicit Types (d : db) (r : link_row).

Lemma select_pending_app d new :
  Forall (fun r => kind r = "unknown" /\ status r = "pending"
                   /\ PyStr.nonempty (url r) = true) new ->
  map url (List.filter exportable (links d ++ new)) = select_pending d ++ map url new.
Proof.
  intros Hnew. unfold select_pending. rewrite List.filter_app, map_app. f_equal. f_equal.
  induction Hnew as [|r new (Hk & Hs & _) _ IH]; [done|].
  cbn [List.filter]. unfold exportable at 1. rewrite Hk, Hs. cbn. by rewrite IH.
Qed.

Lemma link_row_ok_export r :
  link_row_ok r -> exportable r = true \/ (kind r = "bot" /\ classify_link (url r) = "bot").
Proof.
  intros (Hs & Hk & _). unfold exportable. rewrite Hs.
  destruct Hk as [-> | Hk]; [by left|].
  destruct (classify_link_kinds (url r)) as [H|[H|H]]; rewrite H in Hk; rewrite Hk; auto.
Qed.

End Exports.

(** X19: every link a seeding counts is in the next export. The urls
    selected for export after [cmd_seed_links] are those selected before
    followed by new ones, none of them empty, and the reply reports
    their number. *)
Theorem seeded_links_are_exported (u : Z) (file : option string) (w : world) :
  let w' := cmd_seed_links u file w in
  exists urls,
    select_pending (database w') = select_pending (database w) ++ urls
    /\ Forall (fun x => PyStr.nonempty x = true) urls
    /\ trace w' = trace w ++ [Reply u ("Seeded " +:+ str_int (Z.of_nat (length urls))
                                       +:+ " links from links.txt (if exists).")].
Proof.
  intros w'. subst w'. unfold cmd_seed_links, seed_links_from_file.
  destruct file as [content|].
  - destruct (seed_fold_spec (readlines content) (database w) 0)
      as (new & Hl & Hnew & Hn & _).
    destruct (fold_left seed_line (readlines content) (database w, 0)) as [d n].
    cbn [fst snd] in *. exists (map url new). cbn. unfold select_pending at 1.
    rewrite Hl, (select_pending_app _ _ Hnew), length_map, Hn, Z.add_0_l.
    split; [done|]. split; [|done].
    apply Forall_map. eapply Forall_impl; [exact Hnew|]. by intros r (_ & _ & H).
  - exists []. cbn. by rewrite app_nil_r.
Qed.

(** X20: the export leaves out only what the classifier calls a bot. In
    every world the bot can reach from its start, the url of each stored
    link is among the urls selected for export, unless the link is
    stored with kind "bot", and then "bot" is what [classify_link] gives
    for its url. *)
Theorem export_leaves_out_only_bots (w : world) (r : link_row) :
  reachable w -> r ∈ links (database w) ->
  url r ∈ select_pending (database w)
  \/ (kind r = "bot" /\ classify_link (url r) = "bot").
Proof.
  intros Hw Hr. destruct (store_ok_reachable w Hw) as (_ & _ & _ & Hl).
  rewrite Forall_forall in Hl.
  destruct (link_row_ok_export r (Hl r Hr)) as [He|Hb]; [left|by right].
  unfold select_pending. apply list_elem_of_In, in_map, filter_In.
  split; [by apply list_elem_of_In|done].
Qed.

Lemma export_leaves_out_only_bots_witness :
  url invite_row ∈ select_pending (database one_link_world)
  \/ (kind invite_row = "bot" /\ classify_link (url invite_row) = "bot").
Proof.
  apply (export_leaves_out_only_bots one_link_world invite_row).
  - apply (reachable_step initial_world); [apply reachable_initial|].
    apply step_classify_msg.
  - exact (list_elem_of_here invite_row []).
Defined.
